(** * Member publication synchronisation

    A shallow embedding of [sync_member_posts.py] (class [MemberPostSync])
    and the properties its specification states about it.

    Conventions of the embedding.
    - Python [str] values are [string]s.  Text is taken to be ASCII: the
      case functions leave characters above 127 alone and white space is
      the ASCII white space of [str.isspace].
    - Values that come out of [yaml.safe_load] are dynamically typed in the
      source ([isinstance] tests, [in], [.append]); they are values of the
      inductive type [yaml], and an operation applied to a value of the
      wrong type raises, as it does in Python.
    - The libraries the script imports ([yaml], [base64], [requests]) are
      an interface, the class [PyLib]; the functions of the script take it
      as an implicit argument.
    - Methods that log, talk to the network or touch the file system are
      computations of the monad [M]: state passing over a [World] with an
      exception result, so that what was logged or written before a raise
      is still there when an [except] clause takes over. *)

From stdpp Require Import gmap strings list fin_maps.
From Stdlib Require Import ZArith Ascii String Lia.

#[local] Open Scope Z_scope.
#[local] Open Scope string_scope.
#[local] Open Scope list_scope.
#[local] Open Scope stdpp_scope.

(* ------------------------------------------------------------------ *)
(** * Python string operations *)
(* ------------------------------------------------------------------ *)

Module PyStr.

(** A line feed, written [\n] in the source. *)
Definition LF : string := String "010"%char EmptyString.

Definition code (c : ascii) : nat := nat_of_ascii c.

Definition between (lo hi : nat) (c : ascii) : bool :=
  (Nat.leb lo (code c)) && (Nat.leb (code c) hi).

(** [str.isspace] on ASCII: tab to carriage return, the four
    separators 28 to 31, and the space. *)
Definition is_space (c : ascii) : bool := between 9 13 c || between 28 32 c.

Definition is_upper (c : ascii) : bool := between 65 90 c.
Definition is_lower (c : ascii) : bool := between 97 122 c.

Definition lower_char (c : ascii) : ascii :=
  if is_upper c then ascii_of_nat (code c + 32) else c.
Definition upper_char (c : ascii) : ascii :=
  if is_lower c then ascii_of_nat (code c - 32) else c.

(** [s.lower()] *)
Fixpoint lower (s : string) : string :=
  match s with
  | EmptyString => EmptyString
  | String c s' => String (lower_char c) (lower s')
  end.

(** [s.title()]: a cased character is upper-cased when the character
    before it is not cased, and lower-cased when it is. *)
Fixpoint title_go (previous_is_cased : bool) (s : string) : string :=
  match s with
  | EmptyString => EmptyString
  | String c s' =>
      if is_lower c || is_upper c
      then String (if previous_is_cased then lower_char c else upper_char c)
                  (title_go true s')
      else String c (title_go false s')
  end.
Definition title (s : string) : string := title_go false s.

(** [s.startswith(p)] *)
Definition startswith (p s : string) : bool := String.prefix p s.

(** [s.endswith(p)] *)
Definition endswith (p s : string) : bool :=
  String.prefix (String.rev p) (String.rev s).

(** [sub in s] for two strings. *)
Fixpoint contains (sub s : string) : bool :=
  String.prefix sub s ||
  match s with
  | EmptyString => false
  | String _ s' => contains sub s'
  end.

(** [s.split(sep, maxsplit)] for a non-empty separator: occurrences are
    found from the left and do not overlap.  [skip] counts the characters
    of a separator just matched that are still to be passed over; [cur]
    is the piece being collected. *)
Fixpoint split_go (sep : string) (maxsplit skip : nat) (cur s : string)
  : list string :=
  match s with
  | EmptyString => [cur]
  | String c s' =>
      match skip with
      | S k => split_go sep maxsplit k cur s'
      | O =>
          match maxsplit with
          | S n =>
              if String.prefix sep s
              then cur :: split_go sep n (String.length sep - 1) EmptyString s'
              else split_go sep maxsplit O (cur +:+ String c EmptyString) s'
          | O => split_go sep maxsplit O (cur +:+ String c EmptyString) s'
          end
      end
  end.
Definition split (sep : string) (maxsplit : nat) (s : string) : list string :=
  split_go sep maxsplit O EmptyString s.

(** [s.replace(old, new)]; with an empty [old], [new] goes before every
    character and at the end. *)
Fixpoint replace_go (old new : string) (skip : nat) (s : string) : string :=
  match s with
  | EmptyString => EmptyString
  | String c s' =>
      match skip with
      | S k => replace_go old new k s'
      | O =>
          if String.prefix old s
          then new +:+ replace_go old new (String.length old - 1) s'
          else String c (replace_go old new O s')
      end
  end.
Fixpoint interleave (new s : string) : string :=
  match s with
  | EmptyString => new
  | String c s' => new +:+ String c (interleave new s')
  end.
Definition replace (old new s : string) : string :=
  match old with
  | EmptyString => interleave new s
  | _ => replace_go old new O s
  end.

(** [s.lstrip], [s.rstrip] and [s.strip] over a set of characters. *)
Fixpoint lstrip_p (p : ascii -> bool) (s : string) : string :=
  match s with
  | EmptyString => EmptyString
  | String c s' => if p c then lstrip_p p s' else s
  end.
Fixpoint rstrip_p (p : ascii -> bool) (s : string) : string :=
  match s with
  | EmptyString => EmptyString
  | String c s' =>
      match rstrip_p p s' with
      | EmptyString => if p c then EmptyString else String c EmptyString
      | r => String c r
      end
  end.
Definition strip_p (p : ascii -> bool) (s : string) : string :=
  rstrip_p p (lstrip_p p s).

(** [s.strip()] *)
Definition strip (s : string) : string := strip_p is_space s.

(** [s.strip('/')] *)
Definition is_slash (c : ascii) : bool := bool_decide (c = "/"%char).
Definition strip_slash (s : string) : string := strip_p is_slash s.

(** [s[:n]] for a natural [n] *)
Fixpoint take (n : nat) (s : string) : string :=
  match n, s with
  | S k, String c s' => String c (take k s')
  | _, _ => EmptyString
  end.

(** [s[n:]] for a natural [n] *)
Fixpoint drop (n : nat) (s : string) : string :=
  match n, s with
  | S k, String _ s' => drop k s'
  | _, _ => s
  end.

(** [s.count(sub)] for a non-empty [sub]: occurrences from the left
    that do not overlap. *)
Fixpoint count_go (sub : string) (skip : nat) (s : string) : nat :=
  match s with
  | EmptyString => O
  | String _ s' =>
      match skip with
      | S k => count_go sub k s'
      | O =>
          if String.prefix sub s
          then S (count_go sub (String.length sub - 1) s')
          else count_go sub O s'
      end
  end.
Definition count (sub s : string) : nat := count_go sub O s.

(** The characters of [s], each as a string: what [for c in s] yields. *)
Fixpoint chars (s : string) : list string :=
  match s with
  | EmptyString => []
  | String c s' => String c EmptyString :: chars s'
  end.

End PyStr.

(* ------------------------------------------------------------------ *)
(** * Exceptions and results *)
(* ------------------------------------------------------------------ *)

(** The exception classes the script can meet; every one of them is an
    [Exception], which is what its [except] clauses catch. *)
Inductive Exn : Type :=
  | TypeError | AttributeError | KeyError | ValueError | YAMLError
  | FileNotFoundError | FileExistsError | IsADirectoryError
  | NotADirectoryError.

Inductive Result (A : Type) : Type :=
  | Ok (a : A)
  | Raise (e : Exn).
Arguments Ok {A} a.
Arguments Raise {A} e.

Definition rbind {A B} (r : Result A) (k : A -> Result B) : Result B :=
  match r with
  | Ok a => k a
  | Raise e => Raise e
  end.

Declare Scope result_scope.
Delimit Scope result_scope with result.
Notation "x <-? r ; k" := (rbind r (fun x => k))
  (at level 100, r at next level, right associativity) : result_scope.

(** A loop [for x in xs: acc = f(acc, x)] whose body may raise. *)
Fixpoint rfold {A B} (f : A -> B -> Result A) (xs : list B) (acc : A)
  : Result A :=
  match xs with
  | [] => Ok acc
  | x :: xs' => rbind (f acc x) (rfold f xs')
  end.

(* ------------------------------------------------------------------ *)
(** * Values loaded from YAML, with Python's operations on them *)
(* ------------------------------------------------------------------ *)

(** What [yaml.safe_load] returns: [None], booleans, integers, strings,
    lists and dictionaries with string keys.  Floats and timestamps are
    not part of the model. *)
#[warnings="-register-all"]
Inductive yaml : Type :=
  | YNull
  | YBool (b : bool)
  | YInt (z : Z)
  | YStr (s : string)
  | YList (l : list yaml)
  | YDict (m : gmap string yaml).

#[global] Instance yaml_eq_dec : EqDecision yaml.
Proof.
  refine (fix go (x y : yaml) {struct x} : Decision (x = y) :=
    let _ : EqDecision yaml := @go in
    match x, y with
    | YNull, YNull => left _
    | YBool a, YBool b => cast_if (decide (a = b))
    | YInt a, YInt b => cast_if (decide (a = b))
    | YStr a, YStr b => cast_if (decide (a = b))
    | YList a, YList b => cast_if (decide (a = b))
    | YDict a, YDict b => cast_if (decide (a = b))
    | _, _ => right _
    end); abstract congruence.
Defined.

Module Py.

(** Python's [==] identifies [True] with [1] and [False] with [0], also
    inside containers; [norm] maps a value to the representative of its
    class. *)
Fixpoint norm (v : yaml) : yaml :=
  match v with
  | YBool b => YInt (if b then 1 else 0)
  | YList l => YList (map norm l)
  | YDict m => YDict (norm <$> m)
  | _ => v
  end.

(** [a == b] *)
Definition eq (a b : yaml) : bool := bool_decide (norm a = norm b).

(** [bool(v)] *)
Definition truthy (v : yaml) : bool :=
  match v with
  | YNull => false
  | YBool b => b
  | YInt z => negb (Z.eqb z 0)
  | YStr s => negb (bool_decide (s = EmptyString))
  | YList l => negb (bool_decide (l = []))
  | YDict m => negb (bool_decide (m = ∅))
  end.

(** [isinstance(v, list)] *)
Definition is_list (v : yaml) : bool :=
  match v with YList _ => true | _ => false end.

(** [x in l] for a list [l]: some element is [x] or equals it. *)
Definition in_list (x : yaml) (l : list yaml) : bool := existsb (eq x) l.

(** [x in d] for a dictionary with string keys: [x] is hashed first,
    which raises for a list or a dictionary. *)
Definition in_dict {V} (x : yaml) (d : gmap string V) : Result bool :=
  match x with
  | YList _ | YDict _ => Raise TypeError
  | YStr k => Ok (bool_decide (is_Some (d !! k)))
  | _ => Ok false
  end.

(** [d[x]] for a dictionary with string keys. *)
Definition dict_get {V} (d : gmap string V) (x : yaml) : Result V :=
  match x with
  | YList _ | YDict _ => Raise TypeError
  | YStr k =>
      match d !! k with
      | Some v => Ok v
      | None => Raise KeyError
      end
  | _ => Raise KeyError
  end.

(** [x in c] *)
Definition contains (c x : yaml) : Result bool :=
  match c with
  | YList l => Ok (in_list x l)
  | YStr s =>
      match x with
      | YStr sub => Ok (PyStr.contains sub s)
      | _ => Raise TypeError
      end
  | YDict d => in_dict x d
  | _ => Raise TypeError
  end.

(** [c.append(x)]: only lists have the method. The result is the list
    object after the call. *)
Definition append (c x : yaml) : Result yaml :=
  match c with
  | YList l => Ok (YList (l ++ [x]))
  | _ => Raise AttributeError
  end.

(** [if x not in c: c.append(x)] *)
Definition ensure (c x : yaml) : Result yaml :=
  rbind (contains c x) (fun b => if b then Ok c else append c x).

(** What [for x in v] yields.  A dictionary yields its keys; the map
    does not keep the order of insertion, so they come in the order of
    [map_to_list]. *)
Definition iter (v : yaml) : Result (list yaml) :=
  match v with
  | YList l => Ok l
  | YStr s => Ok (map YStr (PyStr.chars s))
  | YDict d => Ok (map (fun kv => YStr (fst kv)) (map_to_list d))
  | _ => Raise TypeError
  end.

(** A [for x in l] loop over a list object that the body may append to:
    the iterator reads [l[i]] from the list as it is at that moment.
    Here the body is [if x not in l: l.append(x)]. *)
Fixpoint ensure_all_live (fuel i : nat) (l : list yaml) : list yaml :=
  match fuel with
  | O => l
  | S fuel' =>
      match l !! i with
      | None => l
      | Some x =>
          ensure_all_live fuel' (S i) (if in_list x l then l else l ++ [x])
      end
  end.

End Py.

(* ------------------------------------------------------------------ *)
(** * Paths and the local file system *)
(* ------------------------------------------------------------------ *)

(** A [pathlib.Path] is the list of its parts; an absolute path has the
    root ["/"] as first part, and the empty list is the current
    directory ["."]. *)
Abbreviation Path := (list string).

Module PurePath.

(** The parts of a path written as text: split at slashes, empty parts
    and ["."] dropped. *)
Definition parts_of (s : string) : Path :=
  filter (fun x => x <> EmptyString /\ x <> ".")
         (PyStr.split "/" (String.length s) s).

(** [p / s] *)
Definition div (p : Path) (s : string) : Path :=
  if PyStr.startswith "/" s then "/" :: parts_of s else p ++ parts_of s.

(** [p.parent] *)
Definition parent (p : Path) : Path :=
  match p with
  | ["/"] => p
  | _ => removelast p
  end.

End PurePath.

Infix "//" := PurePath.div (at level 40, left associativity).

Inductive Node : Type :=
  | File (content : string)
  | Dir.

#[global] Instance Node_eq_dec : EqDecision Node.
Proof. solve_decision. Defined.

Module FS.

(** What is at a path; the current directory and the root are always
    there. *)
Definition node_at (fs : gmap Path Node) (p : Path) : option Node :=
  if bool_decide (p = [] \/ p = ["/"]) then Some Dir else fs !! p.

(** [p.exists()] *)
Definition path_exists (fs : gmap Path Node) (p : Path) : bool :=
  bool_decide (is_Some (node_at fs p)).

(** [open(p, 'r').read()] *)
Definition read_text (fs : gmap Path Node) (p : Path) : Result string :=
  match node_at fs p with
  | Some (File s) => Ok s
  | Some Dir => Raise IsADirectoryError
  | None => Raise FileNotFoundError
  end.

(** [open(p, 'w').write(content)]: the directory of [p] must be there. *)
Definition write_text (fs : gmap Path Node) (p : Path) (content : string)
  : Result (gmap Path Node) :=
  match node_at fs p with
  | Some Dir => Raise IsADirectoryError
  | _ =>
      match node_at fs (PurePath.parent p) with
      | Some Dir => Ok (<[p := File content]> fs)
      | Some (File _) => Raise NotADirectoryError
      | None => Raise FileNotFoundError
      end
  end.

(** [p.mkdir(parents=True, exist_ok=True)], walking down from the
    directory [done] through the parts [rest]: a missing directory is
    created, a file in the way raises. *)
Fixpoint mkdir_chain (fs : gmap Path Node) (done : Path) (rest : list string)
  : Result (gmap Path Node) :=
  match rest with
  | [] => Ok fs
  | part :: rest' =>
      let q := done ++ [part] in
      match node_at fs q with
      | Some (File _) =>
          Raise (match rest' with [] => FileExistsError | _ => NotADirectoryError end)
      | Some Dir => mkdir_chain fs q rest'
      | None => mkdir_chain (<[q := Dir]> fs) q rest'
      end
  end.
Definition mkdir_p (fs : gmap Path Node) (p : Path) : Result (gmap Path Node) :=
  mkdir_chain fs [] p.

End FS.

(* ------------------------------------------------------------------ *)
(** * The world: file system, log, requests made, clock, counters *)
(* ------------------------------------------------------------------ *)

Inductive Level : Type := DEBUG | INFO | WARNING | ERROR.

(** A value interpolated into a log message. *)
Inductive LogArg : Type :=
  | AStr (s : string)
  | AInt (z : Z)
  | APath (p : Path)
  | AExn (e : Exn).

(** A call of [logger.debug], [.info], [.warning] or [.error]: its level,
    the text of the f-string as the source has it, and the values of the
    expressions in braces, in order. *)
Record LogRecord : Type := {
  lr_level : Level;
  lr_template : string;
  lr_args : list LogArg
}.

(** The counters of [_sync_member_posts].  They are local variables
    there; they are kept in the state because an increment made before a
    raise is still there when the [except] clause runs. *)
Record Counts : Type := {
  created_count : nat;
  updated_count : nat;
  skipped_count : nat
}.

Record World : Type := {
  w_fs : gmap Path Node;          (* the local file system *)
  w_log : list LogRecord;         (* what was logged, oldest first *)
  w_requests : list string;       (* the URLs requested, oldest first *)
  w_now : string;                 (* datetime.now().strftime('%Y%m%d%H%M%S') *)
  w_counts : Counts
}.

Definition M (A : Type) : Type := World -> Result A * World.

Definition ret {A} (a : A) : M A := fun w => (Ok a, w).
Definition raise {A} (e : Exn) : M A := fun w => (Raise e, w).
Definition bind {A B} (m : M A) (k : A -> M B) : M B :=
  fun w =>
    match m w with
    | (Ok a, w') => k a w'
    | (Raise e, w') => (Raise e, w')
    end.

(** [try: m except Exception as e: h e] *)
Definition try_except {A} (m : M A) (h : Exn -> M A) : M A :=
  fun w =>
    match m w with
    | (Ok a, w') => (Ok a, w')
    | (Raise e, w') => h e w'
    end.

Definition lift {A} (r : Result A) : M A := fun w => (r, w).

Declare Scope m_scope.
Delimit Scope m_scope with M.
Notation "x <- m ;; k" := (bind m (fun x => k))
  (at level 100, m at next level, right associativity) : m_scope.
Notation "m ;; k" := (bind m (fun _ => k))
  (at level 100, right associativity) : m_scope.
#[local] Open Scope m_scope.

(** [for x in xs: body(x)] *)
Fixpoint for_each {B} (xs : list B) (body : B -> M unit) : M unit :=
  match xs with
  | [] => ret tt
  | x :: xs' => body x ;; for_each xs' body
  end.

(** A loop that builds a list: [for x in xs: acc = body(x, acc)]. *)
Fixpoint for_acc {A B} (xs : list B) (body : B -> A -> M A) (acc : A) : M A :=
  match xs with
  | [] => ret acc
  | x :: xs' => acc' <- body x acc ;; for_acc xs' body acc'
  end.

(** The world with another file system, and with other counters. *)
Definition with_fs (w : World) (fs : gmap Path Node) : World :=
  {| w_fs := fs; w_log := w_log w; w_requests := w_requests w;
     w_now := w_now w; w_counts := w_counts w |}.
Definition with_counts (w : World) (c : Counts) : World :=
  {| w_fs := w_fs w; w_log := w_log w; w_requests := w_requests w;
     w_now := w_now w; w_counts := c |}.

Definition get_fs : M (gmap Path Node) := fun w => (Ok (w_fs w), w).
Definition put_fs (fs : gmap Path Node) : M unit := fun w => (Ok tt, with_fs w fs).
Definition get_now : M string := fun w => (Ok (w_now w), w).
Definition get_counts : M Counts := fun w => (Ok (w_counts w), w).
Definition put_counts (c : Counts) : M unit := fun w => (Ok tt, with_counts w c).
Definition logger (lvl : Level) (template : string) (args : list LogArg)
  : M unit := fun w =>
  (Ok tt, {| w_fs := w_fs w;
             w_log := w_log w ++ [{| lr_level := lvl; lr_template := template;
                                     lr_args := args |}];
             w_requests := w_requests w; w_now := w_now w;
             w_counts := w_counts w |}).

(** The world with more lines in its log. *)
Definition add_log (w : World) (records : list LogRecord) : World :=
  {| w_fs := w_fs w; w_log := w_log w ++ records; w_requests := w_requests w;
     w_now := w_now w; w_counts := w_counts w |}.

Definition record_request (url : string) : M unit := fun w =>
  (Ok tt, {| w_fs := w_fs w; w_log := w_log w;
             w_requests := w_requests w ++ [url]; w_now := w_now w;
             w_counts := w_counts w |}).

(** A file-system operation run on the world's file system. *)
Definition fs_update (op : gmap Path Node -> Result (gmap Path Node)) : M unit :=
  fs <- get_fs ;; fs' <- lift (op fs) ;; put_fs fs'.

(* ------------------------------------------------------------------ *)
(** * Data of the script *)
(* ------------------------------------------------------------------ *)

(** A member record of [members.yml]: the keys [username], [name],
    [profile_url] (read with [member[...]]) and [publications_path],
    [destination_path], [active] (read with [.get] or tested with [in]). *)
Record Member : Type := {
  m_username : string;
  m_name : string;
  m_profile_url : string;
  m_publications_path : option string;
  m_destination_path : option string;
  m_active : option yaml
}.

(** The [sync_config] block of [members.yml]. *)
Record SyncConfig : Type := {
  max_posts_per_member : option Z;
  add_attribution : option yaml;
  category_mapping : option (gmap string string);
  type_mapping : option (gmap string string)
}.

(** [self.config.get('sync_config', {})] *)
Definition empty_sync_config : SyncConfig :=
  {| max_posts_per_member := None; add_attribution := None;
     category_mapping := None; type_mapping := None |}.

Record Config : Type := {
  members : option (list Member);
  sync_config : option SyncConfig
}.

(** An entry of a listing of GitHub's contents API. *)
Record Entry : Type := {
  e_type : string;
  e_name : string;
  e_url : string;
  e_html_url : string;
  e_path : string;
  e_download_url : string
}.

(** What [response.json()] returns from the contents API: the listing of
    a directory, or the object of a file with its [content] key. *)
Inductive Json : Type :=
  | JList (items : list Entry)
  | JObject (content : option string).

Record Response : Type := {
  status_code : Z;
  text : string;          (* response.text *)
  content : string;       (* response.content *)
  json : Result Json      (* response.json(), which may raise *)
}.

(** The libraries the script imports. *)
Class PyLib : Type := {
  (** [yaml.safe_load(text)]; it raises on a malformed document. *)
  yaml_safe_load : string -> Result yaml;
  (** [yaml.dump(d, default_flow_style=False, allow_unicode=True)] *)
  yaml_dump : gmap string yaml -> string;
  (** [base64.b64decode(text).decode('utf-8')] *)
  b64decode_utf8 : string -> Result string;
  (** [str(v)] for a value that is neither a string nor a list *)
  py_str : yaml -> string;
  (** [bool(response)]; [requests] defines it as [response.ok], false
      for a status from 400 to 599. *)
  response_bool : Response -> bool
}.

(** An entry of [publication['image_files']]. *)
Record ImageInfo : Type := {
  img_name : string;
  img_download_url : string;
  img_github_path : string
}.

(** Where the list under [publication['categories']] lives.  The parser
    stores there the very object it found under
    [original_frontmatter['categories']], so an [append] through one name
    is seen through the other. *)
Inductive CategoriesSlot : Type :=
  | CatAbsent                (* the key is not set *)
  | CatOwn (v : yaml)        (* an object of its own *)
  | CatShared.               (* the object original_frontmatter['categories'] *)

(** The dictionary that the parser returns and the fetchers complete;
    [None] is a key that is not set. *)
Record Publication : Type := {
  p_title : option yaml;
  p_author : option yaml;
  p_categories : CategoriesSlot;
  p_content : option string;
  p_filename : option string;
  p_original_frontmatter : option (gmap string yaml);
  p_directory_name : option string;
  p_source_url : option string;
  p_github_path : option string;
  p_image_files : option (list ImageInfo)
}.

(** The object [self]. *)
Record MemberPostSync : Type := {
  config : Config;
  dry_run : bool;
  (** [self.session.get(url, timeout=30)]; [None] when it raises a
      [requests.RequestException]. *)
  session : string -> option Response
}.

(** [self.base_publications_dir = Path("publications")] *)
Definition base_publications_dir : Path := ["publications"].

(* ------------------------------------------------------------------ *)
(** * The methods of [MemberPostSync] *)
(* ------------------------------------------------------------------ *)

(** [response and response.status_code == 200] *)
Definition ok_200 {L : PyLib} (response : option Response) : bool :=
  match response with
  | Some r => response_bool r && Z.eqb (status_code r) 200
  | None => false
  end.

(** [_safe_request] *)
Definition _safe_request (self : MemberPostSync) (url : string)
  : M (option Response) :=
  record_request url ;;
  match session self url with
  | Some response => ret (Some response)
  | None =>
      logger WARNING "Request failed for {url}: {e}" [AStr url] ;;
      ret None
  end.

(** The body of the [try] of [_parse_qmd_content]. *)
Definition parse_qmd {L : PyLib} (content filename : string) (member : Member)
  : Result Publication :=
  let plain :=
    Ok {| p_title := Some (YStr (PyStr.title
                      (PyStr.replace "-" " " (PyStr.replace ".qmd" "" filename))));
          p_author := Some (YList [YStr (m_name member)]);
          p_categories := CatOwn (YList [YStr "research"]);
          p_content := Some content;
          p_filename := Some filename;
          p_original_frontmatter := Some ∅;
          p_directory_name := None; p_source_url := None;
          p_github_path := None; p_image_files := None |} in
  if PyStr.startswith "---" content then
    match PyStr.split "---" 2 content with
    | _ :: part1 :: part2 :: _ =>
        let yaml_content := PyStr.strip part1 in
        let markdown_content := PyStr.strip part2 in
        rbind (yaml_safe_load yaml_content) (fun loaded =>
        match loaded with
        | YDict frontmatter =>
            let author_value :=
              default (YStr (m_name member)) (frontmatter !! "author") in
            Ok {| p_title := Some (default
                    (YStr (PyStr.title (PyStr.replace ".qmd" "" filename)))
                    (frontmatter !! "title"));
                  p_author := Some author_value;
                  p_categories :=
                    match frontmatter !! "categories" with
                    | Some _ => CatShared
                    | None => CatOwn (YList [])
                    end;
                  p_content := Some markdown_content;
                  p_filename := Some filename;
                  p_original_frontmatter := Some frontmatter;
                  p_directory_name := None; p_source_url := None;
                  p_github_path := None; p_image_files := None |}
        | _ => Raise AttributeError      (* frontmatter.get on a non-dict *)
        end)
    | _ => plain
    end
  else plain.

(** [_parse_qmd_content]: [None] is the failure signal. *)
Definition _parse_qmd_content {L : PyLib} (content filename : string)
  (member : Member) : M (option Publication) :=
  match parse_qmd content filename member with
  | Ok publication_data => ret (Some publication_data)
  | Raise e =>
      logger ERROR "Error parsing {filename}: {e}" [AStr filename; AExn e] ;;
      ret None
  end.

(** The four keys both fetchers add to a parsed publication. *)
Definition with_directory (publication_data : Publication)
  (directory_name source_url github_path : string)
  (image_files : list ImageInfo) : Publication :=
  {| p_title := p_title publication_data;
     p_author := p_author publication_data;
     p_categories := p_categories publication_data;
     p_content := p_content publication_data;
     p_filename := p_filename publication_data;
     p_original_frontmatter := p_original_frontmatter publication_data;
     p_directory_name := Some directory_name;
     p_source_url := Some source_url;
     p_github_path := Some github_path;
     p_image_files := Some image_files |}.

Definition image_info_of_entry (img_file : Entry) : ImageInfo :=
  {| img_name := e_name img_file;
     img_download_url := e_download_url img_file;
     img_github_path := e_path img_file |}.

(** [_process_publication_directory] *)
Definition _process_publication_directory {L : PyLib} (self : MemberPostSync)
  (dir_name : string) (index_qmd : Entry) (image_files : list Entry)
  (username repo_name publications_path : string) (member : Member)
  : M (option Publication) :=
  try_except
    (content_response <- _safe_request self (e_url index_qmd) ;;
     if negb (ok_200 content_response) then
       logger WARNING "Could not fetch index.qmd for directory {dir_name}"
              [AStr dir_name] ;;
       ret None
     else
       content_data <- lift (match content_response with
                             | Some r => json r
                             | None => Raise AttributeError
                             end) ;;
       content_b64 <- lift (match content_data with
                            | JObject c => Ok (default EmptyString c)
                            | JList _ => Raise AttributeError
                            end) ;;
       content_decoded <- lift (b64decode_utf8 content_b64) ;;
       publication_data <- _parse_qmd_content content_decoded "index.qmd" member ;;
       match publication_data with
       | None => ret None
       | Some publication_data =>
           ret (Some (with_directory publication_data dir_name
                        (e_html_url index_qmd) (e_path index_qmd)
                        (map image_info_of_entry image_files)))
       end)
    (fun e =>
       logger ERROR "Error processing publication directory {dir_name}: {e}"
              [AStr dir_name; AExn e] ;;
       ret None).

(** [name.lower().startswith('featured.') and
     name.lower().endswith(('.png', '.jpg', '.jpeg', '.gif', '.svg'))] *)
Definition is_featured_image (name : string) : bool :=
  PyStr.startswith "featured." (PyStr.lower name) &&
  existsb (fun suffix => PyStr.endswith suffix (PyStr.lower name))
          [".png"; ".jpg"; ".jpeg"; ".gif"; ".svg"].

(** The loop over [subdir_items]: the state is [(index_qmd, image_files)]. *)
Definition scan_subitem (st : option Entry * list Entry) (subitem : Entry)
  : option Entry * list Entry :=
  if bool_decide (e_type subitem = "file") then
    if bool_decide (e_name subitem = "index.qmd") then (Some subitem, snd st)
    else if is_featured_image (e_name subitem) then (fst st, snd st ++ [subitem])
    else st
  else st.
Definition scan_subdir (subdir_items : list Entry) : option Entry * list Entry :=
  fold_left scan_subitem subdir_items (None, []).

(** One turn of the loop of [_parse_posts_from_github_api]. *)
Definition api_item {L : PyLib} (self : MemberPostSync)
  (username repo_name publications_path : string) (member : Member)
  (item : Entry) (publications : list Publication) : M (list Publication) :=
  if bool_decide (e_type item = "dir") && negb (PyStr.startswith "_" (e_name item))
  then
    try_except
      (logger DEBUG "Checking publication directory: {item['name']}"
              [AStr (e_name item)] ;;
       subdir_response <- _safe_request self (e_url item) ;;
       if ok_200 subdir_response then
         subdir_items <- lift (match subdir_response with
                               | Some r => json r
                               | None => Raise AttributeError
                               end) ;;
         match subdir_items with
         | JObject _ => raise TypeError   (* subitem['type'] on a key *)
         | JList subdir_items =>
             match scan_subdir subdir_items with
             | (Some index_qmd, image_files) =>
                 publication_data <-
                   _process_publication_directory self (e_name item) index_qmd
                     image_files username repo_name publications_path member ;;
                 match publication_data with
                 | Some publication_data =>
                     ret (publications ++ [publication_data])
                 | None => ret publications
                 end
             | (None, _) =>
                 logger DEBUG
                   "Directory {item['name']} does not contain index.qmd, skipping"
                   [AStr (e_name item)] ;;
                 ret publications
             end
         end
       else
         logger WARNING "Could not fetch directory contents for {item['name']}"
                [AStr (e_name item)] ;;
         ret publications)
      (fun e =>
         logger ERROR "Error processing directory {item['name']}: {e}"
                [AStr (e_name item); AExn e] ;;
         ret publications)
  else ret publications.

(** [_parse_posts_from_github_api] *)
Definition _parse_posts_from_github_api {L : PyLib} (self : MemberPostSync)
  (api_response : Json) (username repo_name publications_path : string)
  (member : Member) : M (list Publication) :=
  match api_response with
  | JObject _ =>
      logger INFO
        "Parsing {len(api_response)} items from {username}'s GitHub repository"
        [AStr username] ;;
      raise TypeError                     (* item['type'] on a key *)
  | JList items =>
      logger INFO
        "Parsing {len(api_response)} items from {username}'s GitHub repository"
        [AInt (Z.of_nat (List.length items)); AStr username] ;;
      for_acc items (api_item self username repo_name publications_path member) []
  end.

(** The list the fallback knows of, and the extensions it tries. *)
Definition known_directories : list string := ["20250917_test"].
Definition image_extensions : list string := ["jpg"; "jpeg"; "png"; "gif"; "svg"].

Definition raw_url (username repo_name publications_path dir_name file : string)
  : string :=
  "https://raw.githubusercontent.com/" +:+ username +:+ "/" +:+ repo_name +:+
  "/main/" +:+ publications_path +:+ "/" +:+ dir_name +:+ "/" +:+ file.

Definition featured_info (username repo_name publications_path dir_name ext : string)
  : ImageInfo :=
  let img_filename := "featured." +:+ ext in
  {| img_name := img_filename;
     img_download_url :=
       raw_url username repo_name publications_path dir_name img_filename;
     img_github_path :=
       publications_path +:+ "/" +:+ dir_name +:+ "/" +:+ img_filename |}.

(** The loop over [image_extensions] of [_get_posts_via_raw_github]; it
    ends at the [break].  The result is [publication_data['image_files']]. *)
Fixpoint probe_featured {L : PyLib} (self : MemberPostSync)
  (username repo_name publications_path dir_name : string)
  (exts : list string) : M (list ImageInfo) :=
  match exts with
  | [] => ret []
  | ext :: exts' =>
      let info := featured_info username repo_name publications_path dir_name ext in
      img_response <- _safe_request self (img_download_url info) ;;
      if ok_200 img_response then
        logger DEBUG "Found image file: {img_filename}" [AStr (img_name info)] ;;
        ret [info]
      else probe_featured self username repo_name publications_path dir_name exts'
  end.

(** One turn of the loop over [known_directories]. *)
Definition raw_item {L : PyLib} (self : MemberPostSync)
  (username repo_name publications_path : string) (member : Member)
  (dir_name : string) (publications : list Publication) : M (list Publication) :=
  try_except
    (let index_url :=
       raw_url username repo_name publications_path dir_name "index.qmd" in
     logger DEBUG "Trying publication URL: {index_url}" [AStr index_url] ;;
     response <- _safe_request self index_url ;;
     if ok_200 response then
       publication_data <-
         _parse_qmd_content (match response with
                             | Some r => text r
                             | None => EmptyString
                             end) "index.qmd" member ;;
       match publication_data with
       | Some publication_data =>
           image_files <- probe_featured self username repo_name
                            publications_path dir_name image_extensions ;;
           logger INFO "Successfully fetched publication {dir_name} via raw GitHub"
                  [AStr dir_name] ;;
           ret (publications ++
                [with_directory publication_data dir_name
                   ("https://github.com/" +:+ username +:+ "/" +:+ repo_name +:+
                    "/blob/main/" +:+ publications_path +:+ "/" +:+ dir_name +:+
                    "/index.qmd")
                   (publications_path +:+ "/" +:+ dir_name +:+ "/index.qmd")
                   image_files])
       | None => ret publications
       end
     else
       logger DEBUG
         "Could not fetch {dir_name}/index.qmd via raw GitHub (status: {response.status_code if response else 'no response'})"
         [AStr dir_name;
          match response with
          | Some r => if response_bool r then AInt (status_code r)
                      else AStr "no response"
          | None => AStr "no response"
          end] ;;
       ret publications)
    (fun e =>
       logger WARNING "Error fetching publication {dir_name} via raw GitHub: {e}"
              [AStr dir_name; AExn e] ;;
       ret publications).

(** [_get_posts_via_raw_github].  No turn of the loop raises, so the
    outer [except] clause has nothing to catch. *)
Definition _get_posts_via_raw_github {L : PyLib} (self : MemberPostSync)
  (username publications_path : string) (member : Member)
  : M (list Publication) :=
  try_except
    (let repo_name := username +:+ ".github.io" in
     for_acc known_directories
       (raw_item self username repo_name publications_path member) [])
    (fun e =>
       logger ERROR "Error in raw GitHub fallback: {e}" [AExn e] ;;
       ret []).

(** [_get_posts_from_member_site] *)
Definition _get_posts_from_member_site {L : PyLib} (self : MemberPostSync)
  (member : Member) : M (list Publication) :=
  let username := m_username member in
  let publications_path :=
    PyStr.strip_slash (default "/publications" (m_publications_path member)) in
  logger INFO "Fetching publications for {username} from GitHub API"
         [AStr username] ;;
  posts <-
    try_except
      (let repo_name := username +:+ ".github.io" in
       let api_url :=
         "https://api.github.com/repos/" +:+ username +:+ "/" +:+ repo_name +:+
         "/contents/" +:+ publications_path in
       let no_response :=
         logger WARNING "Could not fetch posts for {username}" [AStr username] ;;
         logger INFO "Trying raw GitHub content fallback" [] ;;
         _get_posts_via_raw_github self username publications_path member in
       logger DEBUG "API URL: {api_url}" [AStr api_url] ;;
       response <- _safe_request self api_url ;;
       match response with
       | None => no_response
       | Some r =>
           if response_bool r then
             if Z.eqb (status_code r) 200 then
               api_response <- lift (json r) ;;
               _parse_posts_from_github_api self api_response username repo_name
                 publications_path member
             else
               logger WARNING
                 "GitHub API returned status {response.status_code} for {username}/{repo_name}"
                 [AInt (status_code r); AStr username; AStr repo_name] ;;
               if Z.eqb (status_code r) 404 then
                 logger INFO
                   "Publications directory not found for {username} - this is normal if they don't have publications yet"
                   [AStr username] ;;
                 ret []
               else if Z.eqb (status_code r) 403 then
                 logger WARNING "Access denied to GitHub API. Response: {response.text}"
                        [AStr (text r)] ;;
                 logger INFO "Falling back to raw GitHub content fetch" [] ;;
                 _get_posts_via_raw_github self username publications_path member
               else
                 logger WARNING "Response: {response.text}" [AStr (text r)] ;;
                 ret []
           else no_response
       end)
      (fun e =>
         logger ERROR "Error fetching publications for {username}: {e}"
                [AStr username; AExn e] ;;
         ret []) ;;
  logger INFO "Found {len(posts)} publications for {username}"
         [AInt (Z.of_nat (List.length posts)); AStr username] ;;
  ret posts.

(** [publication.get('categories')], read through the slot. *)
Definition get_categories (publication : Publication) : option yaml :=
  match p_categories publication with
  | CatAbsent => None
  | CatOwn v => Some v
  | CatShared => default ∅ (p_original_frontmatter publication) !! "categories"
  end.

(** The default of [sync_config.get('type_mapping', {...})]. *)
Definition default_type_mapping : gmap string string :=
  {[ "paper" := "papers"; "publication" := "papers"; "report" := "reports";
     "post" := "posts"; "blog" := "posts" ]}.

(** [for category in categories: if category in category_mapping: return ...];
    [None] when the loop ends without a [return]. *)
Fixpoint first_mapped (category_mapping : gmap string string)
  (categories : list yaml) : Result (option string) :=
  match categories with
  | [] => Ok None
  | category :: rest =>
      rbind (Py.in_dict category category_mapping) (fun found =>
      if found then
        rbind (Py.dict_get category_mapping category) (fun subdir =>
        Ok (Some (PyStr.strip_slash subdir)))
      else first_mapped category_mapping rest)
  end.

(** [_get_destination_subdir] *)
Definition _get_destination_subdir (self : MemberPostSync) (post : Publication)
  (member : Member) : Result string :=
  match m_destination_path member with
  | Some destination_path => Ok (PyStr.strip_slash destination_path)
  | None =>
      let categories := default (YList []) (get_categories post) in
      let sync_config := default empty_sync_config (sync_config (config self)) in
      let category_mapping := default ∅ (category_mapping sync_config) in
      rbind (Py.iter categories) (fun cats =>
      rbind (first_mapped category_mapping cats) (fun hit =>
      match hit with
      | Some subdir => Ok subdir
      | None =>
          let post_type :=
            default (YStr "post")
                    (default ∅ (p_original_frontmatter post) !! "type") in
          let type_mapping :=
            default default_type_mapping (type_mapping sync_config) in
          rbind (Py.in_dict post_type type_mapping) (fun found =>
          if found then Py.dict_get type_mapping post_type else Ok "posts")
      end))
  end.

(** The marker category. *)
Definition MARKER : string := "member-publication".

(** The number of marker entries of a categories list. *)
Definition marker_count (l : list yaml) : nat :=
  count_occ yaml_eq_dec l (YStr MARKER).

(** [# Ensure author is always a list] *)
Definition normalize_author {L : PyLib} (author_value : yaml) : yaml :=
  match author_value with
  | YStr _ => YList [author_value]
  | YList _ => author_value
  | _ => YList [YStr (py_str author_value)]
  end.

(** [# Preserve additional original frontmatter] *)
Definition passthrough (original_fm frontmatter : gmap string yaml)
  : gmap string yaml :=
  map_fold (fun key value fm =>
              if bool_decide (is_Some (fm !! key)) || bool_decide (key = "categories")
              then fm else <[key := value]> fm)
           frontmatter original_fm.

(** [# Handle categories merging].  [categories] is the object
    [frontmatter['categories']].  When the publication shares it with
    [original_fm['categories']] and it is a list, the loop runs over the
    list it appends to. *)
Definition merge_categories (slot : CategoriesSlot)
  (original_fm : gmap string yaml) (categories : yaml) : Result yaml :=
  match original_fm !! "categories" with
  | None => Ok categories
  | Some original =>
      match slot with
      | CatShared =>
          match categories with
          | YList l => Ok (YList (Py.ensure_all_live (List.length l) 0 l))
          | _ => Py.ensure categories categories
          end
      | _ =>
          rfold Py.ensure
                (match original with YList l => l | _ => [original] end)
                categories
      end
  end.

(** The publication after the call: its categories object is the one
    that was appended to. *)
Definition with_categories (publication : Publication) (categories : yaml)
  : Publication :=
  match p_categories publication with
  | CatAbsent => publication
  | CatOwn _ =>
      {| p_title := p_title publication; p_author := p_author publication;
         p_categories := CatOwn categories;
         p_content := p_content publication;
         p_filename := p_filename publication;
         p_original_frontmatter := p_original_frontmatter publication;
         p_directory_name := p_directory_name publication;
         p_source_url := p_source_url publication;
         p_github_path := p_github_path publication;
         p_image_files := p_image_files publication |}
  | CatShared =>
      match get_categories publication with
      | None => publication
      | Some _ =>
          {| p_title := p_title publication; p_author := p_author publication;
             p_categories := CatShared;
             p_content := p_content publication;
             p_filename := p_filename publication;
             p_original_frontmatter :=
               Some (<["categories" := categories]>
                       (default ∅ (p_original_frontmatter publication)));
             p_directory_name := p_directory_name publication;
             p_source_url := p_source_url publication;
             p_github_path := p_github_path publication;
             p_image_files := p_image_files publication |}
      end
  end.

(** The dictionary [frontmatter] as first assigned, with its [source]
    entry; [categories] is the object stored under its key. *)
Definition required_fields {L : PyLib} (publication : Publication)
  (member : Member) (directory_name : string) (categories : yaml)
  : gmap string yaml :=
  let author_value :=
    normalize_author (default (YStr (m_name member)) (p_author publication)) in
  let frontmatter : gmap string yaml :=
    {[ "title" := default (YStr "Untitled Publication") (p_title publication);
       "author" := author_value;
       "categories" := categories ]} in
  <["source" := YDict
      {[ "member" := YStr (m_name member);
         "username" := YStr (m_username member);
         "original_url" :=
           YStr (default (m_profile_url member) (p_source_url publication));
         "github_path" := YStr (default EmptyString (p_github_path publication));
         "directory" := YStr directory_name ]}]> frontmatter.

(** The dictionary [frontmatter] that [_create_local_post] builds (its
    lines from [original_fm = ...] to the categories merging), and the
    publication as the call leaves it. *)
Definition local_post_frontmatter {L : PyLib} (publication : Publication)
  (member : Member) (directory_name : string)
  : Result (gmap string yaml * Publication) :=
  let original_fm := default ∅ (p_original_frontmatter publication) in
  let categories :=
    default (YList [YStr "research"; YStr MARKER]) (get_categories publication) in
  rbind (Py.ensure categories (YStr MARKER)) (fun categories =>
  let frontmatter :=
    passthrough original_fm
      (required_fields publication member directory_name categories) in
  rbind (merge_categories (p_categories publication) original_fm categories)
        (fun categories =>
  Ok (<["categories" := categories]> frontmatter,
      with_categories publication categories))).

(** The trailer added when [add_attribution] is on. *)
Definition attribution (member : Member) : string :=
  PyStr.LF +:+ PyStr.LF +:+ "---" +:+ PyStr.LF +:+ PyStr.LF +:+
  "*This publication was originally published by [" +:+ m_name member +:+
  "](" +:+ m_profile_url member +:+
  ") and automatically synced to the McPherson Lab website.*".

(** The body of [_create_local_post]; [now] is the reading of the clock
    that the default of [directory_name] takes.  The result is the
    triple the method returns, and the publication as the call leaves
    it. *)
Definition render_local_post {L : PyLib} (self : MemberPostSync) (now : string)
  (publication : Publication) (member : Member)
  : Result ((Path * string * list (Path * string)) * Publication) :=
  let directory_name :=
    default ("publication-" +:+ now) (p_directory_name publication) in
  let local_dir_name := PyStr.lower (m_username member) +:+ "-" +:+ directory_name in
  let destination_dir := base_publications_dir // local_dir_name in
  let index_path := destination_dir // "index.qmd" in
  rbind (local_post_frontmatter publication member directory_name) (fun fp =>
  let content := default EmptyString (p_content publication) in
  let sync_config := default empty_sync_config (sync_config (config self)) in
  let content :=
    if Py.truthy (default (YBool true) (add_attribution sync_config))
    then content +:+ attribution member else content in
  let yaml_header := yaml_dump (fst fp) in
  let full_content :=
    "---" +:+ PyStr.LF +:+ yaml_header +:+ "---" +:+ PyStr.LF +:+ PyStr.LF +:+
    content in
  let image_downloads :=
    map (fun img_info => (destination_dir // img_name img_info,
                          img_download_url img_info))
        (default [] (p_image_files publication)) in
  Ok ((index_path, full_content, image_downloads), snd fp)).

(** [_create_local_post] *)
Definition _create_local_post {L : PyLib} (self : MemberPostSync)
  (publication : Publication) (member : Member)
  : M (Path * string * list (Path * string)) :=
  now <- get_now ;;
  r <- lift (render_local_post self now publication member) ;;
  ret (fst r).

(** [_download_image_file] *)
Definition _download_image_file {L : PyLib} (self : MemberPostSync)
  (local_path : Path) (download_url : string) : M bool :=
  try_except
    (response <- _safe_request self download_url ;;
     match response with
     | Some r =>
         if response_bool r && Z.eqb (status_code r) 200 then
           fs_update (fun fs => FS.mkdir_p fs (PurePath.parent local_path)) ;;
           fs_update (fun fs => FS.write_text fs local_path (content r)) ;;
           logger DEBUG "Downloaded image file: {local_path}" [APath local_path] ;;
           ret true
         else
           logger WARNING "Failed to download image from {download_url}"
                  [AStr download_url] ;;
           ret false
     | None =>
         logger WARNING "Failed to download image from {download_url}"
                [AStr download_url] ;;
         ret false
     end)
    (fun e =>
       logger ERROR "Error downloading image file {download_url}: {e}"
              [AStr download_url; AExn e] ;;
       ret false).

Definition zero_counts : Counts :=
  {| created_count := 0; updated_count := 0; skipped_count := 0 |}.
Definition count_created (c : Counts) : Counts :=
  {| created_count := S (created_count c); updated_count := updated_count c;
     skipped_count := skipped_count c |}.
Definition count_updated (c : Counts) : Counts :=
  {| created_count := created_count c; updated_count := S (updated_count c);
     skipped_count := skipped_count c |}.
Definition count_skipped (c : Counts) : Counts :=
  {| created_count := created_count c; updated_count := updated_count c;
     skipped_count := S (skipped_count c) |}.
Definition bump (f : Counts -> Counts) : M unit :=
  c <- get_counts ;; put_counts (f c).

(** The lines a dry run logs for a publication. *)
Definition dry_run_lines (index_path : Path) (content : string)
  (image_downloads : list (Path * string)) : list LogRecord :=
  [ {| lr_level := INFO;
       lr_template :=
         "[DRY RUN] Would create/update publication directory: {index_path.parent}";
       lr_args := [APath (PurePath.parent index_path)] |};
    {| lr_level := INFO;
       lr_template := "[DRY RUN] Would create index.qmd: {index_path}";
       lr_args := [APath index_path] |} ]
  ++ map (fun d => {| lr_level := INFO;
                      lr_template := "[DRY RUN] Would download image: {img_path}";
                      lr_args := [APath (fst d)] |}) image_downloads
  ++ [ {| lr_level := DEBUG;
          lr_template := "[DRY RUN] Content preview:\n{content[:200]}...";
          lr_args := [AStr (PyStr.take 200 content)] |} ].

(** The [if self.dry_run:] block. *)
Definition dry_run_report (index_path : Path) (content : string)
  (image_downloads : list (Path * string)) : M unit :=
  logger INFO
    "[DRY RUN] Would create/update publication directory: {index_path.parent}"
    [APath (PurePath.parent index_path)] ;;
  logger INFO "[DRY RUN] Would create index.qmd: {index_path}" [APath index_path] ;;
  for_each image_downloads (fun d =>
    logger INFO "[DRY RUN] Would download image: {img_path}" [APath (fst d)]) ;;
  logger DEBUG "[DRY RUN] Content preview:\n{content[:200]}..."
         [AStr (PyStr.take 200 content)].

(** The decision of a real run (from [if index_path.exists():] to the
    [else] that counts a creation).  The result is [false] at the
    [continue] and [true] when the method goes on to write. *)
Definition reconcile (index_path : Path) (content : string) : M bool :=
  fs <- get_fs ;;
  if FS.path_exists fs index_path then
    existing_content <- lift (FS.read_text fs index_path) ;;
    if bool_decide (PyStr.strip existing_content = PyStr.strip content) then
      logger DEBUG "No changes detected for {index_path}" [APath index_path] ;;
      bump count_skipped ;;
      ret false
    else
      logger INFO "Updating existing publication: {index_path.parent}"
             [APath (PurePath.parent index_path)] ;;
      bump count_updated ;;
      ret true
  else
    logger INFO "Creating new publication: {index_path.parent}"
           [APath (PurePath.parent index_path)] ;;
    bump count_created ;;
    ret true.

(** The loop [for img_path, img_url in image_downloads]. *)
Definition download_images {L : PyLib} (self : MemberPostSync)
  (image_downloads : list (Path * string)) : M unit :=
  for_each image_downloads (fun d =>
    downloaded <- _download_image_file self (fst d) (snd d) ;;
    if negb downloaded then
      logger WARNING "Failed to download image: {img_path}" [APath (fst d)]
    else ret tt).

(** The writes of a real run (from [index_path.parent.mkdir] on). *)
Definition write_local_post {L : PyLib} (self : MemberPostSync)
  (index_path : Path) (content : string)
  (image_downloads : list (Path * string)) : M unit :=
  fs_update (fun fs => FS.mkdir_p fs (PurePath.parent index_path)) ;;
  fs_update (fun fs => FS.write_text fs index_path content) ;;
  download_images self image_downloads.

(** One turn of the loop [for publication in publications] of
    [_sync_member_posts]. *)
Definition sync_publication {L : PyLib} (self : MemberPostSync) (member : Member)
  (publication : Publication) : M unit :=
  try_except
    (rendered <- _create_local_post self publication member ;;
     let index_path := fst (fst rendered) in
     let content := snd (fst rendered) in
     let image_downloads := snd rendered in
     if dry_run self then dry_run_report index_path content image_downloads
     else
       proceed <- reconcile index_path content ;;
       if (proceed : bool)
       then write_local_post self index_path content image_downloads
       else ret tt)
    (fun e =>
       logger ERROR
         "Error processing publication {publication.get('directory_name', 'unknown')}: {e}"
         [AStr (default "unknown" (p_directory_name publication)); AExn e]).

(** [publications[:max_posts]] *)
Definition slice_to {A} (n : Z) (l : list A) : list A :=
  if Z.leb 0 n then firstn (Z.to_nat n) l
  else firstn (List.length l - Z.to_nat (- n)) l.

(** [_sync_member_posts] *)
Definition _sync_member_posts {L : PyLib} (self : MemberPostSync) (member : Member)
  : M unit :=
  let username := m_username member in
  logger INFO "Syncing publications for {username}" [AStr username] ;;
  publications <- _get_posts_from_member_site self member ;;
  match publications with
  | [] => logger INFO "No publications found for {username}" [AStr username]
  | _ =>
      let max_posts :=
        default 50 (max_posts_per_member
                      (default empty_sync_config (sync_config (config self)))) in
      publications <-
        (if Z.ltb max_posts (Z.of_nat (List.length publications)) then
           logger INFO
             "Limiting to {max_posts} most recent publications for {username}"
             [AInt max_posts; AStr username] ;;
           ret (slice_to max_posts publications)
         else ret publications) ;;
      put_counts zero_counts ;;
      for_each publications (sync_publication self member) ;;
      if negb (dry_run self) then
        c <- get_counts ;;
        logger INFO
          "Sync completed for {username}: {created_count} created, {updated_count} updated, {skipped_count} skipped"
          [AStr username; AInt (Z.of_nat (created_count c));
           AInt (Z.of_nat (updated_count c)); AInt (Z.of_nat (skipped_count c))]
      else ret tt
  end.

(** [m.get('active', True)] as a condition *)
Definition is_active (m : Member) : bool :=
  Py.truthy (default (YBool true) (m_active m)).

(** [if member_username:], an empty string is no selection, as [None] is. *)
Definition selection (member_username : option string) : option string :=
  match member_username with
  | Some u => if bool_decide (u = EmptyString) then None else Some u
  | None => None
  end.

(** [members] after the [if member_username:] block. *)
Definition selected_members (self : MemberPostSync)
  (member_username : option string) : list Member :=
  let members := default [] (members (config self)) in
  match selection member_username with
  | Some u => List.filter (fun m => bool_decide (m_username m = u)) members
  | None => members
  end.

(** [active_members = [m for m in members if m.get('active', True)]] *)
Definition active_members (self : MemberPostSync)
  (member_username : option string) : list Member :=
  List.filter is_active (selected_members self member_username).

(** [sync_member_posts] *)
Definition sync_member_posts {L : PyLib} (self : MemberPostSync)
  (member_username : option string) : M unit :=
  match selection member_username, selected_members self member_username with
  | Some u, [] =>
      logger ERROR "Member {member_username} not found in configuration" [AStr u]
  | _, _ =>
      let active_members := active_members self member_username in
      logger INFO "Syncing publications for {len(active_members)} active members"
             [AInt (Z.of_nat (List.length active_members))] ;;
      (if negb (dry_run self) then
         fs_update (fun fs => FS.mkdir_p fs base_publications_dir)
       else ret tt) ;;
      for_each active_members (fun member =>
        try_except (_sync_member_posts self member)
          (fun e =>
             logger ERROR "Error syncing publications for {member['username']}: {e}"
                    [AStr (m_username member); AExn e]))
  end.

(* ------------------------------------------------------------------ *)
(** * The specification's reconciler decision *)
(* ------------------------------------------------------------------ *)

Inductive Action : Type := CREATE | UPDATE | SKIP.

#[global] Instance Action_eq_dec : EqDecision Action.
Proof. solve_decision. Defined.

(** The decision as the specification words it: no local file, CREATE;
    equal after trimming, SKIP; otherwise UPDATE. *)
Definition spec_decision (existing : option string) (rendered : string) : Action :=
  match existing with
  | None => CREATE
  | Some t =>
      if bool_decide (PyStr.strip t = PyStr.strip rendered) then SKIP else UPDATE
  end.

Definition count_action (a : Action) : Counts -> Counts :=
  match a with
  | CREATE => count_created
  | UPDATE => count_updated
  | SKIP => count_skipped
  end.

(* ------------------------------------------------------------------ *)
(** * Sample data for the examples *)
(* ------------------------------------------------------------------ *)

Module Sample.

Definition doc_author_empty : string := "author: []".
Definition doc_paper : string :=
  "title: Paper X" +:+ PyStr.LF +:+ "categories: [paper]".

(** [yaml.safe_load] on the documents of the examples; any other text
    is taken as malformed. *)
Definition load (s : string) : Result yaml :=
  if bool_decide (s = EmptyString) then Ok YNull
  else if bool_decide (s = doc_author_empty)
  then Ok (YDict {[ "author" := YList [] ]})
  else if bool_decide (s = doc_paper)
  then Ok (YDict {[ "title" := YStr "Paper X";
                    "categories" := YList [YStr "paper"] ]})
  else Raise YAMLError.

(** [str(v)] of [None], booleans and small integers. *)
Definition str (v : yaml) : string :=
  match v with
  | YNull => "None"
  | YBool true => "True"
  | YBool false => "False"
  | YInt 0 => "0"
  | YInt 1 => "1"
  | YStr s => s
  | _ => "?"
  end.

(** The examples do not look into the dumped header or decode base64:
    a fixed header and the identity stand in for them. *)
#[export] Instance lib : PyLib := {|
  yaml_safe_load := load;
  yaml_dump := fun _ => "title: sample" +:+ PyStr.LF;
  b64decode_utf8 := fun s => Ok s;
  py_str := str;
  response_bool := fun r =>
    negb (Z.leb 400 (status_code r) && Z.ltb (status_code r) 600)
|}.

Definition alice : Member :=
  {| m_username := "Alice"; m_name := "Alice A."; 
     m_profile_url := "https://alice.github.io";
     m_publications_path := None; m_destination_path := None;
     m_active := None |}.

(** A configuration that maps the category [paper] to [papers]. *)
Definition self : MemberPostSync :=
  {| config :=
       {| members := Some [alice];
          sync_config :=
            Some {| max_posts_per_member := None; add_attribution := None;
                    category_mapping := Some {[ "paper" := "papers" ]};
                    type_mapping := None |} |};
     dry_run := false;
     session := fun _ => None |}.

(** The publication of the remote directory [2025_paper], as the
    parser and the fetcher leave it. *)
Definition paper : Publication :=
  {| p_title := Some (YStr "Paper X");
     p_author := Some (YStr "Alice A.");
     p_categories := CatShared;
     p_content := Some "Body";
     p_filename := Some "index.qmd";
     p_original_frontmatter :=
       Some {[ "title" := YStr "Paper X";
               "categories" := YList [YStr "paper"] ]};
     p_directory_name := Some "2025_paper";
     p_source_url :=
       Some "https://github.com/Alice/Alice.github.io/blob/main/publications/2025_paper/index.qmd";
     p_github_path := Some "publications/2025_paper/index.qmd";
     p_image_files := Some [] |}.

(** A document whose metadata block gives an empty list of authors. *)
Definition text_author_empty : string :=
  "---" +:+ PyStr.LF +:+ doc_author_empty +:+ PyStr.LF +:+ "---" +:+
  PyStr.LF +:+ "Notes".

(** The same object in dry-run mode. *)
Definition self_dry : MemberPostSync :=
  {| config := config self; dry_run := true; session := session self |}.

(** A world with nothing in it, and ([synced_world], below) one where
    the rendered text of [paper] is already in place. *)
Definition empty_world : World :=
  {| w_fs := ∅; w_log := []; w_requests := []; w_now := "20251104120000";
     w_counts := zero_counts |}.

Definition synced_world : World :=
  {| w_fs := w_fs (snd (sync_publication (L := lib) self alice paper empty_world));
     w_log := []; w_requests := []; w_now := "20251104120000";
     w_counts := zero_counts |}.

(** What the parser makes of [text_author_empty]. *)
Definition notes : Publication :=
  {| p_title := Some (YStr "Index");
     p_author := Some (YList []);
     p_categories := CatOwn (YList []);
     p_content := Some "Notes";
     p_filename := Some "index.qmd";
     p_original_frontmatter := Some {[ "author" := YList [] ]};
     p_directory_name := None; p_source_url := None;
     p_github_path := None; p_image_files := None |}.

(** A document with an opening and a closing delimiter. *)
Definition text_with_metadata : string :=
  "---" +:+ PyStr.LF +:+ doc_paper +:+ PyStr.LF +:+ "---" +:+ PyStr.LF +:+
  "Body".

(** What the parser makes of [text_with_metadata]. *)
Definition paper_parsed : Publication :=
  {| p_title := Some (YStr "Paper X");
     p_author := Some (YStr "Alice A.");
     p_categories := CatShared;
     p_content := Some "Body";
     p_filename := Some "index.qmd";
     p_original_frontmatter :=
       Some {[ "title" := YStr "Paper X";
               "categories" := YList [YStr "paper"] ]};
     p_directory_name := None; p_source_url := None;
     p_github_path := None; p_image_files := None |}.

(** A document whose metadata block is not well-formed YAML. *)
Definition text_malformed : string :=
  "---" +:+ PyStr.LF +:+ ": :" +:+ PyStr.LF +:+ "---" +:+ PyStr.LF +:+ "x".

(** Responses of the remote side. *)
Definition entry (type name url : string) : Entry :=
  {| e_type := type; e_name := name; e_url := url;
     e_html_url := url +:+ "?html"; e_path := "publications/" +:+ name;
     e_download_url := url +:+ "?raw" |}.
Definition listing (items : list Entry) : Response :=
  {| status_code := 200; text := EmptyString; content := EmptyString;
     json := Ok (JList items) |}.
Definition file_object (body : string) : Response :=
  {| status_code := 200; text := body; content := body;
     json := Ok (JObject (Some body)) |}.
Definition status (code : Z) : Response :=
  {| status_code := code; text := EmptyString; content := EmptyString;
     json := Raise ValueError |}.

Definition bad_dir : Entry := entry "dir" "broken" "api/broken".
Definition good_dir : Entry := entry "dir" "2025_paper" "api/2025_paper".

(** A remote side whose listing holds a directory with a malformed
    document before one with a good document. *)
Definition net (url : string) : option Response :=
  if bool_decide
       (url = "https://api.github.com/repos/Alice/Alice.github.io/contents/publications")
  then Some (listing [bad_dir; good_dir])
  else if bool_decide (url = "api/broken")
  then Some (listing [entry "file" "index.qmd" "api/broken/index.qmd"])
  else if bool_decide (url = "api/broken/index.qmd")
  then Some (file_object text_malformed)
  else if bool_decide (url = "api/2025_paper")
  then Some (listing [entry "file" "index.qmd" "api/2025_paper/index.qmd"])
  else if bool_decide (url = "api/2025_paper/index.qmd")
  then Some (file_object text_with_metadata)
  else None.
Definition online : MemberPostSync :=
  {| config := config self; dry_run := false; session := net |}.

(** A remote side that denies the listing and serves a malformed
    document for the known directory of the fallback. *)
Definition net_denied (url : string) : option Response :=
  if bool_decide
       (url = "https://api.github.com/repos/Alice/Alice.github.io/contents/publications")
  then Some (status 403)
  else if bool_decide
            (url = "https://raw.githubusercontent.com/Alice/Alice.github.io/main/publications/20250917_test/index.qmd")
  then Some (file_object text_malformed)
  else None.
Definition denied : MemberPostSync :=
  {| config := config self; dry_run := false; session := net_denied |}.

(** A remote side that denies the listing and serves the known
    directory of the fallback, with a [featured.png] beside it. *)
Definition raw_base : string :=
  "https://raw.githubusercontent.com/Alice/Alice.github.io/main/publications/20250917_test/".
Definition net_fallback (url : string) : option Response :=
  if bool_decide
       (url = "https://api.github.com/repos/Alice/Alice.github.io/contents/publications")
  then Some (status 403)
  else if bool_decide (url = raw_base +:+ "index.qmd")
  then Some (file_object text_with_metadata)
  else if bool_decide (url = raw_base +:+ "featured.png")
  then Some (file_object "PNG")
  else None.
Definition fallback : MemberPostSync :=
  {| config := config self; dry_run := false; session := net_fallback |}.

(** A member whose record says [active: false], and a configuration
    that holds him beside [alice]. *)
Definition bob : Member :=
  {| m_username := "Bob"; m_name := "Bob B.";
     m_profile_url := "https://bob.github.io";
     m_publications_path := None; m_destination_path := None;
     m_active := Some (YBool false) |}.
Definition team : MemberPostSync :=
  {| config := {| members := Some [alice; bob]; sync_config := None |};
     dry_run := false; session := net |}.

End Sample.

(* ------------------------------------------------------------------ *)
(** * Predicates on computations *)
(* ------------------------------------------------------------------ *)

(** [m] keeps a property of the world, whether it returns or raises. *)
Definition keeps {A : Type} (I : World -> Prop) (m : M A) : Prop :=
  forall w, I w -> I (snd (m w)).

(** [m] keeps a property of the file system. *)
Definition fs_inv {A : Type} (P : gmap Path Node -> Prop) (m : M A) : Prop :=
  keeps (fun w => P (w_fs w)) m.

(** The text of the local file at a path, if there is a file. *)
Definition local_text (fs : gmap Path Node) (p : Path) : option string :=
  match FS.node_at fs p with
  | Some (File t) => Some t
  | _ => None
  end.

(** The line a real run logs for its decision. *)
Definition decision_line (a : Action) (index_path : Path) : LogRecord :=
  match a with
  | CREATE =>
      {| lr_level := INFO;
         lr_template := "Creating new publication: {index_path.parent}";
         lr_args := [APath (PurePath.parent index_path)] |}
  | UPDATE =>
      {| lr_level := INFO;
         lr_template := "Updating existing publication: {index_path.parent}";
         lr_args := [APath (PurePath.parent index_path)] |}
  | SKIP =>
      {| lr_level := DEBUG;
         lr_template := "No changes detected for {index_path}";
         lr_args := [APath index_path] |}
  end.

(** [m] returns: no exception leaves it. *)
Definition returns {A : Type} (m : M A) : Prop :=
  forall w, exists a w', m w = (Ok a, w').

(** [m] returns [a] in every world, requesting the URLs [urls] in order
    and leaving the file system as it is. *)
Definition fetches {A : Type} (m : M A) (a : A) (urls : list string) : Prop :=
  forall w, exists w',
    m w = (Ok a, w') /\
    w_requests w' = w_requests w ++ urls /\
    w_fs w' = w_fs w.

(** The listing the contents API gives for a URL, when the request
    succeeds. *)
Definition listing_of {L : PyLib} (self : MemberPostSync) (url : string)
  : option (list Entry) :=
  match session self url with
  | Some r =>
      if response_bool r && Z.eqb (status_code r) 200 then
        match json r with
        | Ok (JList items) => Some items
        | _ => None
        end
      else None
  | None => None
  end.

(** The decoded text of the file the contents API gives for a URL, when
    the request succeeds. *)
Definition document_of {L : PyLib} (self : MemberPostSync) (url : string)
  : option string :=
  match session self url with
  | Some r =>
      if response_bool r && Z.eqb (status_code r) 200 then
        match json r with
        | Ok (JObject c) =>
            match b64decode_utf8 (default EmptyString c) with
            | Ok text => Some text
            | Raise _ => None
            end
        | _ => None
        end
      else None
  | None => None
  end.

(** The object [self] with the members that are not active taken out of
    its configuration. *)
Definition without_inactive (self : MemberPostSync) : MemberPostSync :=
  {| config :=
       {| members := Some (List.filter is_active
                             (default [] (members (config self))));
          sync_config := sync_config (config self) |};
     dry_run := dry_run self;
     session := session self |}.

(** The candidates a probe tries: those up to the first that resolves,
    that one included. *)
Fixpoint probed (resolves : string -> bool) (candidates : list string)
  : list string :=
  match candidates with
  | [] => []
  | c :: rest => c :: (if resolves c then [] else probed resolves rest)
  end.

(* ------------------------------------------------------------------ *)
(** * Further predicates on computations and data *)
(* ------------------------------------------------------------------ *)

(** Whenever [m] returns, its result satisfies [Q]. *)
Definition yields {A : Type} (Q : A -> Prop) (m : M A) : Prop :=
  forall w a w', m w = (Ok a, w') -> Q a.

(** [m] raises [e] in every world, after requesting the URLs [urls] in
    order, and leaves the file system as it is. *)
Definition fails {A : Type} (m : M A) (e : Exn) (urls : list string) : Prop :=
  forall w, exists w',
    m w = (Raise e, w') /\
    w_requests w' = w_requests w ++ urls /\
    w_fs w' = w_fs w.

(** A publication that carries the four keys the fetchers add. *)
Definition located (publication : Publication) : Prop :=
  is_Some (p_directory_name publication) /\
  is_Some (p_source_url publication) /\
  is_Some (p_github_path publication) /\
  is_Some (p_image_files publication).

(** The publications the three counters stand for. *)
Definition total_count (c : Counts) : nat :=
  (created_count c + updated_count c + skipped_count c)%nat.

(** The worlds that differ from [w0] in the log and in the requests
    made, and in nothing else. *)
Definition frame (w0 : World) (w : World) : Prop :=
  w_fs w = w_fs w0 /\ w_now w = w_now w0 /\ w_counts w = w_counts w0.

(** The URL of the listing of a member's publications. *)
Definition api_url_of (member : Member) : string :=
  "https://api.github.com/repos/" +:+ m_username member +:+ "/" +:+
  (m_username member +:+ ".github.io") +:+ "/contents/" +:+
  PyStr.strip_slash (default "/publications" (m_publications_path member)).

(** The tests of the loop over [subdir_items]. *)
Definition is_index_file (subitem : Entry) : bool :=
  bool_decide (e_type subitem = "file") &&
  bool_decide (e_name subitem = "index.qmd").
Definition is_image_file (subitem : Entry) : bool :=
  bool_decide (e_type subitem = "file") &&
  negb (bool_decide (e_name subitem = "index.qmd")) &&
  is_featured_image (e_name subitem).

(* ================================================================== *)
(** * Properties *)
(* ================================================================== *)

(** ** Strings *)

Example split_frontmatter :
  PyStr.split "---" 2 "---a---b---c" = [""; "a"; "b---c"].
Proof. reflexivity. Qed.

Example split_single_delimiter : PyStr.split "---" 2 "----" = [""; "-"].
Proof. reflexivity. Qed.

Example split_at_end : PyStr.split "---" 2 "a---" = ["a"; ""].
Proof. reflexivity. Qed.

Example title_of_filename :
  PyStr.title (PyStr.replace "-" " " (PyStr.replace ".qmd" "" "my-first-post.qmd"))
  = "My First Post".
Proof. reflexivity. Qed.

Example strip_white_space : PyStr.strip (" a b " +:+ PyStr.LF) = "a b".
Proof. reflexivity. Qed.

Example strip_slashes : PyStr.strip_slash "/publications/" = "publications".
Proof. reflexivity. Qed.

Example lower_username : PyStr.lower "McPherson-Lab" = "mcpherson-lab".
Proof. reflexivity. Qed.

Example path_of_publication :
  base_publications_dir // "alice-2025_paper" // "index.qmd"
  = ["publications"; "alice-2025_paper"; "index.qmd"].
Proof. reflexivity. Qed.

Example slice_negative : slice_to (-1) [1; 2; 3]%nat = [1; 2]%nat.
Proof. reflexivity. Qed.

Example py_eq_bool_int :
  Py.eq (YList [YBool true; YDict {[ "a" := YInt 0 ]}])
        (YList [YInt 1; YDict {[ "a" := YBool false ]}]) = true.
Proof. vm_compute. reflexivity. Qed.

Lemma append_cons (c : ascii) (s t : string) :
  String c s +:+ t = String c (s +:+ t).
Proof. reflexivity. Qed.

Lemma append_nil_l (s : string) : EmptyString +:+ s = s.
Proof. reflexivity. Qed.

Lemma append_nil_r (s : string) : s +:+ EmptyString = s.
Proof.
  induction s as [|c s IH]; [reflexivity | now rewrite append_cons, IH].
Qed.

Lemma append_assoc (a b c : string) : (a +:+ b) +:+ c = a +:+ (b +:+ c).
Proof.
  induction a as [|x a IH]; [reflexivity | now rewrite !append_cons, IH].
Qed.

Lemma contains_cons_false (sub : string) (c : ascii) (s : string) :
  PyStr.contains sub (String c s) = false ->
  String.prefix sub (String c s) = false /\ PyStr.contains sub s = false.
Proof. cbn [PyStr.contains]. intros H. now apply orb_false_iff in H. Qed.

(** Without an occurrence of the separator there is nothing to split. *)
Lemma split_go_no_sep (sep : string) (s : string) :
  PyStr.contains sep s = false ->
  forall n cur, PyStr.split_go sep n O cur s = [cur +:+ s].
Proof.
  induction s as [|c s IH]; intros Hno n cur.
  - simpl. now rewrite append_nil_r.
  - apply contains_cons_false in Hno as [Hp Hs].
    cbn [PyStr.split_go]. rewrite Hp.
    destruct n; rewrite (IH Hs), append_assoc; reflexivity.
Qed.

(** A text that starts with the delimiter is the delimiter followed by
    what [drop 3] keeps. *)
Lemma prefix_cons (a b : ascii) (p s : string) :
  String.prefix (String a p) (String b s)
  = if ascii_dec a b then String.prefix p s else false.
Proof. reflexivity. Qed.

Lemma prefix_cons_inv (a : ascii) (p s : string) :
  String.prefix (String a p) s = true ->
  exists s', s = String a s' /\ String.prefix p s' = true.
Proof.
  destruct s as [|b s]; [discriminate |].
  rewrite prefix_cons. destruct (ascii_dec a b); [subst | discriminate].
  eauto.
Qed.

Lemma startswith_delimiter (s : string) :
  PyStr.startswith "---" s = true -> s = "---" +:+ PyStr.drop 3 s.
Proof.
  unfold PyStr.startswith. intros H.
  apply prefix_cons_inv in H as (s1 & -> & H).
  apply prefix_cons_inv in H as (s2 & -> & H).
  apply prefix_cons_inv in H as (s3 & -> & _).
  reflexivity.
Qed.

(** Splitting at a delimiter that heads the text. *)
Lemma split_go_delimiter (r : string) (n : nat) (cur : string) :
  PyStr.split_go "---" (S n) O cur ("---" +:+ r)
  = cur :: PyStr.split_go "---" n O EmptyString r.
Proof. destruct r; reflexivity. Qed.

(** With the delimiter at the start and nowhere after it, the split has
    two pieces. *)
Lemma split_delimiter_alone (s : string) :
  PyStr.startswith "---" s = true ->
  PyStr.contains "---" (PyStr.drop 3 s) = false ->
  PyStr.split "---" 2 s = [EmptyString; PyStr.drop 3 s].
Proof.
  intros Hs Hno. rewrite (startswith_delimiter s Hs) at 1.
  unfold PyStr.split. rewrite split_go_delimiter.
  now rewrite (split_go_no_sep _ _ Hno).
Qed.

(** ** The parser without a metadata block *)

(** C5, as amended.  For every text that does not begin with the
    delimiter [---], or begins with it and holds no further occurrence of
    it, the parser does not signal failure: it returns a publication whose
    title is derived from the file name (extension removed, hyphens
    replaced by spaces, title-cased; ["Index"] for the name [index.qmd]
    that every caller passes), whose categories are the single default
    category, and whose body is the whole text; nothing is logged. *)
Theorem parse_without_metadata {L : PyLib} (content filename : string)
  (member : Member) :
  PyStr.startswith "---" content = false \/
  PyStr.contains "---" (PyStr.drop 3 content) = false ->
  exists publication,
    parse_qmd content filename member = Ok publication /\
    (forall w, _parse_qmd_content content filename member w
               = (Ok (Some publication), w)) /\
    p_title publication
      = Some (YStr (PyStr.title
                      (PyStr.replace "-" " " (PyStr.replace ".qmd" "" filename)))) /\
    p_categories publication = CatOwn (YList [YStr "research"]) /\
    p_content publication = Some content /\
    (filename = "index.qmd" -> p_title publication = Some (YStr "Index")).
Proof.
  intros Hcond.
  assert (Hparse : exists publication,
             parse_qmd content filename member = Ok publication /\
             p_title publication
               = Some (YStr (PyStr.title (PyStr.replace "-" " "
                               (PyStr.replace ".qmd" "" filename)))) /\
             p_categories publication = CatOwn (YList [YStr "research"]) /\
             p_content publication = Some content).
  { unfold parse_qmd.
    destruct (PyStr.startswith "---" content) eqn:Hs.
    - destruct Hcond as [Hc | Hc]; [discriminate |].
      rewrite (split_delimiter_alone content Hs Hc).
      eexists; repeat split; reflexivity.
    - eexists; repeat split; reflexivity. }
  destruct Hparse as (publication & Hp & Ht & Hc & Hb).
  exists publication. repeat split; try assumption.
  - intros w. unfold _parse_qmd_content. now rewrite Hp.
  - intros ->. rewrite Ht. reflexivity.
Qed.

Lemma parse_without_metadata_witness :
  exists publication,
    parse_qmd (L := Sample.lib) "Plain notes." "index.qmd" Sample.alice
      = Ok publication /\
    p_title publication = Some (YStr "Index") /\
    p_content publication = Some "Plain notes.".
Proof.
  destruct (parse_without_metadata (L := Sample.lib)
              "Plain notes." "index.qmd" Sample.alice
              (or_introl eq_refl))
    as (publication & Hp & _ & _ & _ & Hb & Ht).
  exists publication. split; [exact Hp | split; [exact (Ht eq_refl) | exact Hb]].
Defined.

(** C5 fails as it is stated.  A text that begins with the delimiter and
    holds one further occurrence of it (fewer than two) is split into a
    metadata block and a body: whatever [yaml.safe_load] answers, the
    parser does not return the whole text as the body under the default
    category. *)
Lemma parse_closing_delimiter_counterexample :
  PyStr.startswith "---" Sample.text_with_metadata = true /\
  (PyStr.count "---" (PyStr.drop 3 Sample.text_with_metadata) < 2)%nat /\
  (forall (L : PyLib) (member : Member),
     ~ exists publication,
         parse_qmd Sample.text_with_metadata "index.qmd" member = Ok publication /\
         p_categories publication = CatOwn (YList [YStr "research"]) /\
         p_content publication = Some Sample.text_with_metadata) /\
  exists publication,
    parse_qmd (L := Sample.lib) Sample.text_with_metadata "index.qmd" Sample.alice
      = Ok publication /\
    p_title publication = Some (YStr "Paper X") /\
    p_content publication = Some "Body".
Proof.
  split; [reflexivity |]. split; [vm_compute; lia |]. split.
  - intros L member (publication & Hp & _ & Hb).
    unfold parse_qmd in Hp.
    change (PyStr.startswith "---" Sample.text_with_metadata) with true in Hp.
    change (PyStr.split "---" 2 Sample.text_with_metadata)
      with [EmptyString; PyStr.LF +:+ Sample.doc_paper +:+ PyStr.LF;
            PyStr.LF +:+ "Body"] in Hp.
    cbv beta iota in Hp.
    destruct (yaml_safe_load _) as [[]|]; simpl in Hp; try discriminate.
    injection Hp as <-. simpl in Hb. discriminate.
  - eexists. split; [reflexivity |]. split; reflexivity.
Qed.

(** ** The destination resolver and the local path *)

Lemma first_mapped_skip (mapping : gmap string string) (before rest : list yaml) :
  Forall (fun v => Py.in_dict v mapping = Ok false) before ->
  first_mapped mapping (before ++ rest) = first_mapped mapping rest.
Proof.
  induction 1 as [|v before Hv _ IH]; [reflexivity |].
  cbn [app first_mapped]. rewrite Hv. exact IH.
Qed.

Lemma first_mapped_none (mapping : gmap string string) (cats : list yaml) :
  Forall (fun v => Py.in_dict v mapping = Ok false) cats ->
  first_mapped mapping cats = Ok None.
Proof.
  intros H. rewrite <- (app_nil_r cats). now rewrite first_mapped_skip.
Qed.

Lemma first_mapped_hit (mapping : gmap string string) (c d : string)
  (after : list yaml) :
  mapping !! c = Some d ->
  first_mapped mapping (YStr c :: after) = Ok (Some (PyStr.strip_slash d)).
Proof.
  intros Hc. cbn [first_mapped Py.in_dict Py.dict_get rbind]. rewrite Hc.
  rewrite bool_decide_eq_true_2 by eauto. reflexivity.
Qed.

(** C1, as amended.  The resolver [_get_destination_subdir] follows the
    stated precedence: a member-level override is returned with its
    slashes trimmed whatever the mappings say; without an override the
    first category, in the declared order, that has an entry in the
    category mapping decides; without either, the type mapping of the
    document's [type] field (default [post]) applies, else the constant
    [posts].  Its answer does not enter the local path: the primary file of
    every publication is [index.qmd] in the directory
    [{lowercased username}-{remote directory name}] directly under
    [publications]. *)
Theorem resolver_precedence_and_local_path {L : PyLib} (self : MemberPostSync)
  (post : Publication) (member : Member) :
  let sc := default empty_sync_config (sync_config (config self)) in
  (forall d, m_destination_path member = Some d ->
     _get_destination_subdir self post member = Ok (PyStr.strip_slash d)) /\
  (forall before c after d,
     m_destination_path member = None ->
     get_categories post = Some (YList (before ++ YStr c :: after)) ->
     Forall (fun v => Py.in_dict v (default ∅ (category_mapping sc)) = Ok false)
            before ->
     default ∅ (category_mapping sc) !! c = Some d ->
     _get_destination_subdir self post member = Ok (PyStr.strip_slash d)) /\
  (forall cats t,
     m_destination_path member = None ->
     default (YList []) (get_categories post) = YList cats ->
     Forall (fun v => Py.in_dict v (default ∅ (category_mapping sc)) = Ok false)
            cats ->
     default (YStr "post") (default ∅ (p_original_frontmatter post) !! "type")
       = YStr t ->
     _get_destination_subdir self post member
       = Ok (default "posts"
               (default default_type_mapping (type_mapping sc) !! t))) /\
  (forall now r,
     render_local_post self now post member = Ok r ->
     fst (fst (fst r))
       = base_publications_dir
         // (PyStr.lower (m_username member) +:+ "-" +:+
             default ("publication-" +:+ now) (p_directory_name post))
         // "index.qmd").
Proof.
  intros sc. repeat split.
  - intros d Hd. unfold _get_destination_subdir. now rewrite Hd.
  - intros before c after d Hno Hcats Hbefore Hc.
    unfold _get_destination_subdir. rewrite Hno, Hcats. fold sc.
    set (mapping := default ∅ (category_mapping sc)) in *.
    cbn [default from_option id Py.iter rbind].
    now rewrite (first_mapped_skip _ _ _ Hbefore), (first_mapped_hit _ _ _ _ Hc).
  - intros cats t Hno Hcats Hnone Ht.
    unfold _get_destination_subdir. rewrite Hno, Hcats. fold sc.
    set (mapping := default ∅ (category_mapping sc)) in *.
    set (types := default default_type_mapping (type_mapping sc)) in *.
    cbn [id Py.iter rbind]. rewrite (first_mapped_none _ _ Hnone).
    cbn [rbind]. rewrite Ht. cbn [Py.in_dict Py.dict_get rbind].
    destruct (types !! t) as [d|] eqn:Hd; cbn [default from_option id].
    + rewrite bool_decide_eq_true_2 by eauto. reflexivity.
    + rewrite bool_decide_eq_false_2 by (intros [? ?]; discriminate). reflexivity.
  - intros now r Hr. unfold render_local_post in Hr.
    destruct (local_post_frontmatter _ _ _) as [fp|]; [| discriminate].
    cbn [rbind] in Hr. injection Hr as <-. reflexivity.
Qed.

Lemma resolver_precedence_and_local_path_witness :
  _get_destination_subdir Sample.self Sample.paper Sample.alice = Ok "papers".
Proof.
  destruct (resolver_precedence_and_local_path (L := Sample.lib)
              Sample.self Sample.paper Sample.alice) as (_ & Hcat & _ & _).
  apply (Hcat [] "paper" [] "papers"); [reflexivity | reflexivity | constructor |].
  vm_compute. reflexivity.
Defined.

(** C1 fails as it is stated.  For the remote directory [2025_paper] with
    categories [paper] and the mapping of [paper] to [papers], the
    resolver answers [papers], and the primary file is
    [publications/alice-2025_paper/index.qmd]: no part of its path is the
    mapped subdirectory. *)
Lemma local_path_not_under_mapping_counterexample :
  m_destination_path Sample.alice = None /\
  _get_destination_subdir Sample.self Sample.paper Sample.alice = Ok "papers" /\
  exists r,
    render_local_post (L := Sample.lib) Sample.self "20251104120000"
      Sample.paper Sample.alice = Ok r /\
    fst (fst (fst r)) = ["publications"; "alice-2025_paper"; "index.qmd"] /\
    ~ In "papers" (fst (fst (fst r))).
Proof.
  split; [reflexivity |]. split; [vm_compute; reflexivity |].
  eexists. split; [vm_compute; reflexivity |].
  split; [reflexivity |].
  cbn [fst In]. intros [H | [H | [H | []]]]; discriminate.
Qed.

(** ** Python's membership test and [append] *)

Lemma py_eq_refl (x : yaml) : Py.eq x x = true.
Proof. unfold Py.eq. now apply bool_decide_eq_true_2. Qed.

Lemma norm_str_inv (v : yaml) (s : string) : Py.norm v = YStr s -> v = YStr s.
Proof. destruct v; simpl; congruence. Qed.

Lemma py_eq_str (s : string) (v : yaml) : Py.eq (YStr s) v = true -> v = YStr s.
Proof.
  unfold Py.eq. intros H. apply bool_decide_eq_true_1 in H.
  simpl in H. symmetry in H. now apply norm_str_inv.
Qed.

Lemma in_list_In (s : string) (l : list yaml) :
  Py.in_list (YStr s) l = true <-> In (YStr s) l.
Proof.
  unfold Py.in_list. rewrite existsb_exists. split.
  - intros (v & Hv & He). apply py_eq_str in He. now subst.
  - intros H. exists (YStr s). split; [assumption | apply py_eq_refl].
Qed.

Lemma in_list_elem (x : yaml) (l : list yaml) : In x l -> Py.in_list x l = true.
Proof.
  intros H. unfold Py.in_list. rewrite existsb_exists.
  exists x. split; [assumption | apply py_eq_refl].
Qed.

Lemma in_list_app (x : yaml) (l l' : list yaml) :
  Py.in_list x l = true -> Py.in_list x (l ++ l') = true.
Proof. unfold Py.in_list. rewrite existsb_app. intros ->. reflexivity. Qed.

Lemma in_list_snoc (x : yaml) (l : list yaml) : Py.in_list x (l ++ [x]) = true.
Proof. apply in_list_elem, in_or_app. right. now left. Qed.

(** A loop over the list it appends to appends nothing: every element
    it reads is in the list. *)
Lemma ensure_all_live_id (fuel : nat) : forall i l, Py.ensure_all_live fuel i l = l.
Proof.
  induction fuel as [|fuel IH]; intros i l; [reflexivity |].
  cbn [Py.ensure_all_live]. destruct (l !! i) as [x|] eqn:Hx; [| reflexivity].
  rewrite in_list_elem; [apply IH |].
  apply list_elem_of_In. eapply list_elem_of_lookup_2. exact Hx.
Qed.

(** After [if x not in c: c.append(x)], [x] is in [c]. *)
Lemma ensure_contains (c x c' : yaml) :
  Py.ensure c x = Ok c' -> Py.contains c' x = Ok true.
Proof.
  unfold Py.ensure. destruct (Py.contains c x) as [[|]|] eqn:Hc; cbn [rbind].
  - now intros [= <-].
  - destruct c; cbn [Py.append]; try discriminate.
    intros [= <-]. cbn [Py.contains]. now rewrite in_list_snoc.
  - discriminate.
Qed.

Lemma contains_ensure (c x : yaml) :
  Py.contains c x = Ok true -> Py.ensure c x = Ok c.
Proof. unfold Py.ensure. now intros ->. Qed.

(** What is in [c] stays in it. *)
Lemma ensure_keeps (c x c' y : yaml) :
  Py.contains c y = Ok true -> Py.ensure c x = Ok c' ->
  Py.contains c' y = Ok true.
Proof.
  unfold Py.ensure. intros Hy.
  destruct (Py.contains c x) as [[|]|]; cbn [rbind].
  - now intros [= <-].
  - destruct c; cbn [Py.append]; try discriminate.
    intros [= <-]. cbn [Py.contains] in *.
    injection Hy as Hy. now rewrite in_list_app.
  - discriminate.
Qed.

Lemma rfold_ensure_keeps (xs : list yaml) : forall c c' y,
  Py.contains c y = Ok true -> rfold Py.ensure xs c = Ok c' ->
  Py.contains c' y = Ok true.
Proof.
  induction xs as [|x xs IH]; intros c c' y Hy; cbn [rfold].
  - now intros [= <-].
  - destruct (Py.ensure c x) as [c1|] eqn:H1; cbn [rbind]; [| discriminate].
    apply IH. eapply ensure_keeps; eassumption.
Qed.

Lemma rfold_ensure_all (xs : list yaml) : forall c c',
  rfold Py.ensure xs c = Ok c' ->
  forall x, In x xs -> Py.contains c' x = Ok true.
Proof.
  induction xs as [|x xs IH]; intros c c' H y Hy; [destruct Hy |].
  cbn [rfold] in H.
  destruct (Py.ensure c x) as [c1|] eqn:H1; cbn [rbind] in H; [| discriminate].
  destruct Hy as [<- | Hy].
  - eapply rfold_ensure_keeps; [| exact H]. eapply ensure_contains; exact H1.
  - eapply IH; eassumption.
Qed.

Lemma rfold_ensure_stable (xs : list yaml) (c : yaml) :
  (forall x, In x xs -> Py.contains c x = Ok true) ->
  rfold Py.ensure xs c = Ok c.
Proof.
  induction xs as [|x xs IH]; intros H; [reflexivity |].
  cbn [rfold]. rewrite contains_ensure by (apply H; now left).
  cbn [rbind]. apply IH. intros y Hy. apply H. now right.
Qed.

(** ** The rendered metadata block *)

(** The passthrough loop adds the entries of the original block whose key
    is not set yet and is not [categories]. *)
Lemma passthrough_union (original_fm frontmatter : gmap string yaml) :
  passthrough original_fm frontmatter
  = frontmatter ∪ delete "categories" original_fm.
Proof.
  unfold passthrough.
  apply (map_fold_weak_ind
           (fun r m => r = frontmatter ∪ delete "categories" m)).
  - now rewrite delete_empty, (right_id_L ∅ (∪)).
  - intros key value m r Hm ->.
    destruct (decide (key = "categories")) as [-> | Hne].
    + rewrite orb_true_r. now rewrite delete_insert_eq.
    + rewrite (bool_decide_eq_false_2 _ Hne), orb_false_r.
      rewrite delete_insert_ne by congruence.
      assert (Hd : delete "categories" m !! key = None)
        by (apply lookup_delete_None; now right).
      destruct (frontmatter !! key) as [v|] eqn:Hf.
      * rewrite bool_decide_eq_true_2
          by (rewrite lookup_union, Hf; destruct (delete _ m !! key); eauto).
        apply map_eq. intros k. rewrite !lookup_union.
        destruct (decide (k = key)) as [-> | Hk].
        -- rewrite lookup_insert_eq, Hd, Hf. reflexivity.
        -- now rewrite lookup_insert_ne by congruence.
      * rewrite bool_decide_eq_false_2.
        -- now apply insert_union_r.
        -- rewrite lookup_union, Hf, Hd. intros [? ?]; discriminate.
Qed.

(** The pieces of a successful [local_post_frontmatter]. *)
Lemma frontmatter_inv {L : PyLib} (publication : Publication) (member : Member)
  (directory_name : string) (fm : gmap string yaml) (publication' : Publication) :
  local_post_frontmatter publication member directory_name = Ok (fm, publication') ->
  exists c1 c2,
    Py.ensure (default (YList [YStr "research"; YStr MARKER])
                       (get_categories publication)) (YStr MARKER) = Ok c1 /\
    merge_categories (p_categories publication)
      (default ∅ (p_original_frontmatter publication)) c1 = Ok c2 /\
    fm = <["categories" := c2]>
           (required_fields publication member directory_name c1
            ∪ delete "categories" (default ∅ (p_original_frontmatter publication))) /\
    publication' = with_categories publication c2.
Proof.
  unfold local_post_frontmatter. intros H.
  destruct (Py.ensure _ _) as [c1|] eqn:H1; cbn [rbind] in H; [| discriminate].
  destruct (merge_categories _ _ _) as [c2|] eqn:H2; cbn [rbind] in H;
    [| discriminate].
  injection H as <- <-. exists c1, c2.
  rewrite passthrough_union. repeat split; assumption || reflexivity.
Qed.

Lemma frontmatter_intro {L : PyLib} (publication : Publication) (member : Member)
  (directory_name : string) (c1 c2 : yaml) :
  Py.ensure (default (YList [YStr "research"; YStr MARKER])
                     (get_categories publication)) (YStr MARKER) = Ok c1 ->
  merge_categories (p_categories publication)
    (default ∅ (p_original_frontmatter publication)) c1 = Ok c2 ->
  local_post_frontmatter publication member directory_name
  = Ok (<["categories" := c2]>
          (required_fields publication member directory_name c1
           ∪ delete "categories" (default ∅ (p_original_frontmatter publication))),
        with_categories publication c2).
Proof.
  intros H1 H2. unfold local_post_frontmatter.
  rewrite H1. cbn [rbind]. rewrite H2. cbn [rbind].
  now rewrite passthrough_union.
Qed.

Lemma required_fields_author {L : PyLib} (publication : Publication)
  (member : Member) (directory_name : string) (c : yaml) :
  required_fields publication member directory_name c !! "author"
  = Some (normalize_author
            (default (YStr (m_name member)) (p_author publication))).
Proof. unfold required_fields. now simplify_map_eq. Qed.

Lemma rendered_author {L : PyLib} (publication : Publication) (member : Member)
  (directory_name : string) (fm : gmap string yaml) (publication' : Publication) :
  local_post_frontmatter publication member directory_name = Ok (fm, publication') ->
  fm !! "author"
  = Some (normalize_author
            (default (YStr (m_name member)) (p_author publication))).
Proof.
  intros H. apply frontmatter_inv in H as (c1 & c2 & _ & _ & -> & _).
  rewrite lookup_insert_ne by discriminate.
  apply lookup_union_Some_raw. left. apply required_fields_author.
Qed.

(** C7, as amended.  The [author] entry of the rendered metadata block is
    always a list, never a bare string: a string is wrapped in a
    one-element list, a value that is neither a string nor a list becomes
    the one-element list of its [str] form, and a list is passed through as
    it is.  The list has at least one element unless the publication's
    author is the empty list. *)
Theorem rendered_author_is_list {L : PyLib} (publication : Publication)
  (member : Member) (directory_name : string) (fm : gmap string yaml)
  (publication' : Publication) :
  local_post_frontmatter publication member directory_name = Ok (fm, publication') ->
  let author_value := default (YStr (m_name member)) (p_author publication) in
  exists names,
    fm !! "author" = Some (YList names) /\
    (forall s, author_value = YStr s -> names = [YStr s]) /\
    (forall l, author_value = YList l -> names = l) /\
    (Py.is_list author_value = false -> (forall s, author_value <> YStr s) ->
     names = [YStr (py_str author_value)]) /\
    (author_value <> YList [] -> names <> []).
Proof.
  intros H author_value. rewrite (rendered_author _ _ _ _ _ H).
  fold author_value. clearbody author_value.
  destruct author_value as [| b | z | s | l | m];
    (eexists; split; [reflexivity |]); repeat split;
    try congruence; try discriminate;
    try (intros ? [= <-]; reflexivity);
    try (intros _ Hs; exfalso; eapply Hs; reflexivity).
Qed.

Lemma rendered_author_is_list_witness :
  exists fm publication' names,
    local_post_frontmatter (L := Sample.lib) Sample.paper Sample.alice "2025_paper"
      = Ok (fm, publication') /\
    fm !! "author" = Some (YList names) /\
    names = [YStr "Alice A."].
Proof.
  destruct (local_post_frontmatter (L := Sample.lib) Sample.paper Sample.alice
              "2025_paper") as [[fm publication']|] eqn:Hr;
    [| vm_compute in Hr; discriminate].
  destruct (rendered_author_is_list (L := Sample.lib) Sample.paper Sample.alice
              "2025_paper" fm publication' Hr) as (names & Ha & Hs & _).
  exists fm, publication', names.
  split; [reflexivity | split; [exact Ha | now apply Hs]].
Defined.

(** C7 fails as it is stated.  A document whose metadata block reads
    [author: []] is parsed into a publication with the empty list as
    author, and the rendered author list is empty. *)
Lemma rendered_author_empty_counterexample :
  parse_qmd (L := Sample.lib) Sample.text_author_empty "index.qmd" Sample.alice
    = Ok Sample.notes /\
  p_author Sample.notes = Some (YList []) /\
  exists fm publication',
    local_post_frontmatter (L := Sample.lib)
      (with_directory Sample.notes "notes" "u" "p" []) Sample.alice "notes"
      = Ok (fm, publication') /\
    fm !! "author" = Some (YList []).
Proof.
  split; [vm_compute; reflexivity |]. split; [reflexivity |].
  destruct (local_post_frontmatter (L := Sample.lib)
              (with_directory Sample.notes "notes" "u" "p" []) Sample.alice
              "notes") as [[fm publication']|] eqn:Hr;
    [| vm_compute in Hr; discriminate].
  exists fm, publication'. split; [reflexivity |].
  now rewrite (rendered_author _ _ _ _ _ Hr).
Qed.

(** ** Categories: the marker and the merge *)

Lemma ensure_list (l : list yaml) (x : yaml) :
  Py.ensure (YList l) x = Ok (YList (if Py.in_list x l then l else l ++ [x])).
Proof. unfold Py.ensure. cbn. now destruct (Py.in_list x l). Qed.

(** Merging into a list that holds the marker keeps its marker entries
    as they are. *)
Lemma rfold_ensure_list (xs : list yaml) : forall l,
  In (YStr MARKER) l ->
  exists l', rfold Py.ensure xs (YList l) = Ok (YList l') /\
             marker_count l' = marker_count l /\ In (YStr MARKER) l'.
Proof.
  induction xs as [|x xs IH]; intros l Hin; [now exists l |].
  cbn [rfold]. rewrite ensure_list. cbn [rbind].
  destruct (Py.in_list x l) eqn:Hx; [now apply IH |].
  destruct (IH (l ++ [x])) as (l' & Hr & Hc & Hin');
    [apply in_or_app; now left |].
  exists l'. split; [exact Hr |]. split; [| exact Hin'].
  rewrite Hc. unfold marker_count. rewrite count_occ_app.
  rewrite (count_occ_cons_neq yaml_eq_dec); [simpl; lia |].
  intros ->. apply in_list_In in Hin. congruence.
Qed.

Lemma merge_list (slot : CategoriesSlot) (original_fm : gmap string yaml)
  (l : list yaml) :
  In (YStr MARKER) l ->
  exists l', merge_categories slot original_fm (YList l) = Ok (YList l') /\
             marker_count l' = marker_count l /\ In (YStr MARKER) l'.
Proof.
  intros Hin. unfold merge_categories.
  destruct (original_fm !! "categories") as [original|]; [| now exists l].
  destruct slot; try (now apply rfold_ensure_list).
  exists l. now rewrite ensure_all_live_id.
Qed.

(** What is in the categories object before the merge is in it after. *)
Lemma merge_keeps (slot : CategoriesSlot) (original_fm : gmap string yaml)
  (c1 c2 y : yaml) :
  Py.contains c1 y = Ok true ->
  merge_categories slot original_fm c1 = Ok c2 ->
  Py.contains c2 y = Ok true.
Proof.
  intros Hy. unfold merge_categories.
  destruct (original_fm !! "categories") as [original|];
    [| now intros [= <-]].
  destruct slot; try (now apply rfold_ensure_keeps).
  destruct c1; try (now apply ensure_keeps).
  rewrite ensure_all_live_id. now intros [= <-].
Qed.

(** Through the shared slot the merge changes nothing. *)
Lemma merge_shared_id (original_fm : gmap string yaml) (c1 c2 : yaml) :
  merge_categories CatShared original_fm c1 = Ok c2 -> c2 = c1.
Proof.
  unfold merge_categories.
  destruct (original_fm !! "categories") as [original|];
    [| now intros [= <-]].
  assert (Hens : Py.is_list c1 = false -> Py.ensure c1 c1 = Ok c2 -> c2 = c1).
  { unfold Py.ensure. intros Hl.
    destruct (Py.contains c1 c1) as [[|]|]; cbn [rbind];
      [now intros [= <-] | | discriminate].
    destruct c1; try discriminate. }
  destruct c1; try (now apply Hens).
  rewrite ensure_all_live_id. now intros [= <-].
Qed.

(** A second merge of the same original categories adds nothing. *)
Lemma merge_own_again (slot : CategoriesSlot) (original_fm : gmap string yaml)
  (c1 c2 : yaml) :
  slot <> CatShared ->
  merge_categories slot original_fm c1 = Ok c2 ->
  forall slot', slot' <> CatShared ->
  merge_categories slot' original_fm c2 = Ok c2.
Proof.
  intros Hs H slot' Hs'. unfold merge_categories in *.
  destruct (original_fm !! "categories") as [original|]; [| reflexivity].
  assert (Hr : rfold Py.ensure
                 match original with YList l => l | _ => [original] end c1
               = Ok c2) by (destruct slot; congruence).
  assert (Hg : rfold Py.ensure
                 match original with YList l => l | _ => [original] end c2
               = Ok c2)
    by (apply rfold_ensure_stable; eapply rfold_ensure_all; exact Hr).
  destruct slot'; congruence.
Qed.

Lemma with_categories_fields (publication : Publication) (c : yaml) :
  let publication' := with_categories publication c in
  p_title publication' = p_title publication /\
  p_author publication' = p_author publication /\
  p_content publication' = p_content publication /\
  p_directory_name publication' = p_directory_name publication /\
  p_source_url publication' = p_source_url publication /\
  p_github_path publication' = p_github_path publication /\
  p_image_files publication' = p_image_files publication.
Proof.
  unfold with_categories.
  destruct (p_categories publication); [| | destruct (get_categories publication)];
    cbn; repeat split; reflexivity.
Qed.

Lemma required_fields_ext {L : PyLib} (p p' : Publication) (member : Member)
  (directory_name : string) (c : yaml) :
  p_title p' = p_title p -> p_author p' = p_author p ->
  p_source_url p' = p_source_url p -> p_github_path p' = p_github_path p ->
  required_fields p' member directory_name c
  = required_fields p member directory_name c.
Proof. unfold required_fields. now intros -> -> -> ->. Qed.

(** Under its [categories] key the required fields hold the categories
    object, and nothing else of them depends on it. *)
Lemma required_fields_over {L : PyLib} (p : Publication) (member : Member)
  (directory_name : string) (c c' : yaml) (rest : gmap string yaml) :
  <["categories" := c']> (required_fields p member directory_name c ∪ rest)
  = <["categories" := c']> (required_fields p member directory_name c' ∪ rest).
Proof.
  apply map_eq. intros k.
  destruct (decide (k = "categories")) as [-> | Hk].
  - now rewrite !lookup_insert_eq.
  - rewrite !lookup_insert_ne by congruence. rewrite !lookup_union.
    f_equal. unfold required_fields.
    repeat (rewrite !(lookup_insert _ _ k); case_decide; [reflexivity |]).
    rewrite !lookup_singleton_ne by congruence. reflexivity.
Qed.

(** Rendering the publication that a rendering left behind gives the same
    metadata block and leaves the publication as it is. *)
Lemma frontmatter_again {L : PyLib} (publication : Publication) (member : Member)
  (directory_name : string) (fm : gmap string yaml) (publication' : Publication) :
  local_post_frontmatter publication member directory_name = Ok (fm, publication') ->
  local_post_frontmatter publication' member directory_name = Ok (fm, publication').
Proof.
  intros H. pose proof H as H0.
  apply frontmatter_inv in H as (c1 & c2 & H1 & H2 & -> & ->).
  assert (HM : Py.contains c2 (YStr MARKER) = Ok true).
  { eapply merge_keeps; [| exact H2]. eapply ensure_contains; exact H1. }
  destruct (p_categories publication) eqn:Hslot.
  - (* the key is not set: the publication is not touched *)
    unfold with_categories in *. rewrite Hslot in *. exact H0.
  - (* an object of its own *)
    set (publication' := with_categories publication c2).
    assert (Hslot' : p_categories publication' = CatOwn c2)
      by (unfold publication', with_categories; now rewrite Hslot).
    assert (Hofm : p_original_frontmatter publication'
                   = p_original_frontmatter publication)
      by (unfold publication', with_categories; now rewrite Hslot).
    destruct (with_categories_fields publication c2)
      as (Ht & Ha & _ & _ & Hu & Hg & _). fold publication' in Ht, Ha, Hu, Hg.
    rewrite (frontmatter_intro publication' member directory_name c2 c2).
    + rewrite Hofm.
      rewrite (required_fields_ext publication publication' member
                 directory_name c2 Ht Ha Hu Hg).
      rewrite <- (required_fields_over publication member directory_name c1 c2).
      f_equal. f_equal.
      unfold with_categories. rewrite Hslot'.
      unfold publication', with_categories. rewrite Hslot. reflexivity.
    + unfold get_categories. rewrite Hslot'. cbn [default from_option id].
      now apply contains_ensure.
    + rewrite Hslot', Hofm.
      eapply (merge_own_again (CatOwn v)); [discriminate | exact H2 | discriminate].
  - (* the object shared with the original metadata block *)
    apply merge_shared_id in H2 as H3. subst c2.
    destruct (get_categories publication) as [v|] eqn:Hget.
    + set (publication' := with_categories publication c1).
      set (ofm := default ∅ (p_original_frontmatter publication)) in *.
      assert (Hslot' : p_categories publication' = CatShared)
        by (unfold publication', with_categories; now rewrite Hslot, Hget).
      assert (Hofm : p_original_frontmatter publication'
                     = Some (<["categories" := c1]> ofm))
        by (unfold publication', with_categories; now rewrite Hslot, Hget).
      assert (Hget' : get_categories publication' = Some c1).
      { unfold get_categories. rewrite Hslot', Hofm. cbn [default from_option id].
        apply lookup_insert_eq. }
      destruct (with_categories_fields publication c1)
        as (Ht & Ha & _ & _ & Hu & Hg & _). fold publication' in Ht, Ha, Hu, Hg.
      rewrite (frontmatter_intro publication' member directory_name c1 c1).
      * rewrite Hofm. cbn [default from_option id]. rewrite delete_insert_eq.
        rewrite (required_fields_ext publication publication' member
                   directory_name c1 Ht Ha Hu Hg).
        f_equal. f_equal.
        unfold with_categories at 1. rewrite Hslot', Hget'.
        unfold publication', with_categories. rewrite Hslot, Hget.
        cbn. fold ofm. now rewrite insert_insert_eq.
      * rewrite Hget'. cbn [default from_option id]. now apply contains_ensure.
      * rewrite Hslot', Hofm. cbn [default from_option id].
        unfold merge_categories in *. rewrite lookup_insert_eq.
        unfold get_categories in Hget. rewrite Hslot in Hget. fold ofm in Hget.
        rewrite Hget in H2. exact H2.
    + unfold with_categories in *. rewrite Hslot, Hget in *. exact H0.
Qed.



(** ** Rendering as a function of its inputs *)

(** C9.  Rendering depends on the publication, the member and the
    configuration only: for a publication that carries its remote
    directory name, as every fetched publication does, another reading of
    the clock, another session and another dry-run flag give the same
    primary path, text and list of image downloads.  A second invocation
    on the publication object that the first one left behind (its
    categories list was appended to) gives that result again. *)
Theorem rendering_deterministic {L : PyLib} (self self' : MemberPostSync)
  (now now' : string) (publication publication' : Publication) (member : Member)
  (rendered : Path * string * list (Path * string)) :
  config self' = config self ->
  is_Some (p_directory_name publication) ->
  render_local_post self now publication member = Ok (rendered, publication') ->
  render_local_post self' now' publication member = Ok (rendered, publication') /\
  render_local_post self' now' publication' member = Ok (rendered, publication').
Proof.
  intros Hcfg [d Hd] Hr.
  unfold render_local_post in *. rewrite Hcfg, Hd in *.
  cbn [default from_option id] in *.
  destruct (local_post_frontmatter publication member d) as [[fm p1]|] eqn:Hf;
    cbn [rbind] in Hr; [| discriminate].
  cbn [fst snd] in Hr. injection Hr as <- <-.
  split; [reflexivity |].
  pose proof (frontmatter_again _ _ _ _ _ Hf) as Hf'.
  apply frontmatter_inv in Hf as (c1 & c2 & _ & _ & _ & ->).
  destruct (with_categories_fields publication c2)
    as (_ & _ & -> & -> & _ & _ & ->).
  rewrite Hd. cbn [default from_option id]. rewrite Hf'. reflexivity.
Qed.

Lemma rendering_deterministic_witness :
  exists rendered publication',
    render_local_post (L := Sample.lib) Sample.self "20260101000000"
      publication' Sample.alice = Ok (rendered, publication') /\
    fst (fst rendered) = ["publications"; "alice-2025_paper"; "index.qmd"].
Proof.
  destruct (render_local_post (L := Sample.lib) Sample.self "20251104120000"
              Sample.paper Sample.alice) as [[rendered publication']|] eqn:Hr;
    [| vm_compute in Hr; discriminate].
  exists rendered, publication'.
  split.
  - apply (rendering_deterministic (L := Sample.lib) Sample.self Sample.self
             "20251104120000" "20260101000000" Sample.paper publication'
             Sample.alice rendered eq_refl (ex_intro _ _ eq_refl) Hr).
  - vm_compute in Hr. injection Hr as <- _. reflexivity.
Defined.

(** ** Running computations *)

Lemma bind_ok {A B : Type} (m : M A) (k : A -> M B) (w w' : World) (a : A) :
  m w = (Ok a, w') -> bind m k w = k a w'.
Proof. unfold bind. now intros ->. Qed.

Lemma bind_raise {A B : Type} (m : M A) (k : A -> M B) (w w' : World) (e : Exn) :
  m w = (Raise e, w') -> bind m k w = (Raise e, w').
Proof. unfold bind. now intros ->. Qed.

Lemma try_ok {A : Type} (m : M A) (h : Exn -> M A) (w w' : World) (a : A) :
  m w = (Ok a, w') -> try_except m h w = (Ok a, w').
Proof. unfold try_except. now intros ->. Qed.

Lemma try_raise {A : Type} (m : M A) (h : Exn -> M A) (w w' : World) (e : Exn) :
  m w = (Raise e, w') -> try_except m h w = h e w'.
Proof. unfold try_except. now intros ->. Qed.

Lemma add_log_nil (w : World) : add_log w [] = w.
Proof. destruct w. unfold add_log. cbn. now rewrite app_nil_r. Qed.

Lemma add_log_app (w : World) (a b : list LogRecord) :
  add_log (add_log w a) b = add_log w (a ++ b).
Proof. unfold add_log. cbn. now rewrite app_assoc. Qed.

Lemma logger_run (lvl : Level) (template : string) (args : list LogArg)
  (w : World) :
  logger lvl template args w
  = (Ok tt, add_log w [{| lr_level := lvl; lr_template := template;
                          lr_args := args |}]).
Proof. reflexivity. Qed.

(** ** Computations that keep a property of the world *)

Section Keeps.
Context (I : World -> Prop).

Lemma keeps_ret {A : Type} (a : A) : keeps I (ret a).
Proof. intros w H. exact H. Qed.

Lemma keeps_raise {A : Type} (e : Exn) : keeps I (raise (A := A) e).
Proof. intros w H. exact H. Qed.

Lemma keeps_lift {A : Type} (r : Result A) : keeps I (lift r).
Proof. intros w H. exact H. Qed.

Lemma keeps_get_fs : keeps I get_fs.
Proof. intros w H. exact H. Qed.

Lemma keeps_get_now : keeps I get_now.
Proof. intros w H. exact H. Qed.

Lemma keeps_get_counts : keeps I get_counts.
Proof. intros w H. exact H. Qed.

Lemma keeps_bind {A B : Type} (m : M A) (k : A -> M B) :
  keeps I m -> (forall a, keeps I (k a)) -> keeps I (bind m k).
Proof.
  intros Hm Hk w H. unfold bind. specialize (Hm w H).
  destruct (m w) as [[a | e] w']; cbn [snd] in *; [now apply Hk | exact Hm].
Qed.

Lemma keeps_try_except {A : Type} (m : M A) (h : Exn -> M A) :
  keeps I m -> (forall e, keeps I (h e)) -> keeps I (try_except m h).
Proof.
  intros Hm Hh w H. unfold try_except. specialize (Hm w H).
  destruct (m w) as [[a | e] w']; cbn [snd] in *; [exact Hm | now apply Hh].
Qed.

Lemma keeps_for_each {B : Type} (xs : list B) (body : B -> M unit) :
  (forall x, keeps I (body x)) -> keeps I (for_each xs body).
Proof.
  intros Hb. induction xs as [|x xs IH]; cbn [for_each].
  - apply keeps_ret.
  - apply keeps_bind; [apply Hb | intros _; exact IH].
Qed.

Lemma keeps_for_acc {A B : Type} (xs : list B) (body : B -> A -> M A) :
  (forall x acc, keeps I (body x acc)) ->
  forall acc, keeps I (for_acc xs body acc).
Proof.
  intros Hb. induction xs as [|x xs IH]; intros acc; cbn [for_acc].
  - apply keeps_ret.
  - apply keeps_bind; [apply Hb | intros acc'; apply IH].
Qed.
End Keeps.

(** Takes a computation apart; a step that writes to a part of the world
    the property does not read keeps it by computation. *)
Ltac keeps_step :=
  first
    [ apply keeps_ret | apply keeps_raise | apply keeps_lift
    | apply keeps_get_fs | apply keeps_get_now | apply keeps_get_counts
    | match goal with
      | |- keeps _ (logger _ _ _) => intros ? ?; assumption
      | |- keeps _ (record_request _) => intros ? ?; assumption
      | |- keeps _ (put_counts _) => intros ? ?; assumption
      | |- keeps _ (put_fs _) => intros ? ?; assumption
      end
    | apply keeps_bind; [| intros ?]
    | apply keeps_try_except; [| intros ?]
    | apply keeps_for_each; intros ?
    | apply keeps_for_acc; intros ? ?
    | match goal with
      | |- keeps _ (match ?x with _ => _ end) => destruct x
      | |- keeps _ (let _ := _ in _) => cbv zeta
      end ].
Ltac keeps_auto := repeat keeps_step.

(** ** Computations that keep the file system *)

Section FsInv.
Context (P : gmap Path Node -> Prop).

Lemma fs_inv_ret {A : Type} (a : A) : fs_inv P (ret a).
Proof. apply keeps_ret. Qed.

Lemma fs_inv_raise {A : Type} (e : Exn) : fs_inv P (raise (A := A) e).
Proof. apply keeps_raise. Qed.

Lemma fs_inv_lift {A : Type} (r : Result A) : fs_inv P (lift r).
Proof. apply keeps_lift. Qed.

Lemma fs_inv_logger lvl template args : fs_inv P (logger lvl template args).
Proof. intros w H. exact H. Qed.

Lemma fs_inv_record_request url : fs_inv P (record_request url).
Proof. intros w H. exact H. Qed.

Lemma fs_inv_get_fs : fs_inv P get_fs.
Proof. apply keeps_get_fs. Qed.

Lemma fs_inv_get_now : fs_inv P get_now.
Proof. apply keeps_get_now. Qed.

Lemma fs_inv_get_counts : fs_inv P get_counts.
Proof. apply keeps_get_counts. Qed.

Lemma fs_inv_put_counts c : fs_inv P (put_counts c).
Proof. intros w H. exact H. Qed.

Lemma fs_inv_bind {A B : Type} (m : M A) (k : A -> M B) :
  fs_inv P m -> (forall a, fs_inv P (k a)) -> fs_inv P (bind m k).
Proof. apply keeps_bind. Qed.

Lemma fs_inv_try_except {A : Type} (m : M A) (h : Exn -> M A) :
  fs_inv P m -> (forall e, fs_inv P (h e)) -> fs_inv P (try_except m h).
Proof. apply keeps_try_except. Qed.

Lemma fs_inv_for_each {B : Type} (xs : list B) (body : B -> M unit) :
  (forall x, fs_inv P (body x)) -> fs_inv P (for_each xs body).
Proof. apply keeps_for_each. Qed.

Lemma fs_inv_for_acc {A B : Type} (xs : list B) (body : B -> A -> M A) :
  (forall x acc, fs_inv P (body x acc)) ->
  forall acc, fs_inv P (for_acc xs body acc).
Proof. apply keeps_for_acc. Qed.

Lemma fs_inv_bump f : fs_inv P (bump f).
Proof.
  apply fs_inv_bind; [apply fs_inv_get_counts | intros c; apply fs_inv_put_counts].
Qed.
End FsInv.

Create HintDb fs_inv.
#[local] Hint Resolve fs_inv_ret fs_inv_raise fs_inv_lift fs_inv_logger
  fs_inv_record_request fs_inv_get_fs fs_inv_get_now fs_inv_get_counts
  fs_inv_put_counts fs_inv_bump : fs_inv.

(** Takes a computation apart, down to steps that are known to keep the
    file system. *)
Ltac fs_inv_step :=
  first
    [ solve [auto with fs_inv]
    | apply fs_inv_bind; [| intros ?]
    | apply fs_inv_try_except; [| intros ?]
    | apply fs_inv_for_each; intros ?
    | apply fs_inv_for_acc; intros ? ?
    | match goal with
      | |- fs_inv _ (match ?x with _ => _ end) => destruct x
      | |- fs_inv _ (let _ := _ in _) => cbv zeta
      end ].
Ltac fs_inv_auto := repeat fs_inv_step.

Lemma fs_inv_safe_request P (self : MemberPostSync) (url : string) :
  fs_inv P (_safe_request self url).
Proof. unfold _safe_request. fs_inv_auto. Qed.
#[local] Hint Resolve fs_inv_safe_request : fs_inv.

Lemma fs_inv_parse {L : PyLib} P (content filename : string) (member : Member) :
  fs_inv P (_parse_qmd_content content filename member).
Proof. unfold _parse_qmd_content. fs_inv_auto. Qed.
#[local] Hint Resolve fs_inv_parse : fs_inv.

Lemma fs_inv_process_directory {L : PyLib} P self dir_name index_qmd image_files
  username repo_name publications_path member :
  fs_inv P (_process_publication_directory self dir_name index_qmd image_files
              username repo_name publications_path member).
Proof. unfold _process_publication_directory. fs_inv_auto. Qed.
#[local] Hint Resolve fs_inv_process_directory : fs_inv.

Lemma fs_inv_api_item {L : PyLib} P self username repo_name publications_path
  member item publications :
  fs_inv P (api_item self username repo_name publications_path member item
              publications).
Proof. unfold api_item. fs_inv_auto. Qed.
#[local] Hint Resolve fs_inv_api_item : fs_inv.

Lemma fs_inv_parse_posts {L : PyLib} P self api_response username repo_name
  publications_path member :
  fs_inv P (_parse_posts_from_github_api self api_response username repo_name
              publications_path member).
Proof. unfold _parse_posts_from_github_api. fs_inv_auto. Qed.
#[local] Hint Resolve fs_inv_parse_posts : fs_inv.

Lemma fs_inv_probe {L : PyLib} P self username repo_name publications_path
  dir_name exts :
  fs_inv P (probe_featured self username repo_name publications_path dir_name exts).
Proof. induction exts as [|ext exts IH]; cbn [probe_featured]; fs_inv_auto. Qed.
#[local] Hint Resolve fs_inv_probe : fs_inv.

Lemma fs_inv_raw_item {L : PyLib} P self username repo_name publications_path
  member dir_name publications :
  fs_inv P (raw_item self username repo_name publications_path member dir_name
              publications).
Proof. unfold raw_item. fs_inv_auto. Qed.
#[local] Hint Resolve fs_inv_raw_item : fs_inv.

Lemma fs_inv_raw_github {L : PyLib} P self username publications_path member :
  fs_inv P (_get_posts_via_raw_github self username publications_path member).
Proof. unfold _get_posts_via_raw_github. fs_inv_auto. Qed.
#[local] Hint Resolve fs_inv_raw_github : fs_inv.

Lemma fs_inv_member_site {L : PyLib} P self member :
  fs_inv P (_get_posts_from_member_site self member).
Proof. unfold _get_posts_from_member_site. fs_inv_auto. Qed.
#[local] Hint Resolve fs_inv_member_site : fs_inv.

Lemma fs_inv_create_local_post {L : PyLib} P self publication member :
  fs_inv P (_create_local_post self publication member).
Proof. unfold _create_local_post. fs_inv_auto. Qed.
#[local] Hint Resolve fs_inv_create_local_post : fs_inv.

Lemma fs_inv_dry_run_report P index_path content image_downloads :
  fs_inv P (dry_run_report index_path content image_downloads).
Proof. unfold dry_run_report. fs_inv_auto. Qed.
#[local] Hint Resolve fs_inv_dry_run_report : fs_inv.

(** ** Dry runs *)

Lemma for_each_logger {B : Type} (xs : list B) (line : B -> LogRecord) (w : World) :
  for_each xs (fun x => logger (lr_level (line x)) (lr_template (line x))
                               (lr_args (line x))) w
  = (Ok tt, add_log w (map line xs)).
Proof.
  revert w. induction xs as [|x xs IH]; intros w; cbn [for_each map].
  - unfold ret. now rewrite add_log_nil.
  - unfold bind at 1. rewrite logger_run, IH, add_log_app.
    now destruct (line x).
Qed.

(** What the dry-run block does: it appends its lines to the log. *)
Lemma dry_run_report_run (index_path : Path) (content : string)
  (image_downloads : list (Path * string)) (w : World) :
  dry_run_report index_path content image_downloads w
  = (Ok tt, add_log w (dry_run_lines index_path content image_downloads)).
Proof.
  unfold dry_run_report, dry_run_lines.
  unfold bind at 1. rewrite logger_run.
  unfold bind at 1. rewrite logger_run.
  unfold bind at 1.
  rewrite (for_each_logger image_downloads
             (fun d => {| lr_level := INFO;
                          lr_template := "[DRY RUN] Would download image: {img_path}";
                          lr_args := [APath (fst d)] |})).
  rewrite logger_run, !add_log_app. reflexivity.
Qed.

Lemma create_local_post_run {L : PyLib} (self : MemberPostSync)
  (publication : Publication) (member : Member) (w : World) :
  _create_local_post self publication member w
  = (match render_local_post self (w_now w) publication member with
     | Ok r => Ok (fst r)
     | Raise e => Raise e
     end, w).
Proof.
  unfold _create_local_post, bind, get_now, lift, ret.
  now destruct (render_local_post _ _ _ _).
Qed.

Lemma fs_inv_sync_publication_dry {L : PyLib} P self member publication :
  dry_run self = true -> fs_inv P (sync_publication self member publication).
Proof. intros Hdry. unfold sync_publication. rewrite Hdry. fs_inv_auto. Qed.

Lemma fs_inv_sync_member_dry {L : PyLib} P self member :
  dry_run self = true -> fs_inv P (_sync_member_posts self member).
Proof.
  intros Hdry. unfold _sync_member_posts. rewrite Hdry.
  pose proof (fs_inv_sync_publication_dry P self member) as Hp.
  fs_inv_auto; auto.
Qed.

Lemma fs_inv_sync_all_dry {L : PyLib} P self member_username :
  dry_run self = true -> fs_inv P (sync_member_posts self member_username).
Proof.
  intros Hdry. unfold sync_member_posts. rewrite Hdry. cbn [negb].
  pose proof (fs_inv_sync_member_dry P self) as Hp.
  fs_inv_auto; auto.
Qed.

(** C4, as amended.  In dry-run mode the whole run leaves the file system
    as it found it: no directory is created and no primary file or image
    is written.  For every candidate publication that renders, the run
    logs the lines of [dry_run_lines] (the directory and the primary file
    it would create or update, one line per image, and a preview of the
    text) and changes nothing else; these lines do not depend on the local
    files, so no CREATE, UPDATE or SKIP decision is taken. *)
Theorem dry_run_writes_nothing {L : PyLib} (self : MemberPostSync) :
  dry_run self = true ->
  (forall member_username w,
     w_fs (snd (sync_member_posts self member_username w)) = w_fs w) /\
  (forall member publication w index_path content image_downloads publication',
     render_local_post self (w_now w) publication member
       = Ok ((index_path, content, image_downloads), publication') ->
     sync_publication self member publication w
       = (Ok tt, add_log w (dry_run_lines index_path content image_downloads))).
Proof.
  intros Hdry. split.
  - intros member_username w.
    now apply (fs_inv_sync_all_dry (fun fs => fs = w_fs w)).
  - intros member publication w index_path content image_downloads publication' Hr.
    unfold sync_publication.
    apply try_ok. erewrite bind_ok by (rewrite create_local_post_run, Hr; reflexivity).
    cbn [fst snd]. rewrite Hdry. apply dry_run_report_run.
Qed.

Lemma dry_run_writes_nothing_witness :
  w_fs (snd (sync_member_posts (L := Sample.lib) Sample.self_dry None
               Sample.empty_world)) = ∅.
Proof.
  exact (proj1 (dry_run_writes_nothing (L := Sample.lib) Sample.self_dry eq_refl)
               None Sample.empty_world).
Defined.

(** C4 fails as it is stated.  For the publication [2025_paper] a real
    run counts a creation when the local file is missing and a skip when
    the rendered text is already in place, and logs the one or the other;
    a dry run logs the same would-create/update lines in both worlds, and
    they are not the lines of the real run. *)
Lemma dry_run_log_counterexample :
  let real w := snd (sync_publication (L := Sample.lib) Sample.self Sample.alice
                       Sample.paper w) in
  let dry w := snd (sync_publication (L := Sample.lib) Sample.self_dry Sample.alice
                      Sample.paper w) in
  w_counts (real Sample.empty_world) = count_created zero_counts /\
  w_counts (real Sample.synced_world) = count_skipped zero_counts /\
  w_log (dry Sample.empty_world) = w_log (dry Sample.synced_world) /\
  w_log (dry Sample.empty_world) <> w_log (real Sample.empty_world) /\
  w_log (dry Sample.synced_world) <> w_log (real Sample.synced_world).
Proof.
  cbv zeta. repeat split; try (vm_compute; reflexivity);
    vm_compute; intros H; discriminate H.
Qed.

(** ** The local file system *)

Lemma node_at_lookup (fs : gmap Path Node) (p : Path) (n : Node) :
  fs !! p = Some n -> FS.node_at fs p = None -> False.
Proof. unfold FS.node_at. case_bool_decide; congruence. Qed.

(** Making directories leaves what is there as it is. *)
Lemma mkdir_chain_keeps (rest : list string) :
  forall (fs : gmap Path Node) (done : Path) (fs' : gmap Path Node) (p : Path)
         (n : Node),
    FS.mkdir_chain fs done rest = Ok fs' -> fs !! p = Some n -> fs' !! p = Some n.
Proof.
  induction rest as [|part rest IH]; intros fs done fs' p n; cbn [FS.mkdir_chain].
  - now intros [= <-].
  - destruct (FS.node_at fs (done ++ [part])) as [[t|]|] eqn:Hq.
    + discriminate.
    + apply IH.
    + intros Hm Hp. eapply IH; [exact Hm |].
      rewrite lookup_insert_ne; [exact Hp |].
      intros <-. eapply node_at_lookup; eassumption.
Qed.

Lemma write_text_other (fs fs' : gmap Path Node) (q p : Path) (c : string) :
  FS.write_text fs q c = Ok fs' -> q <> p -> fs' !! p = fs !! p.
Proof.
  unfold FS.write_text. intros H Hne.
  destruct (FS.node_at fs q) as [[t|]|]; try discriminate;
    destruct (FS.node_at fs (PurePath.parent q)) as [[t'|]|]; try discriminate;
    injection H as <-; now rewrite lookup_insert_ne.
Qed.

Lemma write_text_self (fs fs' : gmap Path Node) (p : Path) (c : string) :
  FS.write_text fs p c = Ok fs' -> fs' !! p = Some (File c).
Proof.
  unfold FS.write_text. intros H.
  destruct (FS.node_at fs p) as [[t|]|]; try discriminate;
    destruct (FS.node_at fs (PurePath.parent p)) as [[t'|]|]; try discriminate;
    injection H as <-; apply lookup_insert_eq.
Qed.

Lemma fs_update_keeps (I : World -> Prop) (op : gmap Path Node -> Result (gmap Path Node)) :
  (forall w fs', op (w_fs w) = Ok fs' -> I w -> I (with_fs w fs')) ->
  keeps I (fs_update op).
Proof.
  intros Hop w Hw. unfold fs_update, bind, get_fs, lift, put_fs.
  destruct (op (w_fs w)) as [fs'|e] eqn:Ho; cbn [snd]; [now apply Hop | exact Hw].
Qed.

Lemma fs_update_ok (op : gmap Path Node -> Result (gmap Path Node)) (w : World)
  (fs' : gmap Path Node) :
  op (w_fs w) = Ok fs' -> fs_update op w = (Ok tt, with_fs w fs').
Proof. intros H. unfold fs_update, bind, get_fs, lift, put_fs. now rewrite H. Qed.

(** ** The decision of a real run *)

(** The decision block counts and logs the action the specification
    names, and touches nothing else. *)
Lemma reconcile_run (index_path : Path) (content : string) (w : World) :
  FS.node_at (w_fs w) index_path <> Some Dir ->
  let action := spec_decision (local_text (w_fs w) index_path) content in
  reconcile index_path content w
  = (Ok (match action with SKIP => false | _ => true end),
     with_counts (add_log w [decision_line action index_path])
                 (count_action action (w_counts w))).
Proof.
  intros Hdir. unfold reconcile, local_text, FS.path_exists, FS.read_text.
  unfold bind at 1. unfold get_fs at 1.
  destruct (FS.node_at (w_fs w) index_path) as [[t|]|] eqn:Hn.
  - rewrite bool_decide_eq_true_2 by eauto.
    cbn [spec_decision]. unfold bind at 1. unfold lift at 1.
    destruct (bool_decide (PyStr.strip t = PyStr.strip content)); reflexivity.
  - congruence.
  - rewrite bool_decide_eq_false_2 by (intros [? ?]; discriminate).
    reflexivity.
Qed.

(** The log only grows. *)
Lemma keeps_logger_extends (l0 : list LogRecord) lvl template args :
  keeps (fun w => exists later, w_log w = l0 ++ later) (logger lvl template args).
Proof.
  intros w [later H]. cbn. rewrite H, <- app_assoc. eauto.
Qed.

Ltac keeps_log_auto :=
  repeat first [ apply keeps_logger_extends | keeps_step ].

Lemma download_image_file_counts {L : PyLib} (c : Counts) self local_path url :
  keeps (fun w => w_counts w = c) (_download_image_file self local_path url).
Proof.
  unfold _download_image_file, _safe_request, fs_update. keeps_auto.
Qed.

Lemma download_image_file_log {L : PyLib} (l0 : list LogRecord) self local_path url :
  keeps (fun w => exists later, w_log w = l0 ++ later)
        (_download_image_file self local_path url).
Proof.
  unfold _download_image_file, _safe_request, fs_update. keeps_log_auto.
Qed.

(** A download leaves a file at another path as it is. *)
Lemma download_image_file_other {L : PyLib} (p : Path) (n : Node) self local_path url :
  local_path <> p ->
  keeps (fun w => w_fs w !! p = Some n) (_download_image_file self local_path url).
Proof.
  intros Hne. unfold _download_image_file, _safe_request.
  repeat first
    [ apply fs_update_keeps; intros w fs' Hop Hw; cbn [with_fs w_fs]
    | keeps_step ].
  - eapply mkdir_chain_keeps; eassumption.
  - now rewrite (write_text_other _ _ _ _ _ Hop Hne).
Qed.

Lemma write_local_post_counts {L : PyLib} (c : Counts) self index_path content
  image_downloads :
  keeps (fun w => w_counts w = c)
        (write_local_post self index_path content image_downloads).
Proof.
  pose proof (download_image_file_counts c self) as Hd.
  unfold write_local_post, download_images, fs_update. keeps_auto; apply Hd.
Qed.

Lemma write_local_post_log {L : PyLib} (l0 : list LogRecord) self index_path
  content image_downloads :
  keeps (fun w => exists later, w_log w = l0 ++ later)
        (write_local_post self index_path content image_downloads).
Proof.
  pose proof (download_image_file_log l0 self) as Hd.
  unfold write_local_post, download_images, fs_update. keeps_log_auto; apply Hd.
Qed.

Lemma download_images_other {L : PyLib} (p : Path) (n : Node) self
  (image_downloads : list (Path * string)) :
  Forall (fun d => fst d <> p) image_downloads ->
  keeps (fun w => w_fs w !! p = Some n) (download_images self image_downloads).
Proof.
  unfold download_images.
  induction 1 as [|d ds Hd _ IH]; cbn [for_each]; [apply keeps_ret |].
  apply keeps_bind; [| intros _; exact IH].
  apply keeps_bind; [now apply download_image_file_other |].
  intros b. keeps_auto.
Qed.


(** ** Fetching: values and requests *)

Lemma fetches_ret {A : Type} (a : A) : fetches (ret a) a [].
Proof. intros w. exists w. now rewrite app_nil_r. Qed.

Lemma fetches_logger lvl template args : fetches (logger lvl template args) tt [].
Proof. intros w. eexists. split; [apply logger_run |]. cbn. now rewrite app_nil_r. Qed.

Lemma fetches_bind {A B : Type} (m : M A) (k : A -> M B) (a : A) (b : B)
  (us vs : list string) :
  fetches m a us -> fetches (k a) b vs -> fetches (bind m k) b (us ++ vs).
Proof.
  intros Hm Hk w. destruct (Hm w) as (w1 & H1 & Hr1 & Hf1).
  destruct (Hk w1) as (w2 & H2 & Hr2 & Hf2).
  exists w2. rewrite (bind_ok _ _ _ _ _ H1), H2, Hr2, Hr1, Hf2, Hf1.
  now rewrite app_assoc.
Qed.

Lemma fetches_seq {A B : Type} (m : M A) (k : A -> M B) (a : A) (b : B)
  (vs : list string) :
  fetches m a [] -> fetches (k a) b vs -> fetches (bind m k) b vs.
Proof. intros Hm Hk. exact (fetches_bind m k a b [] vs Hm Hk). Qed.

Lemma fetches_cons {A B : Type} (m : M A) (k : A -> M B) (a : A) (b : B)
  (u : string) (vs : list string) :
  fetches m a [u] -> fetches (k a) b vs -> fetches (bind m k) b (u :: vs).
Proof. intros Hm Hk. exact (fetches_bind m k a b [u] vs Hm Hk). Qed.

Lemma fetches_try {A : Type} (m : M A) (h : Exn -> M A) (a : A) (us : list string) :
  fetches m a us -> fetches (try_except m h) a us.
Proof.
  intros Hm w. destruct (Hm w) as (w1 & H1 & Hr1 & Hf1).
  exists w1. now rewrite (try_ok _ _ _ _ _ H1).
Qed.

Lemma fetches_lift {A : Type} (a : A) : fetches (lift (Ok a)) a [].
Proof. intros w. exists w. now rewrite app_nil_r. Qed.

Lemma fetches_safe_request (self : MemberPostSync) (url : string) :
  fetches (_safe_request self url) (session self url) [url].
Proof.
  intros w. unfold _safe_request, bind, record_request.
  destruct (session self url); eexists; (split; [reflexivity |]); now cbn.
Qed.

Lemma fetches_parse {L : PyLib} (content filename : string) (member : Member) :
  fetches (_parse_qmd_content content filename member)
          (match parse_qmd content filename member with
           | Ok publication => Some publication
           | Raise _ => None
           end) [].
Proof.
  unfold _parse_qmd_content.
  destruct (parse_qmd content filename member).
  - apply fetches_ret.
  - eapply fetches_seq; [apply fetches_logger | apply fetches_ret].
Qed.

Lemma listing_of_inv {L : PyLib} (self : MemberPostSync) (url : string)
  (items : list Entry) :
  listing_of self url = Some items ->
  exists r, session self url = Some r /\ ok_200 (Some r) = true /\
            json r = Ok (JList items).
Proof.
  unfold listing_of, ok_200. destruct (session self url) as [r|]; [| discriminate].
  destruct (response_bool r && (status_code r =? 200)%Z) eqn:Hok; [| discriminate].
  destruct (json r) as [[items'|c]|] eqn:Hj; try discriminate.
  intros [= <-]. exists r. repeat split; assumption || reflexivity.
Qed.

Lemma document_of_inv {L : PyLib} (self : MemberPostSync) (url text : string) :
  document_of self url = Some text ->
  exists r c, session self url = Some r /\ ok_200 (Some r) = true /\
              json r = Ok (JObject c) /\
              b64decode_utf8 (default EmptyString c) = Ok text.
Proof.
  unfold document_of, ok_200. destruct (session self url) as [r|]; [| discriminate].
  destruct (response_bool r && (status_code r =? 200)%Z) eqn:Hok; [| discriminate].
  destruct (json r) as [[items'|c]|] eqn:Hj; try discriminate.
  destruct (b64decode_utf8 _) as [t|] eqn:Hb; [| discriminate].
  intros [= <-]. exists r, c. repeat split; assumption || reflexivity.
Qed.

(** Fetching and parsing the primary document of a listed directory. *)
Lemma process_directory_fetches {L : PyLib} self dir_name index_qmd image_files
  username repo_name publications_path member (text : string) :
  document_of self (e_url index_qmd) = Some text ->
  fetches (_process_publication_directory self dir_name index_qmd image_files
             username repo_name publications_path member)
          (match parse_qmd text "index.qmd" member with
           | Ok publication =>
               Some (with_directory publication dir_name (e_html_url index_qmd)
                       (e_path index_qmd) (map image_info_of_entry image_files))
           | Raise _ => None
           end)
          [e_url index_qmd].
Proof.
  intros Hdoc. apply document_of_inv in Hdoc as (r & c & Hs & Hok & Hj & Hb).
  unfold _process_publication_directory. apply fetches_try.
  eapply fetches_cons; [apply fetches_safe_request |].
  rewrite Hs, Hok. cbn [negb]. rewrite Hj.
  eapply fetches_seq; [apply fetches_lift |]. cbn [default from_option id].
  eapply fetches_seq; [apply fetches_lift |]. rewrite Hb.
  eapply fetches_seq; [apply fetches_lift |].
  eapply fetches_seq; [apply fetches_parse |].
  destruct (parse_qmd text "index.qmd" member); apply fetches_ret.
Qed.

(** One turn of the loop over a listing, for a directory that holds a
    primary document. *)
Lemma api_item_fetches {L : PyLib} self username repo_name publications_path
  member item publications subitems index_qmd image_files (text : string) :
  e_type item = "dir" ->
  PyStr.startswith "_" (e_name item) = false ->
  listing_of self (e_url item) = Some subitems ->
  scan_subdir subitems = (Some index_qmd, image_files) ->
  document_of self (e_url index_qmd) = Some text ->
  fetches (api_item self username repo_name publications_path member item
             publications)
          (match parse_qmd text "index.qmd" member with
           | Ok publication =>
               publications ++
               [with_directory publication (e_name item) (e_html_url index_qmd)
                  (e_path index_qmd) (map image_info_of_entry image_files)]
           | Raise _ => publications
           end)
          [e_url item; e_url index_qmd].
Proof.
  intros Hdir Hname Hlist Hscan Hdoc.
  apply listing_of_inv in Hlist as (r & Hs & Hok & Hj).
  unfold api_item. rewrite Hdir, Hname.
  rewrite bool_decide_eq_true_2 by reflexivity. cbn [negb andb].
  apply fetches_try.
  eapply fetches_seq; [apply fetches_logger |].
  eapply fetches_cons; [apply fetches_safe_request |].
  rewrite Hs, Hok, Hj.
  eapply fetches_seq; [apply fetches_lift |]. cbv beta iota. rewrite Hscan.
  cbv beta iota.
  eapply fetches_cons; [eapply process_directory_fetches; exact Hdoc |].
  destruct (parse_qmd text "index.qmd" member); apply fetches_ret.
Qed.

(** ** Failures that stay local *)

Lemma returns_try_except {A : Type} (m : M A) (h : Exn -> M A) :
  (forall e, returns (h e)) -> returns (try_except m h).
Proof.
  intros Hh w. unfold try_except.
  destruct (m w) as [[a|e] w']; [eauto | apply Hh].
Qed.

Lemma returns_logger_then {A : Type} lvl template args (a : A) :
  returns (logger lvl template args ;; ret a).
Proof. intros w. eexists _, _. reflexivity. Qed.

Lemma returns_api_item {L : PyLib} self username repo_name publications_path
  member item publications :
  returns (api_item self username repo_name publications_path member item
             publications).
Proof.
  unfold api_item.
  destruct (bool_decide _ && negb _).
  - apply returns_try_except. intros e. apply returns_logger_then.
  - intros w. eexists _, _. reflexivity.
Qed.

Lemma returns_sync_publication {L : PyLib} self member publication :
  returns (sync_publication self member publication).
Proof.
  unfold sync_publication. apply returns_try_except.
  intros e w. eexists _, _. apply logger_run.
Qed.

Lemma parse_malformed {L : PyLib} (content filename : string) (member : Member)
  (part0 part1 part2 : string) (rest : list string) (e : Exn) :
  PyStr.startswith "---" content = true ->
  PyStr.split "---" 2 content = part0 :: part1 :: part2 :: rest ->
  yaml_safe_load (PyStr.strip part1) = Raise e ->
  parse_qmd content filename member = Raise e.
Proof. intros Hs Hp Hy. unfold parse_qmd. now rewrite Hs, Hp, Hy. Qed.

(** C6.  A parse exception does not leave the parser: it returns its
    failure signal [None] (and logs the error).  A metadata block on which
    [yaml.safe_load] raises is such an exception.  In the loop over a
    listing, the directory of a document that fails to parse adds nothing
    to the publications collected so far, and the loop goes on with the
    remaining directories from there.  No turn of that loop and no turn of
    the loop over a member's publications raises. *)
Theorem malformed_document_is_dropped {L : PyLib} (self : MemberPostSync)
  (member : Member) :
  (forall content filename w,
     exists r w',
       _parse_qmd_content content filename member w = (Ok r, w') /\
       w_fs w' = w_fs w /\
       (forall e, parse_qmd content filename member = Raise e -> r = None)) /\
  (forall content filename part0 part1 part2 rest e,
     PyStr.startswith "---" content = true ->
     PyStr.split "---" 2 content = part0 :: part1 :: part2 :: rest ->
     yaml_safe_load (PyStr.strip part1) = Raise e ->
     parse_qmd content filename member = Raise e) /\
  (forall username repo_name publications_path item rest publications subitems
          index_qmd image_files text e,
     e_type item = "dir" ->
     PyStr.startswith "_" (e_name item) = false ->
     listing_of self (e_url item) = Some subitems ->
     scan_subdir subitems = (Some index_qmd, image_files) ->
     document_of self (e_url index_qmd) = Some text ->
     parse_qmd text "index.qmd" member = Raise e ->
     forall w, exists w',
       api_item self username repo_name publications_path member item
         publications w = (Ok publications, w') /\
       w_fs w' = w_fs w /\
       for_acc (item :: rest)
         (api_item self username repo_name publications_path member)
         publications w
       = for_acc rest
           (api_item self username repo_name publications_path member)
           publications w') /\
  (forall username repo_name publications_path item publications,
     returns (api_item self username repo_name publications_path member item
                publications)) /\
  (forall publication, returns (sync_publication self member publication)).
Proof.
  split; [| split; [| split; [| split]]].
  - intros content filename w.
    destruct (fetches_parse content filename member w) as (w' & Hrun & _ & Hfs).
    eexists _, w'. split; [exact Hrun |]. split; [exact Hfs |].
    now intros e ->.
  - intros. eapply parse_malformed; eassumption.
  - intros username repo_name publications_path item rest publications subitems
      index_qmd image_files text e Hdir Hname Hlist Hscan Hdoc Hparse w.
    pose proof (api_item_fetches self username repo_name publications_path member
                  item publications subitems index_qmd image_files text
                  Hdir Hname Hlist Hscan Hdoc) as Hf.
    rewrite Hparse in Hf. destruct (Hf w) as (w' & Hrun & _ & Hfs).
    exists w'. split; [exact Hrun |]. split; [exact Hfs |].
    cbn [for_acc]. now rewrite (bind_ok _ _ _ _ _ Hrun).
  - intros. apply returns_api_item.
  - intros. apply returns_sync_publication.
Qed.

Lemma malformed_document_is_dropped_witness :
  exists w',
    api_item (L := Sample.lib) Sample.online "Alice" "Alice.github.io"
      "publications" Sample.alice Sample.bad_dir [] Sample.empty_world
    = (Ok [], w').
Proof.
  destruct (malformed_document_is_dropped (L := Sample.lib) Sample.online
              Sample.alice) as (_ & _ & Hdrop & _).
  destruct (Hdrop "Alice" "Alice.github.io" "publications" Sample.bad_dir []
              [] [Sample.entry "file" "index.qmd" "api/broken/index.qmd"]
              (Sample.entry "file" "index.qmd" "api/broken/index.qmd") []
              Sample.text_malformed YAMLError
              eq_refl eq_refl eq_refl eq_refl eq_refl eq_refl Sample.empty_world)
    as (w' & Hrun & _).
  exists w'. exact Hrun.
Defined.

(** The listing of [Sample.net]: the directory with the malformed
    document is dropped, the one after it is fetched. *)
Example listing_with_malformed_document :
  exists w',
    _get_posts_from_member_site (L := Sample.lib) Sample.online Sample.alice
      Sample.empty_world
    = (Ok [with_directory
             {| p_title := Some (YStr "Paper X");
                p_author := Some (YStr "Alice A.");
                p_categories := CatShared;
                p_content := Some "Body";
                p_filename := Some "index.qmd";
                p_original_frontmatter :=
                  Some {[ "title" := YStr "Paper X";
                          "categories" := YList [YStr "paper"] ]};
                p_directory_name := None; p_source_url := None;
                p_github_path := None; p_image_files := None |}
             "2025_paper" "api/2025_paper/index.qmd?html"
             "publications/index.qmd" []], w').
Proof. eexists. vm_compute. reflexivity. Qed.

(** ** The fallback fetch *)

(** The probe for a featured image: the extensions are tried in order up
    to the first that resolves, and that one is the image. *)
Lemma probe_fetches {L : PyLib} self username repo_name publications_path
  dir_name (exts : list string) :
  let info := featured_info username repo_name publications_path dir_name in
  let resolves ext := ok_200 (session self (img_download_url (info ext))) in
  fetches (probe_featured self username repo_name publications_path dir_name exts)
          (match find resolves exts with
           | Some ext => [info ext]
           | None => []
           end)
          (map (fun ext => img_download_url (info ext)) (probed resolves exts)).
Proof.
  intros info resolves.
  induction exts as [|ext exts IH]; cbn [probe_featured find probed map].
  - apply fetches_ret.
  - fold info. eapply fetches_cons; [apply fetches_safe_request |].
    fold (resolves ext). destruct (resolves ext).
    + eapply fetches_seq; [apply fetches_logger | apply fetches_ret].
    + exact IH.
Qed.

Lemma fetches_for_acc_one {A B : Type} (x : B) (body : B -> A -> M A) (acc a : A)
  (us : list string) :
  fetches (body x acc) a us -> fetches (for_acc [x] body acc) a us.
Proof.
  intros H. cbn [for_acc]. rewrite <- (app_nil_r us).
  eapply fetches_bind; [exact H | apply fetches_ret].
Qed.

(** One turn of the fallback for a known directory. *)
Lemma raw_item_fetches {L : PyLib} self username repo_name publications_path
  member dir_name publications :
  let index_url :=
    raw_url username repo_name publications_path dir_name "index.qmd" in
  let info := featured_info username repo_name publications_path dir_name in
  let resolves ext := ok_200 (session self (img_download_url (info ext))) in
  fetches (raw_item self username repo_name publications_path member dir_name
             publications)
          (match session self index_url with
           | Some r =>
               if ok_200 (Some r) then
                 match parse_qmd (text r) "index.qmd" member with
                 | Ok publication =>
                     publications ++
                     [with_directory publication dir_name
                        ("https://github.com/" +:+ username +:+ "/" +:+ repo_name +:+
                         "/blob/main/" +:+ publications_path +:+ "/" +:+ dir_name +:+
                         "/index.qmd")
                        (publications_path +:+ "/" +:+ dir_name +:+ "/index.qmd")
                        (match find resolves image_extensions with
                         | Some ext => [info ext]
                         | None => []
                         end)]
                 | Raise _ => publications
                 end
               else publications
           | None => publications
           end)
          (index_url ::
           match session self index_url with
           | Some r =>
               if ok_200 (Some r) then
                 match parse_qmd (text r) "index.qmd" member with
                 | Ok _ =>
                     map (fun ext => img_download_url (info ext))
                         (probed resolves image_extensions)
                 | Raise _ => []
                 end
               else []
           | None => []
           end).
Proof.
  intros index_url info resolves. unfold raw_item. fold index_url.
  apply fetches_try.
  eapply fetches_seq; [apply fetches_logger |].
  eapply fetches_cons; [apply fetches_safe_request |].
  destruct (session self index_url) as [r|].
  - destruct (ok_200 (Some r)).
    + eapply fetches_seq; [apply fetches_parse |].
      destruct (parse_qmd (text r) "index.qmd" member) as [publication|e].
      * rewrite <- (app_nil_r (map _ _)).
        eapply fetches_bind; [apply probe_fetches |].
        eapply fetches_seq; [apply fetches_logger | apply fetches_ret].
      * apply fetches_ret.
    + eapply fetches_seq; [apply fetches_logger | apply fetches_ret].
  - cbn [ok_200].
    eapply fetches_seq; [apply fetches_logger | apply fetches_ret].
Qed.

(** When the listing request fails outright or is denied, the fallback
    runs: the member's publications are those of the fallback. *)
Lemma member_site_falls_back {L : PyLib} self member
  (posts : list Publication) (us : list string) :
  let username := m_username member in
  let publications_path :=
    PyStr.strip_slash (default "/publications" (m_publications_path member)) in
  let api_url :=
    "https://api.github.com/repos/" +:+ username +:+ "/" +:+
    (username +:+ ".github.io") +:+ "/contents/" +:+ publications_path in
  session self api_url = None \/
  (exists r, session self api_url = Some r /\ status_code r = 403) ->
  fetches (_get_posts_via_raw_github self username publications_path member)
          posts us ->
  fetches (_get_posts_from_member_site self member) posts (api_url :: us).
Proof.
  intros username publications_path api_url Hdown Hfall.
  unfold _get_posts_from_member_site.
  fold username. fold publications_path. cbv zeta. fold api_url.
  eapply fetches_seq; [apply fetches_logger |].
  rewrite <- (app_nil_r (api_url :: us)).
  eapply fetches_bind;
    [| eapply fetches_seq; [apply fetches_logger | apply fetches_ret]].
  apply fetches_try.
  eapply fetches_seq; [apply fetches_logger |].
  eapply fetches_cons; [apply fetches_safe_request |].
  assert (Hno : fetches
                  (logger WARNING "Could not fetch posts for {username}"
                          [AStr username] ;;
                   logger INFO "Trying raw GitHub content fallback" [] ;;
                   _get_posts_via_raw_github self username publications_path member)
                  posts us).
  { eapply fetches_seq; [apply fetches_logger |].
    eapply fetches_seq; [apply fetches_logger | exact Hfall]. }
  destruct Hdown as [-> | (r & -> & Hr)]; [exact Hno |].
  destruct (response_bool r); [| exact Hno].
  rewrite Hr. cbn [Z.eqb Pos.eqb].
  eapply fetches_seq; [apply fetches_logger |].
  eapply fetches_seq; [apply fetches_logger |].
  eapply fetches_seq; [apply fetches_logger | exact Hfall].
Qed.





(** ** Active members *)

Lemma filter_filter_comm {A : Type} (f g : A -> bool) (l : list A) :
  List.filter f (List.filter g l) = List.filter g (List.filter f l).
Proof.
  induction l as [|x l IH]; [reflexivity |]. cbn [List.filter].
  destruct (f x) eqn:Hf, (g x) eqn:Hg; cbn [List.filter];
    rewrite ?Hf, ?Hg, IH; reflexivity.
Qed.

Lemma filter_idem {A : Type} (f : A -> bool) (l : list A) :
  List.filter f (List.filter f l) = List.filter f l.
Proof.
  induction l as [|x l IH]; [reflexivity |]. cbn [List.filter].
  destruct (f x) eqn:Hf; cbn [List.filter]; rewrite ?Hf, IH; reflexivity.
Qed.

Lemma selected_without_inactive (self : MemberPostSync)
  (member_username : option string) :
  selected_members (without_inactive self) member_username
  = active_members self member_username.
Proof.
  unfold active_members, selected_members. cbn [without_inactive config members].
  cbn [default from_option id].
  destruct (selection member_username); [apply filter_filter_comm | reflexivity].
Qed.

Lemma active_without_inactive (self : MemberPostSync)
  (member_username : option string) :
  active_members (without_inactive self) member_username
  = active_members self member_username.
Proof.
  unfold active_members at 1. rewrite selected_without_inactive.
  unfold active_members. apply filter_idem.
Qed.

(** Making directories makes no file. *)
Lemma mkdir_chain_files (rest : list string) :
  forall (fs : gmap Path Node) (done : Path) (fs' : gmap Path Node) (p : Path)
         (t : string),
    FS.mkdir_chain fs done rest = Ok fs' ->
    fs' !! p = Some (File t) -> fs !! p = Some (File t).
Proof.
  induction rest as [|part rest IH]; intros fs done fs' p t; cbn [FS.mkdir_chain].
  - now intros [= <-].
  - destruct (FS.node_at fs (done ++ [part])) as [[t'|]|] eqn:Hq.
    + discriminate.
    + apply IH.
    + intros Hm Hp. specialize (IH _ _ _ _ _ Hm Hp).
      destruct (decide (done ++ [part] = p)) as [<- | Hne].
      * rewrite lookup_insert_eq in IH. discriminate.
      * now rewrite lookup_insert_ne in IH.
Qed.

(** C10.  The members a run syncs are those of the configuration that
    the selection keeps and whose [active] flag is true; a record without
    the flag counts as active, and a member with [active: false] is not
    among them, whatever the selection.  Members that are not active have
    no influence on a run that syncs someone: the run is the one of the
    configuration without them.  When no selected member is active, the
    run makes no request and writes no file. *)
Theorem only_active_members_are_synced {L : PyLib} (self : MemberPostSync)
  (member_username : option string) :
  (forall m,
     In m (active_members self member_username) <->
     In m (default [] (members (config self))) /\
     (forall u, selection member_username = Some u -> m_username m = u) /\
     is_active m = true) /\
  (forall m, m_active m = None -> is_active m = true) /\
  (forall m, m_active m = Some (YBool false) ->
     is_active m = false /\ ~ In m (active_members self member_username)) /\
  (forall w,
     selection member_username = None \/
     active_members self member_username <> [] ->
     sync_member_posts self member_username w
     = sync_member_posts (without_inactive self) member_username w) /\
  (forall w,
     active_members self member_username = [] ->
     let w' := snd (sync_member_posts self member_username w) in
     w_requests w' = w_requests w /\
     (forall p t, w_fs w' !! p = Some (File t) -> w_fs w !! p = Some (File t))).
Proof.
  assert (Hchar : forall m,
     In m (active_members self member_username) <->
     In m (default [] (members (config self))) /\
     (forall u, selection member_username = Some u -> m_username m = u) /\
     is_active m = true).
  { intros m. unfold active_members, selected_members.
    rewrite filter_In.
    destruct (selection member_username) as [u|].
    - rewrite filter_In, bool_decide_eq_true. split.
      + intros [[Hin Hu] Ha]. repeat split; try assumption.
        intros u' [= <-]. exact Hu.
      + intros (Hin & Hu & Ha). repeat split; try assumption. now apply Hu.
    - split.
      + intros [Hin Ha]. repeat split; try assumption. discriminate.
      + intros (Hin & _ & Ha). now split. }
  split; [exact Hchar |]. split; [| split; [| split]].
  - intros m Hm. unfold is_active. now rewrite Hm.
  - intros m Hm.
    assert (Hf : is_active m = false) by (unfold is_active; now rewrite Hm).
    split; [exact Hf |]. intros Hin. apply Hchar in Hin as (_ & _ & Ha). congruence.
  - intros w Hsome. unfold sync_member_posts.
    rewrite selected_without_inactive, active_without_inactive.
    destruct (selection member_username) as [u|] eqn:Hsel.
    + destruct Hsome as [| Hne]; [discriminate |].
      destruct (selected_members self member_username) as [|m ms] eqn:Hs.
      * exfalso. apply Hne. unfold active_members. now rewrite Hs.
      * destruct (active_members self member_username) as [|a acts] eqn:Ha;
          [congruence |]. reflexivity.
    + destruct (selected_members self member_username);
        destruct (active_members self member_username); reflexivity.
  - intros w Hnone w'.
    assert (Hkeep : keeps
              (fun w1 => w_requests w1 = w_requests w /\
                         forall p t, w_fs w1 !! p = Some (File t) ->
                                     w_fs w !! p = Some (File t))
              (sync_member_posts self member_username)).
    { unfold sync_member_posts. rewrite Hnone. cbn [for_each].
      repeat first
        [ apply fs_update_keeps; intros w1 fs' Hop [Hr Hf]; cbn [with_fs w_fs w_requests];
          (split; [exact Hr |]); intros p t Hp; apply Hf;
          eapply mkdir_chain_files; eassumption
        | keeps_step ]. }
    apply (Hkeep w). split; [reflexivity | auto].
Qed.

Lemma only_active_members_are_synced_witness :
  active_members Sample.team None = [Sample.alice] /\
  w_requests (snd (sync_member_posts (L := Sample.lib) Sample.team (Some "Bob")
                     Sample.empty_world)) = [].
Proof.
  split; [reflexivity |].
  destruct (only_active_members_are_synced (L := Sample.lib) Sample.team
              (Some "Bob")) as (_ & _ & _ & _ & Hquiet).
  exact (proj1 (Hquiet Sample.empty_world eq_refl)).
Defined.


(* ================================================================== *)
(** * Further properties of the code *)
(* ================================================================== *)

(** ** More on running computations *)

Lemma returns_ret {A : Type} (a : A) : returns (ret a).
Proof. intros w. eexists _, _. reflexivity. Qed.

Lemma returns_logger lvl template args : returns (logger lvl template args).
Proof. intros w. eexists _, _. apply logger_run. Qed.

Lemma returns_bind {A B : Type} (m : M A) (k : A -> M B) :
  returns m -> (forall a, returns (k a)) -> returns (bind m k).
Proof.
  intros Hm Hk w. destruct (Hm w) as (a & w1 & H1).
  destruct (Hk a w1) as (b & w2 & H2).
  exists b, w2. now rewrite (bind_ok _ _ _ _ _ H1).
Qed.

Lemma returns_for_each {B : Type} (xs : list B) (body : B -> M unit) :
  (forall x, returns (body x)) -> returns (for_each xs body).
Proof.
  intros Hb. induction xs as [|x xs IH]; cbn [for_each].
  - apply returns_ret.
  - apply returns_bind; [apply Hb | intros _; exact IH].
Qed.

Lemma yields_ret {A : Type} (Q : A -> Prop) (a : A) : Q a -> yields Q (ret a).
Proof. intros H w a' w' [= <- _]. exact H. Qed.

Lemma yields_raise {A : Type} (Q : A -> Prop) (e : Exn) : yields Q (raise e).
Proof. intros w a w' H. discriminate H. Qed.

Lemma yields_bind {A B : Type} (Q : B -> Prop) (m : M A) (k : A -> M B) :
  (forall a, yields Q (k a)) -> yields Q (bind m k).
Proof.
  intros Hk w b w'. unfold bind.
  destruct (m w) as [[a|e] w1]; [apply Hk | discriminate].
Qed.

Lemma yields_bind_with {A B : Type} (P : A -> Prop) (Q : B -> Prop) (m : M A)
  (k : A -> M B) :
  yields P m -> (forall a, P a -> yields Q (k a)) -> yields Q (bind m k).
Proof.
  intros Hm Hk w b w'. unfold bind.
  destruct (m w) as [[a|e] w1] eqn:H1; [| discriminate].
  apply Hk. eapply Hm. exact H1.
Qed.

Lemma yields_try_except {A : Type} (Q : A -> Prop) (m : M A) (h : Exn -> M A) :
  yields Q m -> (forall e, yields Q (h e)) -> yields Q (try_except m h).
Proof.
  intros Hm Hh w a w'. unfold try_except.
  destruct (m w) as [[a1|e] w1] eqn:H1.
  - intros [= <- <-]. eapply Hm. exact H1.
  - apply Hh.
Qed.

Lemma yields_for_acc {A B : Type} (Q : A -> Prop) (xs : list B)
  (body : B -> A -> M A) :
  (forall x acc, Q acc -> yields Q (body x acc)) ->
  forall acc, Q acc -> yields Q (for_acc xs body acc).
Proof.
  intros Hb. induction xs as [|x xs IH]; intros acc Hacc; cbn [for_acc].
  - now apply yields_ret.
  - eapply yields_bind_with; [now apply Hb | intros acc' Hacc'; now apply IH].
Qed.

Lemma fails_raise {A : Type} (e : Exn) : fails (raise (A := A) e) e [].
Proof. intros w. exists w. now rewrite app_nil_r. Qed.

Lemma fails_lift {A : Type} (e : Exn) : fails (lift (A := A) (Raise e)) e [].
Proof. intros w. exists w. now rewrite app_nil_r. Qed.

Lemma fails_bind {A B : Type} (m : M A) (k : A -> M B) (a : A) (e : Exn)
  (us vs : list string) :
  fetches m a us -> fails (k a) e vs -> fails (bind m k) e (us ++ vs).
Proof.
  intros Hm Hk w. destruct (Hm w) as (w1 & H1 & Hr1 & Hf1).
  destruct (Hk w1) as (w2 & H2 & Hr2 & Hf2).
  exists w2. rewrite (bind_ok _ _ _ _ _ H1), H2, Hr2, Hr1, Hf2, Hf1.
  now rewrite app_assoc.
Qed.

Lemma fails_first {A B : Type} (m : M A) (k : A -> M B) (e : Exn)
  (us : list string) :
  fails m e us -> fails (bind m k) e us.
Proof.
  intros Hm w. destruct (Hm w) as (w1 & H1 & Hr1 & Hf1).
  exists w1. now rewrite (bind_raise _ _ _ _ _ H1).
Qed.

Lemma fetches_try_raise {A : Type} (m : M A) (h : Exn -> M A) (e : Exn) (a : A)
  (us vs : list string) :
  fails m e us -> fetches (h e) a vs -> fetches (try_except m h) a (us ++ vs).
Proof.
  intros Hm Hh w. destruct (Hm w) as (w1 & H1 & Hr1 & Hf1).
  destruct (Hh w1) as (w2 & H2 & Hr2 & Hf2).
  exists w2. rewrite (try_raise _ _ _ _ _ H1), H2, Hr2, Hr1, Hf2, Hf1.
  now rewrite app_assoc.
Qed.

Lemma fails_seq {A B : Type} (m : M A) (k : A -> M B) (a : A) (e : Exn)
  (vs : list string) :
  fetches m a [] -> fails (k a) e vs -> fails (bind m k) e vs.
Proof. intros Hm Hk. exact (fails_bind m k a e [] vs Hm Hk). Qed.

Lemma fails_cons {A B : Type} (m : M A) (k : A -> M B) (a : A) (e : Exn)
  (u : string) (vs : list string) :
  fetches m a [u] -> fails (k a) e vs -> fails (bind m k) e (u :: vs).
Proof. intros Hm Hk. exact (fails_bind m k a e [u] vs Hm Hk). Qed.

Lemma fetches_try_caught {A : Type} (m : M A) (h : Exn -> M A) (e : Exn) (a : A)
  (us : list string) :
  fails m e us -> fetches (h e) a [] -> fetches (try_except m h) a us.
Proof.
  intros Hm Hh. rewrite <- (app_nil_r us). now apply fetches_try_raise with e.
Qed.

(** ** The fetchers change the log and the requests only *)

Ltac frame_auto := unfold frame; keeps_auto.

Lemma frame_probe {L : PyLib} w0 self username repo_name publications_path
  dir_name exts :
  keeps (frame w0)
        (probe_featured self username repo_name publications_path dir_name exts).
Proof.
  induction exts as [|ext exts IH]; cbn [probe_featured].
  - frame_auto.
  - cbv zeta. apply keeps_bind; [unfold _safe_request; frame_auto |].
    intros response. destruct (ok_200 response); [frame_auto | exact IH].
Qed.

Lemma frame_raw_github {L : PyLib} w0 self username publications_path member :
  keeps (frame w0) (_get_posts_via_raw_github self username publications_path member).
Proof.
  unfold _get_posts_via_raw_github. cbv zeta.
  apply keeps_try_except; [| intros e; frame_auto].
  apply keeps_for_acc. intros dir_name publications. unfold raw_item. cbv zeta.
  apply keeps_try_except; [| intros e; frame_auto].
  apply keeps_bind; [frame_auto | intros _].
  apply keeps_bind; [unfold _safe_request; frame_auto | intros response].
  destruct (ok_200 response); [| frame_auto].
  apply keeps_bind; [unfold _parse_qmd_content; frame_auto | intros [p|]].
  - apply keeps_bind; [apply frame_probe | intros images; frame_auto].
  - frame_auto.
Qed.

Lemma frame_parse_posts {L : PyLib} w0 self api_response username repo_name
  publications_path member :
  keeps (frame w0) (_parse_posts_from_github_api self api_response username
                      repo_name publications_path member).
Proof.
  unfold _parse_posts_from_github_api, api_item, _process_publication_directory,
    _parse_qmd_content, _safe_request.
  frame_auto.
Qed.

Lemma frame_member_site {L : PyLib} w0 self member :
  keeps (frame w0) (_get_posts_from_member_site self member).
Proof.
  unfold _get_posts_from_member_site. cbv zeta.
  apply keeps_bind; [frame_auto | intros _].
  apply keeps_bind; [| intros posts; frame_auto].
  apply keeps_try_except; [| intros e; frame_auto].
  apply keeps_bind; [frame_auto | intros _].
  apply keeps_bind; [unfold _safe_request; frame_auto | intros [r|]].
  - destruct (response_bool r).
    + destruct (Z.eqb (status_code r) 200).
      * apply keeps_bind; [frame_auto | intros api_response].
        apply frame_parse_posts.
      * apply keeps_bind; [frame_auto | intros _].
        destruct (Z.eqb (status_code r) 404); [frame_auto |].
        destruct (Z.eqb (status_code r) 403); [| frame_auto].
        apply keeps_bind; [frame_auto | intros _].
        apply keeps_bind; [frame_auto | intros _]. apply frame_raw_github.
    + apply keeps_bind; [frame_auto | intros _].
      apply keeps_bind; [frame_auto | intros _]. apply frame_raw_github.
  - apply keeps_bind; [frame_auto | intros _].
    apply keeps_bind; [frame_auto | intros _]. apply frame_raw_github.
Qed.

Lemma returns_member_site {L : PyLib} self member :
  returns (_get_posts_from_member_site self member).
Proof.
  unfold _get_posts_from_member_site. cbv zeta.
  apply returns_bind; [apply returns_logger | intros _].
  apply returns_bind.
  - apply returns_try_except. intros e. apply returns_logger_then.
  - intros posts. apply returns_logger_then.
Qed.

(** X1.  Fetching a member's publications never raises: whatever the
    network answers, [_get_posts_from_member_site] returns a list.  It
    changes nothing but the log and the record of the requests made: the
    local files, the clock reading and the counters are as before. *)
Theorem fetching_returns_and_writes_nothing {L : PyLib} (self : MemberPostSync)
  (member : Member) (w : World) :
  exists posts w',
    _get_posts_from_member_site self member w = (Ok posts, w') /\
    w_fs w' = w_fs w /\ w_now w' = w_now w /\ w_counts w' = w_counts w.
Proof.
  destruct (returns_member_site self member w) as (posts & w' & Hrun).
  exists posts, w'. split; [exact Hrun |].
  pose proof (frame_member_site w self member w) as H.
  rewrite Hrun in H. apply H. repeat split.
Qed.

(** ** What every fetched publication carries *)

Lemma located_with_directory (publication_data : Publication)
  (directory_name source_url github_path : string) (image_files : list ImageInfo) :
  located (with_directory publication_data directory_name source_url github_path
             image_files).
Proof. repeat split; cbn; eexists; reflexivity. Qed.

Lemma yields_process_directory {L : PyLib} self dir_name index_qmd image_files
  username repo_name publications_path member :
  yields (fun r => forall publication, r = Some publication ->
                   located publication /\
                   p_directory_name publication = Some dir_name)
         (_process_publication_directory self dir_name index_qmd image_files
            username repo_name publications_path member).
Proof.
  unfold _process_publication_directory.
  apply yields_try_except;
    [| intros e; apply yields_bind; intros _; apply yields_ret; discriminate].
  apply yields_bind. intros content_response.
  destruct (negb (ok_200 content_response)).
  - apply yields_bind; intros _. apply yields_ret. discriminate.
  - do 4 (apply yields_bind; intros ?).
    destruct a2 as [publication_data|]; apply yields_ret; [| discriminate].
    intros publication [= <-].
    split; [apply located_with_directory | reflexivity].
Qed.

Lemma yields_api_item {L : PyLib} self username repo_name publications_path
  member item publications :
  Forall located publications ->
  yields (Forall located)
         (api_item self username repo_name publications_path member item
            publications).
Proof.
  intros Hall. unfold api_item.
  destruct (bool_decide (e_type item = "dir") &&
            negb (PyStr.startswith "_" (e_name item)));
    [| now apply yields_ret].
  apply yields_try_except;
    [| intros e; apply yields_bind; intros _; now apply yields_ret].
  apply yields_bind; intros _. apply yields_bind; intros subdir_response.
  destruct (ok_200 subdir_response).
  - apply yields_bind. intros [subdir_items|c]; [| apply yields_raise].
    destruct (scan_subdir subdir_items) as [[index_qmd|] image_files].
    + eapply yields_bind_with; [apply yields_process_directory |].
      intros [publication_data|] Hp; apply yields_ret; [| exact Hall].
      apply Forall_app. split; [exact Hall |].
      constructor; [| constructor]. now apply Hp.
    + apply yields_bind; intros _. now apply yields_ret.
  - apply yields_bind; intros _. now apply yields_ret.
Qed.

Lemma yields_raw_item {L : PyLib} self username repo_name publications_path
  member dir_name publications :
  Forall located publications ->
  yields (Forall located)
         (raw_item self username repo_name publications_path member dir_name
            publications).
Proof.
  intros Hall. unfold raw_item. cbv zeta.
  apply yields_try_except;
    [| intros e; apply yields_bind; intros _; now apply yields_ret].
  apply yields_bind; intros _. apply yields_bind; intros response.
  destruct (ok_200 response).
  - apply yields_bind. intros [publication_data|]; [| now apply yields_ret].
    apply yields_bind; intros image_files. apply yields_bind; intros _.
    apply yields_ret. apply Forall_app. split; [exact Hall |].
    constructor; [apply located_with_directory | constructor].
  - apply yields_bind; intros _. now apply yields_ret.
Qed.

Lemma yields_raw_github {L : PyLib} self username publications_path member :
  yields (Forall located)
         (_get_posts_via_raw_github self username publications_path member).
Proof.
  unfold _get_posts_via_raw_github. cbv zeta.
  apply yields_try_except;
    [| intros e; apply yields_bind; intros _; apply yields_ret; constructor].
  apply yields_for_acc; [| constructor].
  intros dir_name acc Hacc. now apply yields_raw_item.
Qed.

(** X2.  Every publication that [_get_posts_from_member_site] returns,
    through the listing or through the fallback, carries the keys
    [directory_name], [source_url], [github_path] and [image_files]: the
    defaults that [_create_local_post] has for them, the clock reading
    among them, are never used on a fetched publication. *)
Theorem fetched_publications_are_located {L : PyLib} (self : MemberPostSync)
  (member : Member) (w w' : World) (posts : list Publication) :
  _get_posts_from_member_site self member w = (Ok posts, w') ->
  Forall located posts.
Proof.
  revert w posts w'.
  change (yields (Forall located) (_get_posts_from_member_site self member)).
  unfold _get_posts_from_member_site. cbv zeta.
  apply yields_bind; intros _.
  eapply yields_bind_with with (P := Forall located);
    [| intros posts Hposts; apply yields_bind; intros _; now apply yields_ret].
  apply yields_try_except;
    [| intros e; apply yields_bind; intros _; apply yields_ret; constructor].
  apply yields_bind; intros _. apply yields_bind; intros [r|].
  - destruct (response_bool r).
    + destruct (Z.eqb (status_code r) 200).
      * apply yields_bind. intros [items|c]; unfold _parse_posts_from_github_api.
        -- apply yields_bind; intros _.
           apply yields_for_acc; [| constructor].
           intros item acc Hacc. now apply yields_api_item.
        -- apply yields_bind; intros _. apply yields_raise.
      * apply yields_bind; intros _.
        destruct (Z.eqb (status_code r) 404);
          [apply yields_bind; intros _; apply yields_ret; constructor |].
        destruct (Z.eqb (status_code r) 403).
        -- do 2 (apply yields_bind; intros _). apply yields_raw_github.
        -- apply yields_bind; intros _. apply yields_ret; constructor.
    + do 2 (apply yields_bind; intros _). apply yields_raw_github.
  - do 2 (apply yields_bind; intros _). apply yields_raw_github.
Qed.

Lemma fetched_publications_are_located_witness :
  exists posts w',
    _get_posts_from_member_site (L := Sample.lib) Sample.online Sample.alice
      Sample.empty_world = (Ok posts, w') /\
    Forall located posts /\ List.length posts = 1%nat.
Proof.
  destruct (_get_posts_from_member_site (L := Sample.lib) Sample.online
              Sample.alice Sample.empty_world) as [[posts|e] w'] eqn:Hrun;
    [| vm_compute in Hrun; discriminate].
  exists posts, w'. split; [reflexivity |].
  split; [exact (fetched_publications_are_located (L := Sample.lib) Sample.online
                   Sample.alice Sample.empty_world w' posts Hrun) |].
  vm_compute in Hrun. now injection Hrun as <- _.
Defined.

(** ** The listing loop *)

Lemma last_cons_default {A : Type} (l : list A) (a d : A) :
  List.last (a :: l) d = List.last l a.
Proof.
  revert a d. induction l as [|b l IH]; intros a d; [reflexivity |].
  change (List.last (b :: l) d = List.last (b :: l) a).
  now rewrite (IH b d), (IH b a).
Qed.

Lemma scan_fold (subdir_items : list Entry) :
  forall index_qmd image_files,
    fold_left scan_subitem subdir_items (index_qmd, image_files)
    = (List.last (map Some (List.filter is_index_file subdir_items)) index_qmd,
       image_files ++ List.filter is_image_file subdir_items).
Proof.
  induction subdir_items as [|x l IH]; intros index_qmd image_files.
  - cbn. now rewrite app_nil_r.
  - cbn [fold_left List.filter].
    assert (Hx : scan_subitem (index_qmd, image_files) x
                 = (if is_index_file x then Some x else index_qmd,
                    if is_image_file x then image_files ++ [x] else image_files)).
    { unfold scan_subitem, is_index_file, is_image_file. cbn [fst snd].
      destruct (bool_decide (e_type x = "file")),
        (bool_decide (e_name x = "index.qmd")),
        (is_featured_image (e_name x)); reflexivity. }
    rewrite Hx, IH.
    destruct (is_index_file x), (is_image_file x); cbn [map];
      rewrite ?last_cons_default, <- ?app_assoc; reflexivity.
Qed.

(** X3.  The loop over the entries of a publication directory picks the
    last file entry named [index.qmd] as the primary document, and as
    images exactly the other file entries whose lower-cased name starts
    with [featured.] and ends with an image suffix, in the order of the
    listing; a directory named [index.qmd] or [featured.png] is not
    taken. *)
Theorem scan_subdir_picks_index_and_images (subdir_items : list Entry) :
  scan_subdir subdir_items
  = (List.last (map Some (List.filter is_index_file subdir_items)) None,
     List.filter is_image_file subdir_items).
Proof. unfold scan_subdir. now rewrite scan_fold. Qed.

Lemma scan_without_index (subdir_items : list Entry) :
  Forall (fun subitem => is_index_file subitem = false) subdir_items ->
  fst (scan_subdir subdir_items) = None.
Proof.
  intros Hall. unfold scan_subdir. rewrite scan_fold. cbn [fst].
  replace (List.filter is_index_file subdir_items) with (@nil Entry);
    [reflexivity |].
  induction Hall as [|x l Hx _ IH]; [reflexivity |].
  cbn [List.filter]. now rewrite Hx.
Qed.

(** X4.  Entries of the listing that are not directories, and
    directories whose name starts with an underscore, are passed over:
    for a listing made of such entries no request is made and the
    collected publications are left as they are. *)
Theorem listing_passes_over_files_and_reserved {L : PyLib} (self : MemberPostSync)
  (username repo_name publications_path : string) (member : Member)
  (items : list Entry) (publications : list Publication) :
  Forall (fun item => e_type item <> "dir" \/
                      PyStr.startswith "_" (e_name item) = true) items ->
  fetches (for_acc items (api_item self username repo_name publications_path member)
             publications)
          publications [].
Proof.
  intros Hall. induction Hall as [|item items Hitem _ IH]; cbn [for_acc].
  - apply fetches_ret.
  - eapply fetches_seq; [| exact IH].
    unfold api_item.
    destruct Hitem as [Hfile | Hreserved].
    + rewrite bool_decide_eq_false_2 by exact Hfile. apply fetches_ret.
    + rewrite Hreserved, andb_false_r. apply fetches_ret.
Qed.

Lemma listing_passes_over_files_and_reserved_witness :
  fetches (for_acc [Sample.entry "file" "README.md" "api/README.md";
                    Sample.entry "dir" "_drafts" "api/_drafts"]
             (api_item (L := Sample.lib) Sample.online "Alice" "Alice.github.io"
                "publications" Sample.alice) [])
          [] [].
Proof.
  apply (listing_passes_over_files_and_reserved (L := Sample.lib)).
  constructor; [left; vm_compute; discriminate |].
  constructor; [right; reflexivity | constructor].
Defined.

(** X5.  A publication directory is passed over, after the one request
    for its listing, when that request is not answered with status 200
    or when the listing holds no file entry named [index.qmd]: the
    collected publications are left as they are and no document is
    requested. *)
Theorem directory_without_document_is_passed_over {L : PyLib}
  (self : MemberPostSync) (username repo_name publications_path : string)
  (member : Member) (item : Entry) (publications : list Publication) :
  e_type item = "dir" ->
  PyStr.startswith "_" (e_name item) = false ->
  ok_200 (session self (e_url item)) = false \/
  (exists subdir_items,
     listing_of self (e_url item) = Some subdir_items /\
     Forall (fun subitem => is_index_file subitem = false) subdir_items) ->
  fetches (api_item self username repo_name publications_path member item
             publications)
          publications [e_url item].
Proof.
  intros Hdir Hname Hcase. unfold api_item.
  rewrite Hname, bool_decide_eq_true_2 by exact Hdir. cbn [negb andb].
  apply fetches_try.
  eapply fetches_seq; [apply fetches_logger |].
  eapply fetches_cons; [apply fetches_safe_request |].
  destruct Hcase as [Hno | (subdir_items & Hlist & Hall)].
  - rewrite Hno. eapply fetches_seq; [apply fetches_logger | apply fetches_ret].
  - destruct (listing_of_inv self (e_url item) subdir_items Hlist)
      as (r & Hs & Hok & Hj).
    rewrite Hs, Hok, Hj.
    eapply fetches_seq; [apply fetches_lift |]. cbv beta iota.
    pose proof (scan_without_index subdir_items Hall) as Hscan.
    destruct (scan_subdir subdir_items) as [[index_qmd|] image_files];
      [discriminate Hscan |].
    eapply fetches_seq; [apply fetches_logger | apply fetches_ret].
Qed.

Lemma directory_without_document_is_passed_over_witness :
  fetches (api_item (L := Sample.lib) Sample.online "Alice" "Alice.github.io"
             "publications" Sample.alice
             (Sample.entry "dir" "2030_gone" "api/2030_gone") [])
          [] ["api/2030_gone"].
Proof.
  apply (directory_without_document_is_passed_over (L := Sample.lib) Sample.online
           "Alice" "Alice.github.io" "publications" Sample.alice
           (Sample.entry "dir" "2030_gone" "api/2030_gone") []);
    [reflexivity | reflexivity | left; reflexivity].
Defined.

(** ** Answers to the listing request *)

Ltac member_site_open :=
  unfold _get_posts_from_member_site; cbv zeta;
  change ("https://api.github.com/repos/" +:+ m_username ?m +:+ "/" +:+
          (m_username ?m +:+ ".github.io") +:+ "/contents/" +:+
          PyStr.strip_slash (default "/publications" (m_publications_path ?m)))
    with (api_url_of m);
  eapply fetches_seq; [apply fetches_logger |];
  match goal with
  | |- fetches _ _ ?us => rewrite <- (app_nil_r us)
  end;
  eapply fetches_bind;
    [| eapply fetches_seq; [apply fetches_logger | apply fetches_ret]].

(** X6.  When the listing request is answered with status 200 but the
    body is not a JSON list (it does not decode, or it is the object of
    a file), [_get_posts_from_member_site] returns no publication after
    that one request: the exception is caught, and the fallback is not
    tried. *)
Theorem listing_that_is_no_list {L : PyLib} (self : MemberPostSync)
  (member : Member) (r : Response) :
  session self (api_url_of member) = Some r ->
  response_bool r = true ->
  status_code r = 200 ->
  (exists e, json r = Raise e) \/ (exists c, json r = Ok (JObject c)) ->
  fetches (_get_posts_from_member_site self member) [] [api_url_of member].
Proof.
  intros Hs Hb Hst Hjson. member_site_open.
  assert (Hhandler : forall e,
             fetches (logger ERROR "Error fetching publications for {username}: {e}"
                             [AStr (m_username member); AExn e] ;;
                      ret (@nil Publication)) [] []).
  { intros e. eapply fetches_seq; [apply fetches_logger | apply fetches_ret]. }
  destruct Hjson as [[e Hj] | [c Hj]].
  - apply fetches_try_caught with e; [| apply Hhandler].
    eapply fails_seq; [apply fetches_logger |].
    eapply fails_cons; [apply fetches_safe_request |].
    rewrite Hs. cbv beta iota. rewrite Hb, Hst. cbn [Z.eqb Pos.eqb].
    apply fails_first. rewrite Hj. apply fails_lift.
  - apply fetches_try_caught with TypeError; [| apply Hhandler].
    eapply fails_seq; [apply fetches_logger |].
    eapply fails_cons; [apply fetches_safe_request |].
    rewrite Hs. cbv beta iota. rewrite Hb, Hst. cbn [Z.eqb Pos.eqb].
    rewrite Hj. eapply fails_seq; [apply fetches_lift |].
    unfold _parse_posts_from_github_api.
    eapply fails_seq; [apply fetches_logger | apply fails_raise].
Qed.

Lemma listing_that_is_no_list_witness :
  let self := {| config := config Sample.online; dry_run := false;
                 session := fun _ => Some (Sample.file_object "text") |} in
  fetches (_get_posts_from_member_site (L := Sample.lib) self Sample.alice) []
          [api_url_of Sample.alice].
Proof.
  intros self.
  apply (listing_that_is_no_list (L := Sample.lib) self Sample.alice
           (Sample.file_object "text")); [reflexivity .. |].
  right. eexists. reflexivity.
Defined.

(** X7.  What follows the listing request depends on [bool(response)]
    before it depends on the status.  A response that is false as a
    condition (as [requests] has it for every status from 400 to 599,
    404 and 403 among them) sends the fetcher to the fallback, like no
    response at all: the publications are those of the fallback.  A
    response that is true as a condition with a status other than 200
    and 403 gives no publication, and the fallback is not tried. *)
Theorem listing_status_and_truth_value {L : PyLib} (self : MemberPostSync)
  (member : Member) (r : Response) :
  session self (api_url_of member) = Some r ->
  (response_bool r = false ->
   forall posts us,
     fetches (_get_posts_via_raw_github self (m_username member)
                (PyStr.strip_slash
                   (default "/publications" (m_publications_path member)))
                member) posts us ->
     fetches (_get_posts_from_member_site self member) posts
             (api_url_of member :: us)) /\
  (response_bool r = true -> status_code r <> 200 -> status_code r <> 403 ->
   fetches (_get_posts_from_member_site self member) [] [api_url_of member]).
Proof.
  intros Hs. split.
  - intros Hb posts us Hfall. member_site_open.
    apply fetches_try.
    eapply fetches_seq; [apply fetches_logger |].
    eapply fetches_cons; [apply fetches_safe_request |].
    rewrite Hs. cbv beta iota. rewrite Hb.
    eapply fetches_seq; [apply fetches_logger |].
    eapply fetches_seq; [apply fetches_logger | exact Hfall].
  - intros Hb H200 H403. member_site_open.
    apply fetches_try.
    eapply fetches_seq; [apply fetches_logger |].
    eapply fetches_cons; [apply fetches_safe_request |].
    rewrite Hs. cbv beta iota. rewrite Hb.
    rewrite (proj2 (Z.eqb_neq _ _) H200), (proj2 (Z.eqb_neq _ _) H403).
    eapply fetches_seq; [apply fetches_logger |].
    destruct (Z.eqb (status_code r) 404);
      (eapply fetches_seq; [apply fetches_logger | apply fetches_ret]).
Qed.

Lemma listing_status_and_truth_value_witness :
  let answers code :=
    {| config := config Sample.online; dry_run := false;
       session := fun url =>
         if bool_decide (url = api_url_of Sample.alice)
         then Some (Sample.status code) else None |} in
  fetches (_get_posts_from_member_site (L := Sample.lib) (answers 404) Sample.alice)
          [] [api_url_of Sample.alice; Sample.raw_base +:+ "index.qmd"] /\
  fetches (_get_posts_from_member_site (L := Sample.lib) (answers 301) Sample.alice)
          [] [api_url_of Sample.alice].
Proof.
  intros answers. split.
  - apply (proj1 (listing_status_and_truth_value (L := Sample.lib) (answers 404)
                    Sample.alice (Sample.status 404) eq_refl) eq_refl).
    unfold _get_posts_via_raw_github. apply fetches_try.
    apply fetches_for_acc_one.
    exact (raw_item_fetches (L := Sample.lib) (answers 404) "Alice"
             "Alice.github.io" "publications" Sample.alice "20250917_test" []).
  - apply (proj2 (listing_status_and_truth_value (L := Sample.lib) (answers 301)
                    Sample.alice (Sample.status 301) eq_refl));
      [reflexivity | discriminate ..].
Defined.

(** ** Documents whose metadata block is no mapping *)

(** X8.  A document whose metadata block is well-formed YAML but not a
    mapping (an empty block, which loads as [None], a scalar or a list)
    is signalled as a failure like a malformed one: [frontmatter.get]
    raises, the error is logged and [_parse_qmd_content] returns
    [None]. *)
Theorem metadata_that_is_no_mapping {L : PyLib} (content filename : string)
  (member : Member) (part0 part1 part2 : string) (rest : list string)
  (loaded : yaml) :
  PyStr.startswith "---" content = true ->
  PyStr.split "---" 2 content = part0 :: part1 :: part2 :: rest ->
  yaml_safe_load (PyStr.strip part1) = Ok loaded ->
  (forall frontmatter, loaded <> YDict frontmatter) ->
  parse_qmd content filename member = Raise AttributeError /\
  forall w,
    _parse_qmd_content content filename member w
    = (Ok None,
       add_log w [{| lr_level := ERROR;
                     lr_template := "Error parsing {filename}: {e}";
                     lr_args := [AStr filename; AExn AttributeError] |}]).
Proof.
  intros Hstart Hsplit Hload Hno.
  assert (Hparse : parse_qmd content filename member = Raise AttributeError).
  { unfold parse_qmd. rewrite Hstart, Hsplit. cbv zeta. rewrite Hload.
    cbn [rbind]. destruct loaded as [| | | | |frontmatter]; try reflexivity.
    now destruct (Hno frontmatter). }
  split; [exact Hparse |].
  intros w. unfold _parse_qmd_content. rewrite Hparse.
  now rewrite (bind_ok _ _ _ _ _ (logger_run _ _ _ w)).
Qed.

Lemma metadata_that_is_no_mapping_witness :
  parse_qmd (L := Sample.lib)
    ("---" +:+ PyStr.LF +:+ "---" +:+ PyStr.LF +:+ "Body") "index.qmd"
    Sample.alice = Raise AttributeError.
Proof.
  apply (metadata_that_is_no_mapping (L := Sample.lib)
           ("---" +:+ PyStr.LF +:+ "---" +:+ PyStr.LF +:+ "Body") "index.qmd"
           Sample.alice "" PyStr.LF (PyStr.LF +:+ "Body") [] YNull);
    [reflexivity | reflexivity | reflexivity | discriminate].
Defined.

(** ** The metadata block beyond the required fields *)

Lemma required_fields_other {L : PyLib} (publication : Publication)
  (member : Member) (directory_name : string) (c : yaml) (key : string) :
  key <> "title" -> key <> "author" -> key <> "categories" -> key <> "source" ->
  required_fields publication member directory_name c !! key = None.
Proof.
  intros Ht Ha Hc Hs. unfold required_fields. cbv zeta.
  rewrite lookup_insert_ne by congruence.
  rewrite lookup_insert_ne by congruence.
  rewrite lookup_insert_ne by congruence.
  apply lookup_singleton_ne. congruence.
Qed.

(** X9.  In the rendered metadata block every key of the original block
    other than [title], [author], [categories] and [source] is copied
    with its value, and no other key is added.  The four keys are the
    sync's own: [title] is the publication's title, and [source] is the
    record the sync builds (member, username, original URL, GitHub path,
    directory), also when the original block has a [source] key. *)
Theorem additional_metadata_passes_through {L : PyLib} (publication : Publication)
  (member : Member) (directory_name : string) (fm : gmap string yaml)
  (publication' : Publication) :
  local_post_frontmatter publication member directory_name = Ok (fm, publication') ->
  (forall key,
     key <> "title" -> key <> "author" -> key <> "categories" -> key <> "source" ->
     fm !! key = default ∅ (p_original_frontmatter publication) !! key) /\
  fm !! "title"
    = Some (default (YStr "Untitled Publication") (p_title publication)) /\
  fm !! "source"
    = Some (YDict
              {[ "member" := YStr (m_name member);
                 "username" := YStr (m_username member);
                 "original_url" :=
                   YStr (default (m_profile_url member) (p_source_url publication));
                 "github_path" :=
                   YStr (default EmptyString (p_github_path publication));
                 "directory" := YStr directory_name ]}).
Proof.
  intros Hfm.
  destruct (frontmatter_inv _ _ _ _ _ Hfm) as (c1 & c2 & _ & _ & -> & _).
  split; [| split].
  - intros key Ht Ha Hc Hs.
    rewrite lookup_insert_ne by congruence.
    rewrite lookup_union_r by now apply required_fields_other.
    apply lookup_delete_ne. congruence.
  - rewrite lookup_insert_ne by discriminate.
    apply lookup_union_Some_l. unfold required_fields. cbv zeta.
    rewrite lookup_insert_ne by discriminate. apply lookup_insert_eq.
  - rewrite lookup_insert_ne by discriminate.
    apply lookup_union_Some_l. unfold required_fields. cbv zeta.
    apply lookup_insert_eq.
Qed.

Lemma additional_metadata_passes_through_witness :
  exists fm publication',
    local_post_frontmatter (L := Sample.lib) Sample.paper Sample.alice "2025_paper"
      = Ok (fm, publication') /\
    fm !! "title" = Some (YStr "Paper X") /\
    fm !! "type" = default ∅ (p_original_frontmatter Sample.paper) !! "type".
Proof.
  destruct (local_post_frontmatter (L := Sample.lib) Sample.paper Sample.alice
              "2025_paper") as [[fm publication']|e] eqn:Hfm;
    [| vm_compute in Hfm; discriminate].
  destruct (additional_metadata_passes_through (L := Sample.lib) Sample.paper
              Sample.alice "2025_paper" fm publication' Hfm) as (Hkeys & Htitle & _).
  exists fm, publication'. split; [reflexivity |].
  split; [exact Htitle |].
  apply Hkeys; discriminate.
Defined.

(** ** The order of the rendered categories *)

Lemma in_list_app_false (x : yaml) (l l' : list yaml) :
  Py.in_list x (l ++ l') = false -> Py.in_list x l = false.
Proof.
  intros H. destruct (Py.in_list x l) eqn:Hx; [| reflexivity].
  now rewrite (in_list_app x l l' Hx) in H.
Qed.

Lemma rfold_ensure_extends (xs : list yaml) : forall l,
  exists added,
    rfold Py.ensure xs (YList l) = Ok (YList (l ++ added)) /\
    forall c, In c added -> Py.in_list c l = false.
Proof.
  induction xs as [|x xs IH]; intros l; cbn [rfold].
  - exists []. split; [now rewrite app_nil_r | intros c []].
  - rewrite ensure_list. cbn [rbind].
    destruct (Py.in_list x l) eqn:Hx.
    + apply IH.
    + destruct (IH (l ++ [x])) as (added & -> & Hadded).
      exists (x :: added). split; [now rewrite <- app_assoc |].
      intros c [<- | Hc]; [exact Hx |].
      eapply in_list_app_false. now apply Hadded.
Qed.

(** X10.  Rendering keeps the categories of the publication as they are
    and in their order, and only appends: the rendered list is the given
    list followed by entries that were not in it (the marker and the
    original block's categories that were missing).  Every category of
    the original block is in the rendered list. *)
Theorem rendered_categories_extend_the_given {L : PyLib} (publication : Publication)
  (member : Member) (directory_name : string) (given : list yaml)
  (fm : gmap string yaml) (publication' : Publication) :
  default (YList [YStr "research"; YStr MARKER]) (get_categories publication)
    = YList given ->
  local_post_frontmatter publication member directory_name = Ok (fm, publication') ->
  exists added,
    fm !! "categories" = Some (YList (given ++ added)) /\
    (forall c, In c added -> Py.in_list c given = false) /\
    (forall original c,
       default ∅ (p_original_frontmatter publication) !! "categories"
         = Some original ->
       In c (match original with YList l => l | _ => [original] end) ->
       Py.in_list c (given ++ added) = true).
Proof.
  intros Hgiven Hfm.
  destruct (frontmatter_inv _ _ _ _ _ Hfm) as (c1 & c2 & Hc1 & Hc2 & -> & _).
  rewrite Hgiven, ensure_list in Hc1. injection Hc1 as <-.
  rewrite lookup_insert_eq.
  set (first := if Py.in_list (YStr MARKER) given then []
                else [YStr MARKER]).
  assert (Hfirst : (if Py.in_list (YStr MARKER) given then given
                    else given ++ [YStr MARKER]) = given ++ first).
  { unfold first. destruct (Py.in_list (YStr MARKER) given);
      [now rewrite app_nil_r | reflexivity]. }
  assert (Hnew : forall c, In c first -> Py.in_list c given = false).
  { unfold first. intros c.
    destruct (Py.in_list (YStr MARKER) given) eqn:Hm; [intros [] |].
    now intros [<- | []]. }
  rewrite Hfirst in Hc2. clearbody first.
  unfold merge_categories in Hc2.
  destruct (default ∅ (p_original_frontmatter publication) !! "categories")
    as [original|] eqn:Horig.
  - destruct (p_categories publication) eqn:Hslot.
    + destruct (rfold_ensure_extends
                  (match original with YList l => l | _ => [original] end)
                  (given ++ first)) as (added & Hrun & Hadded).
      rewrite Hrun in Hc2. injection Hc2 as <-.
      exists (first ++ added). rewrite app_assoc. split; [reflexivity |].
      split.
      * intros c Hc. apply in_app_or in Hc. destruct Hc as [Hc | Hc];
          [now apply Hnew | eapply in_list_app_false; now apply Hadded].
      * intros original' c [= <-] Hc.
        pose proof (rfold_ensure_all _ _ _ Hrun c Hc) as Hin.
        now injection Hin.
    + destruct (rfold_ensure_extends
                  (match original with YList l => l | _ => [original] end)
                  (given ++ first)) as (added & Hrun & Hadded).
      rewrite Hrun in Hc2. injection Hc2 as <-.
      exists (first ++ added). rewrite app_assoc. split; [reflexivity |].
      split.
      * intros c Hc. apply in_app_or in Hc. destruct Hc as [Hc | Hc];
          [now apply Hnew | eapply in_list_app_false; now apply Hadded].
      * intros original' c [= <-] Hc.
        pose proof (rfold_ensure_all _ _ _ Hrun c Hc) as Hin.
        now injection Hin.
    + rewrite ensure_all_live_id in Hc2. injection Hc2 as <-.
      exists first. split; [reflexivity |]. split; [exact Hnew |].
      intros original' c [= <-] Hc.
      unfold get_categories in Hgiven. rewrite Hslot, Horig in Hgiven.
      cbn [default from_option id] in Hgiven. subst original.
      apply in_list_app. now apply in_list_elem.
  - injection Hc2 as <-. exists first. split; [reflexivity |].
    split; [exact Hnew | discriminate].
Qed.

Lemma rendered_categories_extend_the_given_witness :
  exists fm publication',
    local_post_frontmatter (L := Sample.lib) Sample.paper Sample.alice "2025_paper"
      = Ok (fm, publication') /\
    fm !! "categories" = Some (YList [YStr "paper"; YStr MARKER]).
Proof.
  destruct (local_post_frontmatter (L := Sample.lib) Sample.paper Sample.alice
              "2025_paper") as [[fm publication']|e] eqn:Hfm;
    [| vm_compute in Hfm; discriminate].
  destruct (rendered_categories_extend_the_given (L := Sample.lib) Sample.paper
              Sample.alice "2025_paper" [YStr "paper"] fm publication' eq_refl Hfm)
    as (added & Hcats & _ & _).
  exists fm, publication'. split; [reflexivity |].
  rewrite Hcats. vm_compute in Hfm. injection Hfm as <- _.
  vm_compute in Hcats. injection Hcats as <-. reflexivity.
Defined.

(** ** Downloading an image *)

Lemma fs_update_raise (op : gmap Path Node -> Result (gmap Path Node)) (w : World)
  (e : Exn) :
  op (w_fs w) = Raise e -> fs_update op w = (Raise e, w).
Proof. intros H. unfold fs_update, bind, get_fs, lift. now rewrite H. Qed.

(** X11.  [_download_image_file] never raises: it returns a boolean in
    every world.  It returns [True] only when the request is answered
    with status 200, and then the local path holds the bytes of the
    response.  When the request fails or is answered with another
    status it returns [False] and the local files are as before. *)
Theorem download_image_file_result {L : PyLib} (self : MemberPostSync)
  (local_path : Path) (download_url : string) (w : World) :
  exists downloaded w',
    _download_image_file self local_path download_url w = (Ok downloaded, w') /\
    w_requests w' = w_requests w ++ [download_url] /\
    (downloaded = true ->
     exists r, session self download_url = Some r /\
               ok_200 (Some r) = true /\
               w_fs w' !! local_path = Some (File (content r))) /\
    (ok_200 (session self download_url) = false ->
     downloaded = false /\ w_fs w' = w_fs w).
Proof.
  destruct (fetches_safe_request self download_url w) as (w1 & H1 & Hr1 & Hfs1).
  unfold _download_image_file, try_except.
  rewrite (bind_ok _ _ _ _ _ H1).
  destruct (session self download_url) as [r|] eqn:Hs.
  - change (response_bool r && Z.eqb (status_code r) 200) with (ok_200 (Some r)).
    destruct (ok_200 (Some r)) eqn:Hok.
    + destruct (FS.mkdir_p (w_fs w1) (PurePath.parent local_path))
        as [fs1|e1] eqn:Hmk.
      * rewrite (bind_ok _ _ _ _ _ (fs_update_ok _ _ _ Hmk)).
        destruct (FS.write_text fs1 local_path (content r)) as [fs2|e2] eqn:Hwr.
        -- rewrite (bind_ok _ _ _ _ _ (fs_update_ok _ (with_fs w1 fs1) _ Hwr)).
           rewrite (bind_ok _ _ _ _ _ (logger_run _ _ _ _)).
           eexists _, _. split; [reflexivity |].
           split; [exact Hr1 |]. split; [| discriminate].
           intros _. exists r. split; [reflexivity |].
           split; [exact Hok | exact (write_text_self _ _ _ _ Hwr)].
        -- rewrite (bind_raise _ _ _ _ _
                      (fs_update_raise _ (with_fs w1 fs1) _ Hwr)).
           rewrite (bind_ok _ _ _ _ _ (logger_run _ _ _ _)).
           eexists _, _. split; [reflexivity |].
           split; [exact Hr1 |]. split; discriminate.
      * rewrite (bind_raise _ _ _ _ _ (fs_update_raise _ _ _ Hmk)).
        rewrite (bind_ok _ _ _ _ _ (logger_run _ _ _ _)).
        eexists _, _. split; [reflexivity |].
        split; [exact Hr1 |]. split; discriminate.
    + rewrite (bind_ok _ _ _ _ _ (logger_run _ _ _ _)).
      eexists _, _. split; [reflexivity |].
      split; [exact Hr1 |]. split; [discriminate |].
      intros _. split; [reflexivity | exact Hfs1].
  - rewrite (bind_ok _ _ _ _ _ (logger_run _ _ _ _)).
    eexists _, _. split; [reflexivity |].
    split; [exact Hr1 |]. split; [discriminate |].
    intros _. split; [reflexivity | exact Hfs1].
Qed.

(** ** A second run *)

Lemma keeps_now_sync_publication {L : PyLib} (now : string) self member publication :
  keeps (fun w => w_now w = now) (sync_publication self member publication).
Proof.
  unfold sync_publication, _create_local_post, dry_run_report, reconcile,
    write_local_post, download_images, _download_image_file, _safe_request,
    bump, fs_update.
  keeps_auto.
Qed.

(** A real run on a publication that renders, after the decision. *)
Lemma sync_publication_decided {L : PyLib} (self : MemberPostSync) (member : Member)
  (publication publication' : Publication) (w : World) (index_path : Path)
  (content : string) (image_downloads : list (Path * string)) :
  dry_run self = false ->
  render_local_post self (w_now w) publication member
    = Ok ((index_path, content, image_downloads), publication') ->
  FS.node_at (w_fs w) index_path <> Some Dir ->
  let action := spec_decision (local_text (w_fs w) index_path) content in
  sync_publication self member publication w
  = try_except
      (if match action with SKIP => false | _ => true end
       then write_local_post self index_path content image_downloads
       else ret tt)
      (fun e =>
         logger ERROR
           "Error processing publication {publication.get('directory_name', 'unknown')}: {e}"
           [AStr (default "unknown" (p_directory_name publication)); AExn e])
      (with_counts (add_log w [decision_line action index_path])
                   (count_action action (w_counts w))).
Proof.
  intros Hdry Hr Hdir action.
  pose proof (reconcile_run index_path content w Hdir) as Hrec.
  fold action in Hrec.
  unfold sync_publication, try_except.
  erewrite bind_ok by (rewrite create_local_post_run, Hr; reflexivity).
  cbn [fst snd]. rewrite Hdry.
  now erewrite bind_ok by exact Hrec.
Qed.

Lemma mkdir_keeps_directory (fs fs' : gmap Path Node) (q p : Path) :
  FS.mkdir_p fs q = Ok fs' -> FS.node_at fs p = Some Dir ->
  FS.node_at fs' p = Some Dir.
Proof.
  unfold FS.mkdir_p, FS.node_at. intros Hmk.
  destruct (bool_decide (p = [] \/ p = ["/"])); [trivial |].
  now apply (mkdir_chain_keeps q fs [] fs' p Dir).
Qed.

Lemma written_text_is_local (fs fs' : gmap Path Node) (p : Path) (c : string) :
  FS.write_text fs p c = Ok fs' -> FS.node_at fs p <> Some Dir.
Proof.
  unfold FS.write_text. intros H Hdir. rewrite Hdir in H. discriminate.
Qed.

Lemma local_text_of_file (fs : gmap Path Node) (p : Path) (c : string) :
  FS.node_at fs p <> Some Dir -> fs !! p = Some (File c) ->
  local_text fs p = Some c.
Proof.
  unfold local_text, FS.node_at.
  destruct (bool_decide (p = [] \/ p = ["/"])); [congruence |].
  now intros _ ->.
Qed.

Lemma node_at_special (fs fs' : gmap Path Node) (p : Path) (n : Node) :
  FS.node_at fs p <> Some Dir -> fs' !! p = Some n -> FS.node_at fs' p = Some n.
Proof.
  unfold FS.node_at.
  destruct (bool_decide (p = [] \/ p = ["/"])); [congruence | trivial].
Qed.

Lemma write_local_post_leaves_text {L : PyLib} (self : MemberPostSync)
  (index_path : Path) (content : string) (image_downloads : list (Path * string))
  (fs1 fs2 : gmap Path Node) (w : World) :
  FS.mkdir_p (w_fs w) (PurePath.parent index_path) = Ok fs1 ->
  FS.write_text fs1 index_path content = Ok fs2 ->
  Forall (fun d => fst d <> index_path) image_downloads ->
  forall handler : Exn -> M unit,
    (forall e w', w_fs (snd (handler e w')) = w_fs w') ->
    w_fs (snd (try_except
                 (write_local_post self index_path content image_downloads)
                 handler w)) !! index_path
    = Some (File content).
Proof.
  intros Hmk Hwr Himgs handler Hhandler.
  unfold try_except, write_local_post.
  erewrite bind_ok by (apply fs_update_ok; exact Hmk).
  erewrite bind_ok by (apply fs_update_ok; exact Hwr).
  pose proof (download_images_other index_path (File content) self
                image_downloads Himgs
                (with_fs (with_fs w fs1) fs2)
                (write_text_self _ _ _ _ Hwr)) as Hkeep.
  destruct (download_images self image_downloads _) as [[[]|e] w2];
    cbn [snd] in *; [exact Hkeep |].
  now rewrite Hhandler.
Qed.



(** ** The run as a whole *)

Lemma filter_none {A : Type} (f : A -> bool) (l : list A) :
  (forall x, In x l -> f x = false) -> List.filter f l = [].
Proof.
  induction l as [|x l IH]; intros H; [reflexivity |].
  cbn [List.filter]. rewrite (H x (or_introl eq_refl)).
  apply IH. intros y Hy. apply H. now right.
Qed.

(** X13.  A selection that names no member of the configuration is
    reported and nothing else happens: the run logs that the member was
    not found and returns, without a request, without making the
    publications directory and without touching a file. *)
Theorem unknown_member_is_reported {L : PyLib} (self : MemberPostSync)
  (member_username : option string) (u : string) (w : World) :
  selection member_username = Some u ->
  (forall m, In m (default [] (members (config self))) -> m_username m <> u) ->
  sync_member_posts self member_username w
  = (Ok tt,
     add_log w [{| lr_level := ERROR;
                   lr_template := "Member {member_username} not found in configuration";
                   lr_args := [AStr u] |}]).
Proof.
  intros Hsel Hnone. unfold sync_member_posts.
  assert (Hempty : selected_members self member_username = []).
  { unfold selected_members. rewrite Hsel. apply filter_none.
    intros m Hm. apply bool_decide_eq_false_2. now apply Hnone. }
  rewrite Hsel, Hempty. apply logger_run.
Qed.

Lemma unknown_member_is_reported_witness :
  w_log (snd (sync_member_posts (L := Sample.lib) Sample.self (Some "Zed")
                Sample.empty_world))
  = [{| lr_level := ERROR;
        lr_template := "Member {member_username} not found in configuration";
        lr_args := [AStr "Zed"] |}].
Proof.
  rewrite (unknown_member_is_reported (L := Sample.lib) Sample.self (Some "Zed")
             "Zed" Sample.empty_world eq_refl).
  - reflexivity.
  - intros m [<- | []]. discriminate.
Defined.

Lemma returns_member_loop {L : PyLib} (self : MemberPostSync)
  (members : list Member) :
  returns (for_each members (fun member =>
             try_except (_sync_member_posts self member)
               (fun e =>
                  logger ERROR
                    "Error syncing publications for {member['username']}: {e}"
                    [AStr (m_username member); AExn e]))).
Proof.
  apply returns_for_each. intros member.
  apply returns_try_except. intros e. apply returns_logger.
Qed.

(** X14.  A run returns normally whatever the members' sites answer and
    whatever is in the members' directories: in dry-run mode always, and
    in a real run as soon as the publications directory is there or can
    be made.  An exception in the sync of one member is caught and the
    loop goes on with the next member. *)
Theorem run_returns {L : PyLib} (self : MemberPostSync)
  (member_username : option string) (w : World) :
  dry_run self = true \/
  (exists fs', FS.mkdir_p (w_fs w) base_publications_dir = Ok fs') ->
  exists w', sync_member_posts self member_username w = (Ok tt, w').
Proof.
  intros Hcase.
  assert (Hmain : exists w',
             (logger INFO "Syncing publications for {len(active_members)} active members"
                     [AInt (Z.of_nat (List.length
                                        (active_members self member_username)))] ;;
              (if negb (dry_run self) then
                 fs_update (fun fs => FS.mkdir_p fs base_publications_dir)
               else ret tt) ;;
              for_each (active_members self member_username) (fun member =>
                try_except (_sync_member_posts self member)
                  (fun e =>
                     logger ERROR
                       "Error syncing publications for {member['username']}: {e}"
                       [AStr (m_username member); AExn e]))) w = (Ok tt, w')).
  { rewrite (bind_ok _ _ _ _ _ (logger_run _ _ _ w)).
    set (w0 := add_log w _).
    assert (Hdir : exists w1,
               (if negb (dry_run self) then
                  fs_update (fun fs => FS.mkdir_p fs base_publications_dir)
                else ret tt) w0 = (Ok tt, w1)).
    { destruct Hcase as [-> | [fs' Hmk]]; [now exists w0 |].
      destruct (dry_run self); [now exists w0 |].
      exists (with_fs w0 fs'). now apply fs_update_ok. }
    destruct Hdir as [w1 Hdir]. rewrite (bind_ok _ _ _ _ _ Hdir).
    destruct (returns_member_loop self (active_members self member_username) w1)
      as ([] & w' & Hloop).
    now exists w'. }
  unfold sync_member_posts.
  destruct (selection member_username) as [u|];
    [destruct (selected_members self member_username) |]; try exact Hmain.
  eexists. apply logger_run.
Qed.

Lemma run_returns_witness :
  exists w', sync_member_posts (L := Sample.lib) Sample.self None Sample.empty_world
             = (Ok tt, w').
Proof.
  apply (run_returns (L := Sample.lib) Sample.self None Sample.empty_world).
  right. eexists. reflexivity.
Defined.

(** X15.  A real run that has members to look at makes the publications
    directory before the loop and outside any [try]: when a file named
    [publications] is in the way, the run raises [FileExistsError] right
    after its first log line, before any member is synced and before any
    request. *)
Theorem file_in_place_of_publications_aborts {L : PyLib} (self : MemberPostSync)
  (member_username : option string) (w : World) (t : string) :
  dry_run self = false ->
  w_fs w !! base_publications_dir = Some (File t) ->
  selection member_username = None \/
  selected_members self member_username <> [] ->
  sync_member_posts self member_username w
  = (Raise FileExistsError,
     add_log w [{| lr_level := INFO;
                   lr_template :=
                     "Syncing publications for {len(active_members)} active members";
                   lr_args := [AInt (Z.of_nat
                                 (List.length
                                    (active_members self member_username)))] |}]).
Proof.
  intros Hdry Hfile Hsel.
  assert (Hmain :
            (logger INFO "Syncing publications for {len(active_members)} active members"
                    [AInt (Z.of_nat (List.length
                                       (active_members self member_username)))] ;;
             (if negb (dry_run self) then
                fs_update (fun fs => FS.mkdir_p fs base_publications_dir)
              else ret tt) ;;
             for_each (active_members self member_username) (fun member =>
               try_except (_sync_member_posts self member)
                 (fun e =>
                    logger ERROR
                      "Error syncing publications for {member['username']}: {e}"
                      [AStr (m_username member); AExn e]))) w
            = (Raise FileExistsError,
               add_log w [{| lr_level := INFO;
                             lr_template :=
                               "Syncing publications for {len(active_members)} active members";
                             lr_args := [AInt (Z.of_nat
                                           (List.length
                                              (active_members self member_username)))] |}])).
  { rewrite (bind_ok _ _ _ _ _ (logger_run _ _ _ w)). rewrite Hdry. cbn [negb].
    apply bind_raise. apply fs_update_raise.
    unfold FS.mkdir_p, base_publications_dir. cbn [FS.mkdir_chain app].
    unfold FS.node_at. cbn [add_log w_fs].
    rewrite bool_decide_eq_false_2 by (intros [H | H]; discriminate H).
    unfold base_publications_dir in Hfile. now rewrite Hfile. }
  unfold sync_member_posts.
  destruct (selection member_username) as [u|];
    [destruct (selected_members self member_username) |]; try exact Hmain.
  destruct Hsel as [H | H]; [discriminate H | now destruct H].
Qed.

Lemma file_in_place_of_publications_aborts_witness :
  let w := with_fs Sample.empty_world {[ ["publications"] := File "notes" ]} in
  fst (sync_member_posts (L := Sample.lib) Sample.self None w)
  = Raise FileExistsError.
Proof.
  intros w.
  now rewrite (file_in_place_of_publications_aborts (L := Sample.lib) Sample.self
                 None w "notes" eq_refl eq_refl (or_introl eq_refl)).
Defined.

(** ** The counters *)

Lemma total_count_action (a : Action) (c : Counts) :
  total_count (count_action a c) = S (total_count c).
Proof. destruct a, c; unfold total_count; cbn; lia. Qed.

Lemma reconcile_counts (index_path : Path) (content : string) (w : World) :
  w_counts (snd (reconcile index_path content w)) = w_counts w \/
  exists a, w_counts (snd (reconcile index_path content w))
            = count_action a (w_counts w).
Proof.
  destruct (decide (FS.node_at (w_fs w) index_path = Some Dir)) as [Hdir | Hdir].
  - left. unfold reconcile, bind, get_fs, lift, FS.path_exists, FS.read_text.
    rewrite Hdir. now rewrite bool_decide_eq_true_2 by eauto.
  - right. rewrite (reconcile_run index_path content w Hdir). eexists. reflexivity.
Qed.

Lemma sync_publication_counts {L : PyLib} (self : MemberPostSync) (member : Member)
  (publication : Publication) (w : World) :
  let w' := snd (sync_publication self member publication w) in
  (dry_run self = true -> w_counts w' = w_counts w) /\
  (w_counts w' = w_counts w \/ exists a, w_counts w' = count_action a (w_counts w)).
Proof.
  cbv zeta. unfold sync_publication, try_except.
  destruct (render_local_post self (w_now w) publication member)
    as [[[[index_path content] image_downloads] publication']|e] eqn:Hr.
  - erewrite bind_ok by (rewrite create_local_post_run, Hr; reflexivity).
    cbn [fst snd]. destruct (dry_run self).
    + rewrite dry_run_report_run. cbn [snd]. split; [reflexivity | now left].
    + split; [discriminate |].
      pose proof (reconcile_counts index_path content w) as Hrec.
      destruct (reconcile index_path content w) as [[proceed|e] w1] eqn:Hrun;
        cbn [snd] in Hrec.
      * rewrite (bind_ok _ _ _ _ _ Hrun). destruct proceed; [| exact Hrec].
        pose proof (write_local_post_counts (w_counts w1) self index_path content
                      image_downloads w1 eq_refl) as Hw.
        destruct (write_local_post self index_path content image_downloads w1)
          as [[[]|e] w2]; cbn [snd] in Hw.
        -- cbn [snd]. now rewrite Hw.
        -- rewrite logger_run. cbn [snd add_log w_counts]. now rewrite Hw.
      * rewrite (bind_raise _ _ _ _ _ Hrun). rewrite logger_run.
        cbn [snd add_log w_counts]. exact Hrec.
  - erewrite bind_raise by (rewrite create_local_post_run, Hr; reflexivity).
    rewrite logger_run. cbn [snd add_log w_counts].
    split; [reflexivity | now left].
Qed.

Lemma sync_loop_counts {L : PyLib} (self : MemberPostSync) (member : Member)
  (publications : list Publication) :
  forall w,
    let w' := snd (for_each publications (sync_publication self member) w) in
    (dry_run self = true -> w_counts w' = w_counts w) /\
    (total_count (w_counts w) <= total_count (w_counts w')
     <= total_count (w_counts w) + List.length publications)%nat.
Proof.
  induction publications as [|publication publications IH]; intros w; cbv zeta.
  - cbn. split; [reflexivity | lia].
  - cbn [for_each List.length]. unfold bind.
    pose proof (sync_publication_counts self member publication w) as Hone.
    cbv zeta in Hone.
    destruct (sync_publication self member publication w) as [[[]|e] w1];
      cbn [snd] in *.
    + specialize (IH w1). cbv zeta in IH. destruct IH as [IHdry IHn].
      destruct Hone as [Hdry Hone]. split.
      * intros Hd. now rewrite (IHdry Hd), (Hdry Hd).
      * destruct Hone as [Hc | [a Hc]]; rewrite Hc in IHn;
          rewrite ?total_count_action in IHn; lia.
    + destruct Hone as [Hdry Hone]. split; [exact Hdry |].
      destruct Hone as [Hc | [a Hc]]; rewrite Hc;
        rewrite ?total_count_action; lia.
Qed.

(** X16.  Every publication of the loop of [_sync_member_posts] is
    counted at most once, as created, updated or skipped: after the loop
    the three counters together have grown by at most the number of
    publications, and none of them by a dry run. *)
Theorem publications_are_counted_at_most_once {L : PyLib} (self : MemberPostSync)
  (member : Member) (publications : list Publication) (w : World) :
  let w' := snd (for_each publications (sync_publication self member) w) in
  (total_count (w_counts w) <= total_count (w_counts w')
   <= total_count (w_counts w) + List.length publications)%nat /\
  (dry_run self = true -> w_counts w' = w_counts w).
Proof.
  pose proof (sync_loop_counts self member publications w) as H.
  cbv zeta in *. tauto.
Qed.

Lemma slice_to_length {A : Type} (n : Z) (l : list A) :
  (0 <= n)%Z -> (List.length (slice_to n l) <= Z.to_nat n)%nat.
Proof.
  intros Hn. unfold slice_to. rewrite (proj2 (Z.leb_le 0 n) Hn).
  apply firstn_le_length.
Qed.

(** X17.  With a limit [max_posts_per_member] that is not negative (50
    when the configuration gives none), a run of [_sync_member_posts]
    that finds publications counts at most that many of them: the
    counters start from zero and the loop runs over the first
    [max_posts] publications only.  When no publication is found the
    counters are left as they are. *)
Theorem member_summary_is_within_the_limit {L : PyLib} (self : MemberPostSync)
  (member : Member) (w : World) :
  let max_posts :=
    default 50 (max_posts_per_member
                  (default empty_sync_config (sync_config (config self)))) in
  (0 <= max_posts)%Z ->
  let w' := snd (_sync_member_posts self member w) in
  w_counts w' = w_counts w \/
  (total_count (w_counts w') <= Z.to_nat max_posts)%nat.
Proof.
  intros max_posts Hmax. cbv zeta. unfold _sync_member_posts. cbv zeta.
  fold max_posts.
  rewrite (bind_ok _ _ _ _ _ (logger_run _ _ _ w)).
  set (w0 := add_log w _).
  destruct (returns_member_site self member w0) as (fetched & w1 & Hfetch).
  pose proof (frame_member_site w0 self member w0) as Hframe.
  rewrite Hfetch in Hframe. cbn [snd] in Hframe.
  destruct (Hframe (conj eq_refl (conj eq_refl eq_refl))) as (_ & _ & Hc1).
  rewrite (bind_ok _ _ _ _ _ Hfetch).
  destruct fetched as [|publication fetched].
  - left. rewrite logger_run. exact Hc1.
  - right.
    assert (Hloop : forall publications w2,
               (List.length publications <= Z.to_nat max_posts)%nat ->
               (total_count
                  (w_counts
                     (snd ((put_counts zero_counts ;;
                            for_each publications (sync_publication self member) ;;
                            if negb (dry_run self) then
                              c <- get_counts ;;
                              logger INFO
                                "Sync completed for {username}: {created_count} created, {updated_count} updated, {skipped_count} skipped"
                                [AStr (m_username member);
                                 AInt (Z.of_nat (created_count c));
                                 AInt (Z.of_nat (updated_count c));
                                 AInt (Z.of_nat (skipped_count c))]
                            else ret tt) w2)))
                <= Z.to_nat max_posts)%nat).
    { intros publications w2 Hlen. unfold bind at 1. unfold put_counts at 1.
      pose proof (sync_loop_counts self member publications
                    (with_counts w2 zero_counts)) as [_ Hn].
      cbn [with_counts w_counts] in Hn.
      change (total_count zero_counts) with 0%nat in Hn.
      unfold bind at 1.
      destruct (for_each publications (sync_publication self member)
                  (with_counts w2 zero_counts)) as [[[]|e] w3]; cbn [snd] in *.
      - destruct (negb (dry_run self)); cbn; lia.
      - lia. }
    destruct (Z.ltb max_posts (Z.of_nat (List.length (publication :: fetched))))
      eqn:Hlt.
    + unfold bind at 1.
      rewrite (bind_ok _ _ _ _ _ (logger_run _ _ _ w1)).
      unfold ret at 1. cbv beta iota.
      apply Hloop. now apply slice_to_length.
    + unfold bind at 1. unfold ret at 1. cbv beta iota.
      apply Hloop. apply Z.ltb_ge in Hlt. lia.
Qed.

Lemma member_summary_is_within_the_limit_witness :
  let w' := snd (_sync_member_posts (L := Sample.lib) Sample.online Sample.alice
                   Sample.empty_world) in
  w_counts w' = zero_counts \/ (total_count (w_counts w') <= 50)%nat.
Proof.
  exact (member_summary_is_within_the_limit (L := Sample.lib) Sample.online
           Sample.alice Sample.empty_world ltac:(vm_compute; discriminate)).
Defined.

(** ** Categories that are no list *)

(** X18.  A publication whose [categories] value is a string that does
    not hold the marker as a substring (as for a block with
    [categories: research]) does not render: [append] is called on the
    string and raises [AttributeError].  The loop logs the error for the
    publication and goes on: nothing is counted and no file is
    written. *)
Theorem scalar_categories_do_not_render {L : PyLib} (self : MemberPostSync)
  (member : Member) (publication : Publication) (s : string) :
  get_categories publication = Some (YStr s) ->
  PyStr.contains MARKER s = false ->
  (forall now,
     render_local_post self now publication member = Raise AttributeError) /\
  (forall w,
     sync_publication self member publication w
     = (Ok tt,
        add_log w
          [{| lr_level := ERROR;
              lr_template :=
                "Error processing publication {publication.get('directory_name', 'unknown')}: {e}";
              lr_args := [AStr (default "unknown" (p_directory_name publication));
                          AExn AttributeError] |}])).
Proof.
  intros Hcats Hno.
  assert (Hrender : forall now,
             render_local_post self now publication member = Raise AttributeError).
  { intros now. unfold render_local_post, local_post_frontmatter. cbv zeta.
    rewrite Hcats. cbn [default from_option id].
    unfold Py.ensure, Py.contains. rewrite Hno. reflexivity. }
  split; [exact Hrender |].
  intros w. unfold sync_publication, try_except.
  erewrite bind_raise by (rewrite create_local_post_run, Hrender; reflexivity).
  apply logger_run.
Qed.

Lemma scalar_categories_do_not_render_witness :
  let publication :=
    {| p_title := Some (YStr "Notes"); p_author := Some (YStr "Alice A.");
       p_categories := CatShared; p_content := Some "Body";
       p_filename := Some "index.qmd";
       p_original_frontmatter := Some {[ "categories" := YStr "research" ]};
       p_directory_name := Some "notes"; p_source_url := Some "u";
       p_github_path := Some "p"; p_image_files := Some [] |} in
  snd (sync_publication (L := Sample.lib) Sample.self Sample.alice publication
         Sample.empty_world)
  = add_log Sample.empty_world
      [{| lr_level := ERROR;
          lr_template :=
            "Error processing publication {publication.get('directory_name', 'unknown')}: {e}";
          lr_args := [AStr "notes"; AExn AttributeError] |}].
Proof.
  intros publication.
  now rewrite (proj2 (scalar_categories_do_not_render (L := Sample.lib) Sample.self
                        Sample.alice publication "research" eq_refl eq_refl)
                 Sample.empty_world).
Defined.

(** ** From the text of a document to its rendered categories *)

Lemma get_categories_with_directory (publication : Publication)
  (directory_name source_url github_path : string) (image_files : list ImageInfo) :
  get_categories (with_directory publication directory_name source_url github_path
                    image_files)
  = get_categories publication.
Proof. reflexivity. Qed.

(** X19.  Parsing and rendering composed.  For a document without an
    opening delimiter the rendered categories are [research] and the
    marker.  For a document whose metadata block is a mapping without a
    [categories] key they are the marker alone; with a [categories] list
    they are that list, followed by the marker when it is not in it. *)
Theorem categories_of_a_parsed_document {L : PyLib} (content filename : string)
  (member : Member) (directory_name source_url github_path : string)
  (image_files : list ImageInfo) :
  let rendered publication :=
    local_post_frontmatter
      (with_directory publication directory_name source_url github_path image_files)
      member directory_name in
  (PyStr.startswith "---" content = false ->
   exists publication fm publication',
     parse_qmd content filename member = Ok publication /\
     rendered publication = Ok (fm, publication') /\
     fm !! "categories" = Some (YList [YStr "research"; YStr MARKER])) /\
  (forall part0 part1 part2 rest frontmatter,
     PyStr.startswith "---" content = true ->
     PyStr.split "---" 2 content = part0 :: part1 :: part2 :: rest ->
     yaml_safe_load (PyStr.strip part1) = Ok (YDict frontmatter) ->
     (frontmatter !! "categories" = None ->
      exists publication fm publication',
        parse_qmd content filename member = Ok publication /\
        rendered publication = Ok (fm, publication') /\
        fm !! "categories" = Some (YList [YStr MARKER])) /\
     (forall l,
        frontmatter !! "categories" = Some (YList l) ->
        exists publication fm publication',
          parse_qmd content filename member = Ok publication /\
          rendered publication = Ok (fm, publication') /\
          fm !! "categories"
          = Some (YList (if Py.in_list (YStr MARKER) l then l
                         else l ++ [YStr MARKER])))).
Proof.
  intros rendered. split.
  - intros Hstart. unfold parse_qmd. rewrite Hstart. cbv zeta.
    eexists _, _, _. split; [reflexivity |]. unfold rendered.
    split.
    + apply frontmatter_intro with (c1 := YList [YStr "research"; YStr MARKER]).
      * rewrite get_categories_with_directory. unfold get_categories.
        cbn [p_categories default from_option id]. now rewrite ensure_list.
      * unfold merge_categories. cbn [with_directory p_original_frontmatter
                                        default from_option id].
        now rewrite lookup_empty.
    + apply lookup_insert_eq.
  - intros part0 part1 part2 rest frontmatter Hstart Hsplit Hload.
    assert (Hparse : forall slot,
               slot = match frontmatter !! "categories" with
                      | Some _ => CatShared
                      | None => CatOwn (YList [])
                      end ->
               parse_qmd content filename member
               = Ok {| p_title := Some (default
                         (YStr (PyStr.title (PyStr.replace ".qmd" "" filename)))
                         (frontmatter !! "title"));
                       p_author := Some (default (YStr (m_name member))
                                           (frontmatter !! "author"));
                       p_categories := slot;
                       p_content := Some (PyStr.strip part2);
                       p_filename := Some filename;
                       p_original_frontmatter := Some frontmatter;
                       p_directory_name := None; p_source_url := None;
                       p_github_path := None; p_image_files := None |}).
    { intros slot ->. unfold parse_qmd. rewrite Hstart, Hsplit. cbv zeta.
      now rewrite Hload. }
    split.
    + intros Hnone. eexists _, _, _.
      split; [apply Hparse; now rewrite Hnone |]. unfold rendered. split.
      * apply frontmatter_intro with (c1 := YList [YStr MARKER]).
        -- rewrite get_categories_with_directory. unfold get_categories.
           cbn [p_categories default from_option id]. now rewrite ensure_list.
        -- unfold merge_categories. cbn [with_directory p_original_frontmatter
                                           default from_option id].
           now rewrite Hnone.
      * apply lookup_insert_eq.
    + intros l Hsome. eexists _, _, _.
      split; [apply Hparse; now rewrite Hsome |]. unfold rendered. split.
      * apply frontmatter_intro
          with (c1 := YList (if Py.in_list (YStr MARKER) l then l
                             else l ++ [YStr MARKER])).
        -- rewrite get_categories_with_directory. unfold get_categories.
           cbn [p_categories p_original_frontmatter default from_option id].
           rewrite Hsome. cbn [default from_option id]. apply ensure_list.
        -- unfold merge_categories. cbn [with_directory p_original_frontmatter
                                           p_categories default from_option id].
           rewrite Hsome. now rewrite ensure_all_live_id.
      * apply lookup_insert_eq.
Qed.

Lemma categories_of_a_parsed_document_witness :
  exists publication fm publication',
    parse_qmd (L := Sample.lib) Sample.text_with_metadata "index.qmd" Sample.alice
      = Ok publication /\
    local_post_frontmatter (L := Sample.lib)
      (with_directory publication "2025_paper" "u" "p" []) Sample.alice "2025_paper"
      = Ok (fm, publication') /\
    fm !! "categories" = Some (YList [YStr "paper"; YStr MARKER]).
Proof.
  destruct (categories_of_a_parsed_document (L := Sample.lib)
              Sample.text_with_metadata "index.qmd" Sample.alice "2025_paper"
              "u" "p" []) as [_ Hmeta].
  destruct (Hmeta "" (PyStr.LF +:+ Sample.doc_paper +:+ PyStr.LF)
              (PyStr.LF +:+ "Body") []
              {[ "title" := YStr "Paper X"; "categories" := YList [YStr "paper"] ]}
              eq_refl eq_refl eq_refl) as [_ Hlist].
  exact (Hlist [YStr "paper"] eq_refl).
Defined.

(** ** Local directories of one member *)

Lemma contains_slash_cons (c : ascii) (s : string) :
  PyStr.contains "/" (String c s)
  = (if ascii_dec "/" c then true else false) || PyStr.contains "/" s.
Proof.
  cbn [PyStr.contains]. rewrite prefix_cons.
  destruct (ascii_dec "/" c); [| reflexivity]. now destruct s.
Qed.

Lemma contains_slash_app (a b : string) :
  PyStr.contains "/" (a +:+ b) = PyStr.contains "/" a || PyStr.contains "/" b.
Proof.
  induction a as [|c a IH].
  - rewrite append_nil_l. reflexivity.
  - rewrite append_cons, !contains_slash_cons, IH. now rewrite orb_assoc.
Qed.

Lemma lower_char_slash (c : ascii) :
  (if ascii_dec "/" (PyStr.lower_char c) then true else false)
  = (if ascii_dec "/" c then true else false).
Proof. destruct c as [[] [] [] [] [] [] [] []]; reflexivity. Qed.

Lemma contains_slash_lower (s : string) :
  PyStr.contains "/" (PyStr.lower s) = PyStr.contains "/" s.
Proof.
  induction s as [|c s IH]; [reflexivity |].
  cbn [PyStr.lower]. now rewrite !contains_slash_cons, lower_char_slash, IH.
Qed.

Lemma append_inv_l (a x y : string) : a +:+ x = a +:+ y -> x = y.
Proof.
  induction a as [|c a IH]; [now rewrite !append_nil_l |].
  rewrite !append_cons. intros [= H]. now apply IH.
Qed.

Lemma parts_of_single (s : string) :
  PyStr.contains "/" s = false -> s <> EmptyString -> s <> "." ->
  PurePath.parts_of s = [s].
Proof.
  intros Hno Hne Hdot. unfold PurePath.parts_of, PyStr.split.
  rewrite (split_go_no_sep "/" s Hno), append_nil_l.
  rewrite filter_cons_True by (split; assumption). reflexivity.
Qed.

Lemma div_single (p : Path) (s : string) :
  PyStr.contains "/" s = false -> s <> EmptyString -> s <> "." ->
  p // s = p ++ [s].
Proof.
  intros Hno Hne Hdot. unfold PurePath.div.
  rewrite (parts_of_single s Hno Hne Hdot).
  destruct s as [|c s]; [now destruct Hne |].
  rewrite contains_slash_cons in Hno. unfold PyStr.startswith.
  rewrite prefix_cons. destruct (ascii_dec "/" c); [discriminate Hno | reflexivity].
Qed.

Lemma local_dir_name_parts (username directory_name : string) :
  PyStr.contains "/" username = false ->
  PyStr.contains "/" directory_name = false ->
  let local_dir_name := PyStr.lower username +:+ "-" +:+ directory_name in
  PyStr.contains "/" local_dir_name = false /\
  local_dir_name <> EmptyString /\ local_dir_name <> ".".
Proof.
  intros Hu Hd local_dir_name. unfold local_dir_name. split; [| split].
  - rewrite !contains_slash_app, contains_slash_lower, Hu, Hd. reflexivity.
  - destruct (PyStr.lower username); [rewrite append_nil_l | rewrite append_cons];
      discriminate.
  - destruct (PyStr.lower username) as [|c [|c' rest]];
      rewrite ?append_nil_l, ?append_cons, ?append_nil_l; discriminate.
Qed.

(** X20.  For a member whose username holds no slash, a publication
    with a remote directory name without a slash is rendered to
    [publications/{lowercased username}-{directory name}/index.qmd], and
    two such publications of the member with different remote directory
    names never get the same local file. *)
Theorem local_paths_of_a_member_do_not_collide {L : PyLib} (self : MemberPostSync)
  (member : Member) (now : string) (publication1 publication2 : Publication)
  (d1 d2 : string)
  (r1 r2 : (Path * string * list (Path * string)) * Publication) :
  PyStr.contains "/" (m_username member) = false ->
  p_directory_name publication1 = Some d1 -> PyStr.contains "/" d1 = false ->
  p_directory_name publication2 = Some d2 -> PyStr.contains "/" d2 = false ->
  render_local_post self now publication1 member = Ok r1 ->
  render_local_post self now publication2 member = Ok r2 ->
  fst (fst (fst r1))
    = ["publications"; PyStr.lower (m_username member) +:+ "-" +:+ d1; "index.qmd"] /\
  (fst (fst (fst r1)) = fst (fst (fst r2)) -> d1 = d2).
Proof.
  intros Hu Hn1 Hd1 Hn2 Hd2 Hr1 Hr2.
  assert (Hpath : forall publication d r,
             p_directory_name publication = Some d ->
             PyStr.contains "/" d = false ->
             render_local_post self now publication member = Ok r ->
             fst (fst (fst r))
             = ["publications"; PyStr.lower (m_username member) +:+ "-" +:+ d;
                "index.qmd"]).
  { intros publication d r Hn Hd Hr. unfold render_local_post in Hr.
    cbv zeta in Hr. rewrite Hn in Hr. cbn [default from_option id] in Hr.
    destruct (local_post_frontmatter publication member d) as [fp|e];
      [| discriminate Hr].
    cbn [rbind] in Hr. injection Hr as <-. cbn [fst].
    destruct (local_dir_name_parts (m_username member) d Hu Hd) as (Hs & He & Hdot).
    rewrite (div_single base_publications_dir _ Hs He Hdot).
    rewrite div_single by (reflexivity || discriminate). reflexivity. }
  rewrite (Hpath _ _ _ Hn1 Hd1 Hr1), (Hpath _ _ _ Hn2 Hd2 Hr2).
  split; [reflexivity |].
  intros [= H]. apply append_inv_l in H. now apply append_inv_l in H.
Qed.

Lemma local_paths_of_a_member_do_not_collide_witness :
  exists r,
    render_local_post (L := Sample.lib) Sample.self "20251104120000" Sample.paper
      Sample.alice = Ok r /\
    fst (fst (fst r)) = ["publications"; "alice-2025_paper"; "index.qmd"].
Proof.
  destruct (render_local_post (L := Sample.lib) Sample.self "20251104120000"
              Sample.paper Sample.alice) as [r|e] eqn:Hr;
    [| vm_compute in Hr; discriminate].
  exists r. split; [reflexivity |].
  exact (proj1 (local_paths_of_a_member_do_not_collide (L := Sample.lib)
                  Sample.self Sample.alice "20251104120000" Sample.paper
                  Sample.paper "2025_paper" "2025_paper" r r
                  eq_refl eq_refl eq_refl eq_refl eq_refl Hr Hr)).
Defined.
